(** * NFT marketplace backend: the listing and transaction projection

    A shallow embedding of the Go backend of the repository
    (service/listing_service.go, service/transaction_service.go, the
    repository package, blockchain/client.go and the event listener of
    the main package) and of the part of the SQL schema script their
    statements meet: the column types, the unique constraints and the
    triggers of the tables listings, transactions and nfts.  The
    relational store is explicit state; every operation takes the store
    and returns the new store with its result. *)

From Stdlib Require Import List String Ascii NArith ZArith QArith Bool Lia.
From Stdlib Require Import DecimalString DecimalN Sorted.
Import ListNotations.

Local Open Scope string_scope.
Local Open Scope N_scope.
Local Open Scope list_scope.

(** ** Bytes, hexadecimal text and decimal text *)

(** A byte is an 8-bit number; a Go [string] is a sequence of bytes, as
    is a Rocq [string]. *)
Definition byte := N.

Fixpoint bytes_of_string (s : string) : list byte :=
  match s with
  | EmptyString => []
  | String c r => N_of_ascii c :: bytes_of_string r
  end.

Fixpoint string_of_bytes (bs : list byte) : string :=
  match bs with
  | [] => EmptyString
  | b :: r => String (ascii_of_N b) (string_of_bytes r)
  end.

(** [encoding/hex]: the value of a hexadecimal digit, [None] for any
    other byte (the entries above 0x0f of [reverseHexTable]). *)
Definition fromHexChar (c : byte) : option N :=
  if (48 <=? c) && (c <=? 57) then Some (c - 48)
  else if (97 <=? c) && (c <=? 102) then Some (c - 97 + 10)
  else if (65 <=? c) && (c <=? 70) then Some (c - 65 + 10)
  else None.

(** [hex.Decode], as [common.Hex2Bytes] uses it: the error is dropped
    and the bytes decoded before the first invalid pair are kept.  A
    last unpaired byte decodes to nothing. *)
Fixpoint hex_Decode (src : list byte) : list byte :=
  match src with
  | p :: q :: rest =>
      match fromHexChar p, fromHexChar q with
      | Some a, Some b => N.lor (N.shiftl a 4) b :: hex_Decode rest
      | _, _ => []
      end
  | _ => []
  end.

Definition has0xPrefix (s : list byte) : bool :=
  match s with
  | 48 :: x :: _ => (x =? 120) || (x =? 88)
  | _ => false
  end.

(** [common.FromHex]: strip an optional 0x, pad an odd length with a
    leading zero digit, decode. *)
Definition FromHex (s : string) : list byte :=
  let b := bytes_of_string s in
  let b := if has0xPrefix b then skipn 2 b else b in
  let b := if Nat.odd (List.length b) then 48 :: b else b in
  hex_Decode b.

Definition AddressLength : nat := 20.

(** [common.Address] is [[20]byte]. *)
Definition Address := list byte.

(** [common.BytesToAddress]: the last 20 bytes of a longer slice, a
    shorter one padded on the left with zeros. *)
Definition BytesToAddress (b : list byte) : Address :=
  let b := if Nat.ltb AddressLength (List.length b)
           then skipn (List.length b - AddressLength) b else b in
  repeat 0 (AddressLength - List.length b) ++ b.

Definition HexToAddress (s : string) : Address := BytesToAddress (FromHex s).

Definition Address_eqb (a b : Address) : bool :=
  if list_eq_dec N.eq_dec a b then true else false.

Definition hextable (d : N) : byte :=
  if d <? 10 then 48 + d else 97 + (d - 10).

(** [hex.Encode]: two lower-case digits per byte. *)
Fixpoint hex_Encode (bs : list byte) : list byte :=
  match bs with
  | [] => []
  | b :: r => hextable (N.shiftr b 4) :: hextable (N.land b 15) :: hex_Encode r
  end.

(** [Address.hex] and [Address.MarshalText]: 0x and the lower-case
    digits. *)
Definition Address_hex (a : Address) : list byte := 48 :: 120 :: hex_Encode a.

(** *** Keccak-256, which [Address.Hex] needs for the EIP-55 letter case *)
Module Keccak.

Definition mask64 : N := N.ones 64.

Definition rotl64 (v n : N) : N :=
  N.lor (N.land (N.shiftl v n) mask64) (N.shiftr v (64 - n)).

(** The state is 25 lanes of 64 bits; lane (x, y) is at x + 5 y. *)
Definition lane (st : list N) (x y : nat) : N :=
  nth (x mod 5 + 5 * (y mod 5)) st 0.

Definition idx25 : list nat := seq 0 25.

Definition rotc : list N :=
  [ 0; 1; 62; 28; 27;  36; 44; 6; 55; 20;  3; 10; 43; 25; 39;
    41; 45; 15; 21; 8;  18; 2; 61; 56; 14 ].

Definition rndc : list N :=
  [ 0x0000000000000001; 0x0000000000008082; 0x800000000000808A;
    0x8000000080008000; 0x000000000000808B; 0x0000000080000001;
    0x8000000080008081; 0x8000000000008009; 0x000000000000008A;
    0x0000000000000088; 0x0000000080008009; 0x000000008000000A;
    0x000000008000808B; 0x800000000000008B; 0x8000000000008089;
    0x8000000000008003; 0x8000000000008002; 0x8000000000000080;
    0x000000000000800A; 0x800000008000000A; 0x8000000080008081;
    0x8000000000008080; 0x0000000080000001; 0x8000000080008008 ].

Definition theta (st : list N) : list N :=
  let c x := N.lxor (lane st x 0) (N.lxor (lane st x 1)
               (N.lxor (lane st x 2) (N.lxor (lane st x 3) (lane st x 4)))) in
  let d x := N.lxor (c ((x + 4) mod 5)%nat) (rotl64 (c ((x + 1) mod 5)%nat) 1) in
  map (fun i => N.lxor (nth i st 0) (d (i mod 5)%nat)) idx25.

Definition rho_pi (st : list N) : list N :=
  map (fun i =>
         let X := (i mod 5)%nat in
         let Y := (i / 5)%nat in
         let x := ((X + 3 * Y) mod 5)%nat in
         rotl64 (lane st x X) (nth (x + 5 * X) rotc 0)) idx25.

Definition chi (st : list N) : list N :=
  map (fun i =>
         let x := (i mod 5)%nat in
         let y := (i / 5)%nat in
         N.lxor (lane st x y)
                (N.ldiff (lane st (x + 2) y) (lane st (x + 1) y))) idx25.

Definition iota (rc : N) (st : list N) : list N :=
  match st with
  | a :: r => N.lxor a rc :: r
  | [] => []
  end.

Definition round (st : list N) (rc : N) : list N :=
  iota rc (chi (rho_pi (theta st))).

Definition keccak_f (st : list N) : list N := fold_left round rndc st.

(** Little-endian lanes of a block of bytes, and back. *)
Fixpoint le_word (bs : list byte) : N :=
  match bs with
  | [] => 0
  | b :: r => N.lor b (N.shiftl (le_word r) 8)
  end.

Fixpoint lanes_of (n : nat) (bs : list byte) : list N :=
  match n with
  | O => []
  | S k => le_word (firstn 8 bs) :: lanes_of k (skipn 8 bs)
  end.

Fixpoint le_bytes (n : nat) (w : N) : list byte :=
  match n with
  | O => []
  | S k => N.land w 255 :: le_bytes k (N.shiftr w 8)
  end.

Definition rate : nat := 136.

(** Keccak padding (domain byte 0x01, final bit 0x80). *)
Definition pad (msg : list byte) : list byte :=
  let q := (rate - List.length msg mod rate)%nat in
  if Nat.eqb q 1 then msg ++ [0x81]
  else msg ++ [0x01] ++ repeat 0 (q - 2) ++ [0x80].

Fixpoint absorb (blocks : nat) (bs : list byte) (st : list N) : list N :=
  match blocks with
  | O => st
  | S k =>
      let blk := lanes_of 25 (firstn rate bs) in
      absorb k (skipn rate bs) (keccak_f (map (fun p => N.lxor (fst p) (snd p)) (combine st blk)))
  end.

Definition keccak256 (msg : list byte) : list byte :=
  let p := pad msg in
  let st := absorb (List.length p / rate) p (repeat 0 25%nat) in
  firstn 32 (flat_map (le_bytes 8) st).

End Keccak.

(** [Address.checksumHex] (EIP-55): a letter is upper-cased when the
    matching nibble of the Keccak-256 digest of the lower-case digits is
    above 7. *)
Fixpoint checksum_case (i : nat) (digits : list byte) (hash : list byte) : list byte :=
  match digits with
  | [] => []
  | c :: r =>
      let hashByte := nth (i / 2) hash 0 in
      let hashByte := if Nat.even i then N.shiftr hashByte 4 else N.land hashByte 15 in
      (if (57 <? c) && (7 <? hashByte) then c - 32 else c)
        :: checksum_case (S i) r hash
  end.

Definition Address_Hex (a : Address) : string :=
  let digits := hex_Encode a in
  string_of_bytes (48 :: 120 :: checksum_case 0 digits (Keccak.keccak256 digits)).

(** [big.Int.String] on the unsigned integers the decoder produces. *)
Definition big_String (n : N) : string := NilZero.string_of_uint (N.to_uint n).

(** [big.Int.Uint64]: the low 64 bits. *)
Definition big_Uint64 (n : N) : N := n mod 2 ^ 64.

(** ** Errors and results *)

(** The Go [error] values the modelled code can return.  Failures of
    the connection to the database are not modelled: the database
    errors that remain are the ones the stored data decides. *)
Inductive error : Type :=
| ErrRecordNotFound                        (* gorm.ErrRecordNotFound *)
| ErrDuplicatedKey (column : string)       (* a unique index rejects the row *)
| ErrInvalidNumeric (text : string)        (* CAST(... AS NUMERIC) fails *)
| ErrUint64 (column : string)              (* uint64 values with high bit set are not supported *)
| ErrOutOfRange (column : string)          (* an integer outside the type of its column *)
| ErrInvalidText (column : string)         (* invalid byte sequence for encoding UTF8 *)
| ErrValueTooLong (column : string)        (* value too long for type character varying(n) *)
| ErrNoField (field : string)              (* record "new" has no field ... *)
| ErrPack                                  (* abi: negatively-signed value cannot be packed *)
| ErrChain                                 (* the contract call or the decoding of its result fails *)
| Errorf (msg : string)                    (* fmt.Errorf(msg) *)
| Wrapf (msg : string) (cause : error).    (* fmt.Errorf(msg + ": %w", cause) *)

Inductive result (A : Type) : Type :=
| Ok (a : A)
| Err (e : error).
Arguments Ok {A} a.
Arguments Err {A} e.

(** An instant; 0 is the zero [time.Time].  An operation reads the
    clock once: its [now] stands for [time.Now()] and for the instant
    GORM stamps rows with. *)
Definition Time := Z.
Definition Time_IsZero (t : Time) : bool := Z.eqb t 0.

(** ** The repository package: rows and tables *)

Module Listing.
Record t : Type := mk {
  ID : N;
  ItemID : N;
  NFTContract : string;
  TokenID : string;
  Seller : string;
  Price : string;
  Status : string;
  TxHash : string;
  ListedAt : Time;
  SoldAt : option Time;
  CreatedAt : Time;
  UpdatedAt : Time
}.
End Listing.

Module Transaction.
Record t : Type := mk {
  ID : N;
  TxHash : string;
  BlockNumber : N;
  BlockTimestamp : Time;
  TxType : string;
  ListingID : option N;
  NFTContract : string;
  TokenID : string;
  FromAddress : string;
  ToAddress : string;
  Value : string;
  ValueNumeric : string;
  GasPrice : string;
  GasUsed : N;
  PlatformFee : string;
  Status : string;
  LogIndex : Z;
  TransactionIndex : Z;
  CreatedAt : Time;
  UpdatedAt : Time
}.
End Transaction.

(** The database behind [*gorm.DB], which the schema script creates
    ([main] has the automatic migration commented out): the two tables
    in insertion order and the sequences that number their primary
    keys.  [item_id] and [tx_hash] are UNIQUE; the text columns are
    VARCHAR(n); [sync_price_numeric()] runs before every INSERT.  The
    rows of a table are rows the schema accepted, so the triggers an
    UPDATE fires on them (the new [updated_at], the cast of a price that
    did not change) do not fail.  The other tables of the script are
    outside the model. *)
Record DB : Type := mkDB {
  listings : list Listing.t;
  listings_id_seq : N;
  transactions : list Transaction.t;
  transactions_id_seq : N
}.

Definition empty_db : DB := mkDB [] 0 [] 0.

(** Arguments of type uint64 ([item_id], [block_number], [gas_used])
    on their way to a BIGINT column: the driver refuses a value with the
    high bit set before the statement is sent. *)
Definition high_bit_set (x : N) : bool := 2 ^ 63 <=? x.

(** A Go [int] on its way to an INTEGER column. *)
Definition int4 (z : Z) : bool := ((- 2 ^ 31 <=? z) && (z <? 2 ^ 31))%Z.

(** A continuation byte of UTF-8. *)
Definition utf8_cont (b : byte) : bool := (128 <=? b) && (b <=? 191).

(** The number of characters of a text in UTF-8, the encoding of the
    database; [None] for a text the server refuses as it arrives: a byte
    sequence that is not UTF-8 (RFC 3629), or a zero byte. *)
Fixpoint utf8_length (bs : list byte) : option nat :=
  match bs with
  | [] => Some O
  | b :: r =>
      if b =? 0 then None
      else if b <? 128 then option_map S (utf8_length r)
      else if (194 <=? b) && (b <=? 223) then
        match r with
        | c1 :: r1 => if utf8_cont c1 then option_map S (utf8_length r1) else None
        | _ => None
        end
      else if (224 <=? b) && (b <=? 239) then
        match r with
        | c1 :: c2 :: r2 =>
            if (if b =? 224 then (160 <=? c1) && (c1 <=? 191)
                else if b =? 237 then (128 <=? c1) && (c1 <=? 159)
                else utf8_cont c1)
               && utf8_cont c2
            then option_map S (utf8_length r2) else None
        | _ => None
        end
      else if (240 <=? b) && (b <=? 244) then
        match r with
        | c1 :: c2 :: c3 :: r3 =>
            if (if b =? 240 then (144 <=? c1) && (c1 <=? 191)
                else if b =? 244 then (128 <=? c1) && (c1 <=? 143)
                else utf8_cont c1)
               && utf8_cont c2 && utf8_cont c3
            then option_map S (utf8_length r3) else None
        | _ => None
        end
      else None
  end.

(** A text the server takes as a parameter. *)
Definition pg_text (s : string) : bool :=
  match utf8_length (bytes_of_string s) with
  | Some _ => true
  | None => false
  end.

(** A text a column of type VARCHAR(n) takes: one of n characters at
    most. *)
Definition varchar (n : nat) (s : string) : bool :=
  match utf8_length (bytes_of_string s) with
  | Some k => Nat.leb k n
  | None => false
  end.

(** The first check of a list that fails, with its error. *)
Definition first_error (checks : list (bool * error)) : option error :=
  match find (fun c => negb (fst c)) checks with
  | Some c => Some (snd c)
  | None => None
  end.

(** CAST(text AS NUMERIC) on the prices the backend stores: amounts of
    wei written in decimal digits.  Any other text is a failed cast. *)
Definition cast_numeric (s : string) : option N :=
  option_map N.of_uint (NilZero.uint_of_string s).

Fixpoint cast_all (l : list string) : result (list N) :=
  match l with
  | [] => Ok []
  | s :: r =>
      match cast_numeric s with
      | None => Err (ErrInvalidNumeric s)
      | Some v =>
          match cast_all r with
          | Ok vs => Ok (v :: vs)
          | Err e => Err e
          end
      end
  end.

(** SQL aggregates: NULL ([None]) over no rows. *)
Definition sql_min (vs : list N) : option N :=
  fold_left (fun acc v => match acc with None => Some v | Some m => Some (N.min m v) end) vs None.

Definition sql_max (vs : list N) : option N :=
  fold_left (fun acc v => match acc with None => Some v | Some m => Some (N.max m v) end) vs None.

Definition sql_sum (vs : list N) : option N :=
  fold_left (fun acc v => match acc with None => Some v | Some m => Some (m + v) end) vs None.

Definition sql_avg (vs : list N) : option Q :=
  match sql_sum vs with
  | None => None
  | Some s => Some (Qmake (Z.of_N s) (Pos.of_nat (List.length vs)))
  end.

Definition COALESCE {A} (v : option A) (d : A) : A :=
  match v with Some a => a | None => d end.

(** The trigger function [sync_price_numeric()] of the schema script:
    IF NEW.price IS NOT NULL THEN NEW.price_numeric = NEW.price::NUMERIC.
    [price] is the field NEW.price of the row the trigger fires for:
    [None] when the table of the row has no column price, which makes
    the function fail.  A price of 78 digits at most, all a VARCHAR(78)
    holds, fits NUMERIC(78, 0). *)
Definition sync_price_numeric (price : option string) : option error :=
  match price with
  | None => Some (ErrNoField "price")
  | Some p =>
      match cast_numeric p with
      | Some _ => None
      | None => Some (ErrInvalidNumeric p)
      end
  end.

(** Go's [int] on the 64-bit targets the backend runs on: the result
    of an arithmetic operation is reduced to 64 bits, two's complement. *)
Definition int_wrap (z : Z) : Z := ((z + 2 ^ 63) mod 2 ^ 64 - 2 ^ 63)%Z.

(** The OFFSET and LIMIT clauses GORM builds: an offset is emitted
    when it is positive, a limit when it is not negative. *)
Definition Offset {A : Type} (offset : Z) (rows : list A) : list A :=
  if (0 <? offset)%Z then skipn (Z.to_nat offset) rows else rows.

Definition Limit {A : Type} (limit : Z) (rows : list A) : list A :=
  if (0 <=? limit)%Z then firstn (Z.to_nat limit) rows else rows.

(** ORDER BY a timestamp, descending.  Rows of one instant, whose
    order the database leaves open, keep table order. *)
Fixpoint insert_desc {A : Type} (key : A -> Z) (a : A) (sorted : list A) : list A :=
  match sorted with
  | [] => [a]
  | x :: r => if (key x <=? key a)%Z then a :: x :: r else x :: insert_desc key a r
  end.

Definition order_desc {A : Type} (key : A -> Z) (rows : list A) : list A :=
  fold_right (insert_desc key) [] rows.

Module ListingRepository.

Definition has_item_id (k : N) (l : Listing.t) : bool := Listing.ItemID l =? k.
Definition has_id (id : N) (l : Listing.t) : bool := Listing.ID l =? id.
Definition has_status (s : string) (l : Listing.t) : bool := String.eqb (Listing.Status l) s.

(** The INSERT [db.Create] issues.  GORM fills the zero [CreatedAt]
    and [UpdatedAt] and an empty [Status] ([default:'active']).  The
    driver refuses an [item_id] with the high bit set, and the server a
    text that is not UTF-8, before the statement runs.  The statement
    draws the primary key from the sequence, which stays advanced when
    the row is refused: by a VARCHAR column that is too short for its
    text, by the trigger that casts the price, or by the unique
    constraint on [item_id]. *)
Definition insert (now : Time) (l : Listing.t) (db : DB) : option error * Listing.t * DB :=
  let id := listings_id_seq db + 1 in
  let stamped (key : N) :=
    Listing.mk key (Listing.ItemID l) (Listing.NFTContract l) (Listing.TokenID l)
      (Listing.Seller l) (Listing.Price l)
      (if String.eqb (Listing.Status l) "" then "active" else Listing.Status l)
      (Listing.TxHash l) (Listing.ListedAt l) (Listing.SoldAt l)
      (if Time_IsZero (Listing.CreatedAt l) then now else Listing.CreatedAt l)
      (if Time_IsZero (Listing.UpdatedAt l) then now else Listing.UpdatedAt l) in
  let row := stamped id in
  let refused := mkDB (listings db) id (transactions db) (transactions_id_seq db) in
  if high_bit_set (Listing.ItemID l)
  then (Some (ErrUint64 "item_id"), stamped (Listing.ID l), db)
  else
    match first_error
            [ (pg_text (Listing.NFTContract row), ErrInvalidText "nft_contract");
              (pg_text (Listing.TokenID row), ErrInvalidText "token_id");
              (pg_text (Listing.Seller row), ErrInvalidText "seller");
              (pg_text (Listing.Price row), ErrInvalidText "price");
              (pg_text (Listing.Status row), ErrInvalidText "status");
              (pg_text (Listing.TxHash row), ErrInvalidText "tx_hash") ] with
    | Some e => (Some e, stamped (Listing.ID l), db)
    | None =>
        match first_error
                [ (varchar 42 (Listing.NFTContract row), ErrValueTooLong "nft_contract");
                  (varchar 78 (Listing.TokenID row), ErrValueTooLong "token_id");
                  (varchar 42 (Listing.Seller row), ErrValueTooLong "seller");
                  (varchar 78 (Listing.Price row), ErrValueTooLong "price");
                  (varchar 20 (Listing.Status row), ErrValueTooLong "status");
                  (varchar 66 (Listing.TxHash row), ErrValueTooLong "tx_hash") ] with
        | Some e => (Some e, stamped (Listing.ID l), refused)
        | None =>
            match sync_price_numeric (Some (Listing.Price row)) with
            | Some e => (Some e, stamped (Listing.ID l), refused)
            | None =>
                if existsb (has_item_id (Listing.ItemID l)) (listings db)
                then (Some (ErrDuplicatedKey "item_id"), stamped (Listing.ID l), refused)
                else (None, row,
                      mkDB (listings db ++ [row]) id (transactions db)
                           (transactions_id_seq db))
            end
        end
    end.

(** [Create]: [r.db.Create(listing).Error]. *)
Definition Create (now : Time) (l : Listing.t) (db : DB) : option error * Listing.t * DB :=
  insert now l db.

(** [CreateIfNotExists]: [Where("item_id = ?").FirstOrCreate].  The
    SELECT comes first: the driver refuses its argument when the item id
    has the high bit set, and nothing is inserted; the row found is
    loaded and nothing is written; otherwise the listing is inserted. *)
Definition CreateIfNotExists (now : Time) (l : Listing.t) (db : DB)
  : option error * Listing.t * DB :=
  if high_bit_set (Listing.ItemID l) then (Some (ErrUint64 "item_id"), l, db)
  else
    match find (has_item_id (Listing.ItemID l)) (listings db) with
    | Some found => (None, found, db)
    | None => insert now l db
    end.

Definition GetByID (id : N) (db : DB) : result Listing.t :=
  match find (has_id id) (listings db) with
  | Some l => Ok l
  | None => Err ErrRecordNotFound
  end.

Definition GetByItemID (itemID : N) (db : DB) : result Listing.t :=
  if high_bit_set itemID then Err (ErrUint64 "item_id")
  else
    match find (has_item_id itemID) (listings db) with
    | Some l => Ok l
    | None => Err ErrRecordNotFound
    end.

(** The UPDATE of [UpdateStatus] on one row: [status], [sold_at] when
    the new status is sold, and [updated_at], which GORM and the
    table's trigger both set. *)
Definition set_status (now : Time) (status : string) (l : Listing.t) : Listing.t :=
  Listing.mk (Listing.ID l) (Listing.ItemID l) (Listing.NFTContract l) (Listing.TokenID l)
    (Listing.Seller l) (Listing.Price l) status (Listing.TxHash l) (Listing.ListedAt l)
    (if String.eqb status "sold" then Some now else Listing.SoldAt l)
    (Listing.CreatedAt l) now.

(** [UpdateStatus]: every row WHERE id = ? is updated; no row is not
    an error.  The server refuses a status that is not UTF-8, and the
    column, VARCHAR(20), refuses a longer status for a row it is to be
    written to; the statement then changes nothing. *)
Definition UpdateStatus (now : Time) (id : N) (status : string) (db : DB) : option error * DB :=
  if negb (pg_text status) then (Some (ErrInvalidText "status"), db)
  else if existsb (has_id id) (listings db) && negb (varchar 20 status)
  then (Some (ErrValueTooLong "status"), db)
  else
    (None,
     mkDB (map (fun l => if has_id id l then set_status now status l else l) (listings db))
          (listings_id_seq db) (transactions db) (transactions_id_seq db)).

Definition CountActiveListings (db : DB) : Z :=
  Z.of_nat (List.length (filter (has_status "active") (listings db))).

Definition CountTotalListings (db : DB) : Z :=
  Z.of_nat (List.length (listings db)).

Definition prices_where (s : string) (db : DB) : result (list N) :=
  cast_all (map Listing.Price (filter (has_status s) (listings db))).

(** [GetTotalVolume]: COALESCE(SUM(CAST(price AS NUMERIC)), 0) over
    the sold listings. *)
Definition GetTotalVolume (db : DB) : result string :=
  match prices_where "sold" db with
  | Ok vs => Ok (big_String (COALESCE (sql_sum vs) 0))
  | Err e => Err e
  end.

(** [GetAveragePrice]: COALESCE(AVG(...), 0) over the active
    listings.  The value is kept as the exact quotient; its decimal
    rendering by the database is not modelled. *)
Definition GetAveragePrice (db : DB) : result Q :=
  match prices_where "active" db with
  | Ok vs => Ok (COALESCE (sql_avg vs) 0%Q)
  | Err e => Err e
  end.

(** [GetMinPrice]: COALESCE(MIN(...), 0) over the active listings. *)
Definition GetMinPrice (db : DB) : result string :=
  match prices_where "active" db with
  | Ok vs => Ok (big_String (COALESCE (sql_min vs) 0))
  | Err e => Err e
  end.

(** [GetMaxPrice]: COALESCE(MAX(...), 0) over the active listings. *)
Definition GetMaxPrice (db : DB) : result string :=
  match prices_where "active" db with
  | Ok vs => Ok (big_String (COALESCE (sql_max vs) 0))
  | Err e => Err e
  end.

Definition has_seller (s : string) (l : Listing.t) : bool := String.eqb (Listing.Seller l) s.

(** [GetActiveListings]: the count of the active listings and one page
    of them, newest first. *)
Definition GetActiveListings (page pageSize : Z) (db : DB) : list Listing.t * Z :=
  let offset := int_wrap (int_wrap (page - 1) * pageSize) in
  let total := Z.of_nat (List.length (filter (has_status "active") (listings db))) in
  (Limit pageSize
     (Offset offset (order_desc Listing.ListedAt (filter (has_status "active") (listings db)))),
   total).

(** [GetBySeller]: the listings of a seller, newest first. *)
Definition GetBySeller (seller : string) (db : DB) : list Listing.t :=
  order_desc Listing.ListedAt (filter (has_seller seller) (listings db)).

(** [GetBySellerPaginated]. *)
Definition GetBySellerPaginated (seller : string) (page pageSize : Z) (db : DB)
  : list Listing.t * Z :=
  let offset := int_wrap (int_wrap (page - 1) * pageSize) in
  let total := Z.of_nat (List.length (filter (has_seller seller) (listings db))) in
  (Limit pageSize
     (Offset offset (order_desc Listing.ListedAt (filter (has_seller seller) (listings db)))),
   total).

End ListingRepository.

Module TransactionRepository.

Definition has_tx_hash (h : string) (t : Transaction.t) : bool :=
  String.eqb (Transaction.TxHash t) h.

(** [Create]: [r.db.Create(tx).Error].  The primary key, [CreatedAt],
    [UpdatedAt] and an empty [Status] are filled as for a listing, and
    the arguments and the columns are checked as for a listing.  Before
    the row is stored the trigger sync_transactions_value_numeric fires,
    WHEN (NEW.value IS NOT NULL): a Go string is never NULL, so it fires
    for every row GORM inserts, and it runs [sync_price_numeric()] on a
    table that has no column price.  The unique constraint on [tx_hash]
    comes after it. *)
Definition Create (now : Time) (t : Transaction.t) (db : DB)
  : option error * Transaction.t * DB :=
  let id := transactions_id_seq db + 1 in
  let stamped (key : N) :=
    Transaction.mk key (Transaction.TxHash t) (Transaction.BlockNumber t)
      (Transaction.BlockTimestamp t) (Transaction.TxType t) (Transaction.ListingID t)
      (Transaction.NFTContract t) (Transaction.TokenID t) (Transaction.FromAddress t)
      (Transaction.ToAddress t) (Transaction.Value t) (Transaction.ValueNumeric t)
      (Transaction.GasPrice t) (Transaction.GasUsed t) (Transaction.PlatformFee t)
      (if String.eqb (Transaction.Status t) "" then "confirmed" else Transaction.Status t)
      (Transaction.LogIndex t) (Transaction.TransactionIndex t)
      (if Time_IsZero (Transaction.CreatedAt t) then now else Transaction.CreatedAt t)
      (if Time_IsZero (Transaction.UpdatedAt t) then now else Transaction.UpdatedAt t) in
  let row := stamped id in
  let refused := mkDB (listings db) (listings_id_seq db) (transactions db) id in
  match first_error
          [ (negb (high_bit_set (Transaction.BlockNumber row)), ErrUint64 "block_number");
            (match Transaction.ListingID row with
             | Some k => negb (high_bit_set k)
             | None => true
             end, ErrUint64 "listing_id");
            (negb (high_bit_set (Transaction.GasUsed row)), ErrUint64 "gas_used");
            (int4 (Transaction.LogIndex row), ErrOutOfRange "log_index");
            (int4 (Transaction.TransactionIndex row), ErrOutOfRange "transaction_index");
            (pg_text (Transaction.TxHash row), ErrInvalidText "tx_hash");
            (pg_text (Transaction.TxType row), ErrInvalidText "tx_type");
            (pg_text (Transaction.NFTContract row), ErrInvalidText "nft_contract");
            (pg_text (Transaction.TokenID row), ErrInvalidText "token_id");
            (pg_text (Transaction.FromAddress row), ErrInvalidText "from_address");
            (pg_text (Transaction.ToAddress row), ErrInvalidText "to_address");
            (pg_text (Transaction.Value row), ErrInvalidText "value");
            (match cast_numeric (Transaction.ValueNumeric row) with
             | Some _ => true
             | None => false
             end, ErrInvalidNumeric (Transaction.ValueNumeric row));
            (pg_text (Transaction.GasPrice row), ErrInvalidText "gas_price");
            (pg_text (Transaction.PlatformFee row), ErrInvalidText "platform_fee");
            (pg_text (Transaction.Status row), ErrInvalidText "status") ] with
  | Some e => (Some e, stamped (Transaction.ID t), db)
  | None =>
      match first_error
              [ (varchar 66 (Transaction.TxHash row), ErrValueTooLong "tx_hash");
                (varchar 20 (Transaction.TxType row), ErrValueTooLong "tx_type");
                (varchar 42 (Transaction.NFTContract row), ErrValueTooLong "nft_contract");
                (varchar 78 (Transaction.TokenID row), ErrValueTooLong "token_id");
                (varchar 42 (Transaction.FromAddress row), ErrValueTooLong "from_address");
                (varchar 42 (Transaction.ToAddress row), ErrValueTooLong "to_address");
                (varchar 78 (Transaction.Value row), ErrValueTooLong "value");
                (match cast_numeric (Transaction.ValueNumeric row) with
                 | Some v => v <? 10 ^ 78
                 | None => true
                 end, ErrOutOfRange "value_numeric");
                (varchar 78 (Transaction.GasPrice row), ErrValueTooLong "gas_price");
                (varchar 78 (Transaction.PlatformFee row), ErrValueTooLong "platform_fee");
                (varchar 20 (Transaction.Status row), ErrValueTooLong "status") ] with
      | Some e => (Some e, stamped (Transaction.ID t), refused)
      | None =>
          match sync_price_numeric None with
          | Some e => (Some e, stamped (Transaction.ID t), refused)
          | None =>
              if existsb (has_tx_hash (Transaction.TxHash t)) (transactions db)
              then (Some (ErrDuplicatedKey "tx_hash"), stamped (Transaction.ID t), refused)
              else (None, row,
                    mkDB (listings db) (listings_id_seq db) (transactions db ++ [row]) id)
          end
      end
  end.


Definition has_id (id : N) (t : Transaction.t) : bool := Transaction.ID t =? id.

Definition is_confirmed (txType : string) (t : Transaction.t) : bool :=
  String.eqb (Transaction.TxType t) txType && String.eqb (Transaction.Status t) "confirmed".

Definition GetByID (id : N) (db : DB) : result Transaction.t :=
  match find (has_id id) (transactions db) with
  | Some t => Ok t
  | None => Err ErrRecordNotFound
  end.


(** [GetTotalVolume]: COALESCE(SUM(CAST(value_numeric AS NUMERIC)), 0)
    over the confirmed sales. *)
Definition GetTotalVolume (db : DB) : result string :=
  match cast_all (map Transaction.ValueNumeric
                      (filter (is_confirmed "sale") (transactions db))) with
  | Ok vs => Ok (big_String (COALESCE (sql_sum vs) 0))
  | Err e => Err e
  end.



End TransactionRepository.

(** ** The blockchain package *)

Module MarketItemCreatedEvent.
Record t : Type := mk {
  ItemId : N;
  NftContract : Address;
  TokenId : N;
  Seller : Address;
  Price : N
}.
End MarketItemCreatedEvent.

Module MarketItemSoldEvent.
Record t : Type := mk {
  ItemId : N;
  Buyer : Address;
  Price : N
}.
End MarketItemSoldEvent.

(** The tuple the contract's [getMarketItem] returns. *)
Module MarketItem.
Record t : Type := mk {
  itemId : N;
  nftContract : Address;
  tokenId : N;
  seller : Address;
  owner : Address;
  price : N;
  sold : bool;
  listedAt : N
}.
End MarketItem.

(** What [GetMarketItem] hands back: the tuple after its trip through
    JSON, with the addresses as lower-case hexadecimal text and the
    numbers as float64 values. *)
Module ItemData.
Record t : Type := mk {
  itemId : N;
  nftContract : string;
  tokenId : N;
  seller : string;
  owner : string;
  price : N;
  sold : bool;
  listedAt : N
}.
End ItemData.

(** The contract's answer to [getMarketItem] per uint256 item id;
    [None] when the call or the decoding of its result fails. *)
Definition Chain := N -> option MarketItem.t.

(** The float64 nearest to an integer, ties to the even significand:
    what [json.Unmarshal] into an [interface{}] makes of a JSON number.
    The integers of 256 bits at most are within the range of float64. *)
Definition float64 (n : N) : N :=
  let bits := N.size n in
  if bits <=? 53 then n
  else
    let e := bits - 53 in
    let q := N.shiftr n e in
    let r := n - N.shiftl q e in
    let half := N.shiftl 1 (e - 1) in
    N.shiftl (if (half <? r) || ((r =? half) && N.odd q) then q + 1 else q) e.

(** [int64(x)] for a uint64 [x]. *)
Definition int64_of_uint64 (x : N) : Z :=
  ((Z.of_N x + 2 ^ 63) mod 2 ^ 64 - 2 ^ 63)%Z.

(** The ABI packs a [*big.Int] that is not negative as uint256, modulo
    2^256. *)
Definition U256 (z : Z) : N := Z.to_N (z mod 2 ^ 256).

Module Client.

Definition ConvertViaJSON (it : MarketItem.t) : ItemData.t :=
  ItemData.mk (float64 (MarketItem.itemId it))
    (string_of_bytes (Address_hex (MarketItem.nftContract it)))
    (float64 (MarketItem.tokenId it))
    (string_of_bytes (Address_hex (MarketItem.seller it)))
    (string_of_bytes (Address_hex (MarketItem.owner it)))
    (float64 (MarketItem.price it)) (MarketItem.sold it) (float64 (MarketItem.listedAt it)).

(** [GetMarketItem]: [abi.Pack] refuses a negative number for the
    uint256 parameter, and the contract is not called. *)
Definition GetMarketItem (chain : Chain) (itemId : Z) : result ItemData.t :=
  if (itemId <? 0)%Z then Err (Wrapf "failed to pack data" ErrPack)
  else
    match chain (U256 itemId) with
    | None => Err ErrChain
    | Some it => Ok (ConvertViaJSON it)
    end.

End Client.

(** ** The service package *)

Module CreateListingRequest.
Record t : Type := mk {
  ItemID : N;
  NFTContract : string;
  TokenID : string;
  Seller : string;
  Price : string;
  TxHash : string
}.
End CreateListingRequest.

Module ListingResponse.
Record t : Type := mk {
  ID : N;
  ItemID : N;
  NFTContract : string;
  TokenID : string;
  Seller : string;
  Price : string;
  Status : string;
  ListedAt : Time;
  CreatedAt : Time
}.
End ListingResponse.

(** The map [GetMarketStats] fills, one field per key. *)
Module MarketStats.
Record t : Type := mk {
  active_listings : Z;
  total_listings : Z;
  sold_listings : Z;
  total_volume : string;
  average_price : Q;
  floor_price : string;
  ceiling_price : string
}.
End MarketStats.

(** Subtraction of int64 values. *)
Definition int64_sub (a b : Z) : Z :=
  ((a - b + 2 ^ 63) mod 2 ^ 64 - 2 ^ 63)%Z.

Module ListingService.

Definition toResponse (l : Listing.t) : ListingResponse.t :=
  ListingResponse.mk (Listing.ID l) (Listing.ItemID l) (Listing.NFTContract l)
    (Listing.TokenID l) (Listing.Seller l) (Listing.Price l) (Listing.Status l)
    (Listing.ListedAt l) (Listing.CreatedAt l).

Definition CreateListing (chain : Chain) (now : Time) (req : CreateListingRequest.t) (db : DB)
  : result ListingResponse.t * DB :=
  let itemID := int64_of_uint64 (CreateListingRequest.ItemID req) in
  match Client.GetMarketItem chain itemID with
  | Err e => (Err (Wrapf "failed to verify on-chain data" e), db)
  | Ok itemData =>
      let chainNFTContract := ItemData.nftContract itemData in
      let reqNFTContract := CreateListingRequest.NFTContract req in
      if negb (Address_eqb (HexToAddress chainNFTContract) (HexToAddress reqNFTContract))
      then (Err (Errorf "nft contract mismatch"), db)
      else
        let listing :=
          Listing.mk 0 (CreateListingRequest.ItemID req) (CreateListingRequest.NFTContract req)
            (CreateListingRequest.TokenID req) (CreateListingRequest.Seller req)
            (CreateListingRequest.Price req) "active" (CreateListingRequest.TxHash req)
            now None 0%Z 0%Z in
        match ListingRepository.Create now listing db with
        | (Some e, _, db') => (Err (Wrapf "failed to create listing" e), db')
        | (None, created, db') => (Ok (toResponse created), db')
        end
  end.

Definition CancelListing (now : Time) (id : N) (seller : string) (db : DB)
  : option error * DB :=
  match ListingRepository.GetByID id db with
  | Err e => (Some (Wrapf "failed to get listing" e), db)
  | Ok listing =>
      if negb (String.eqb (Listing.Seller listing) seller)
      then (Some (Errorf "unauthorized: not the seller"), db)
      else if negb (String.eqb (Listing.Status listing) "active")
      then (Some (Errorf "listing is not active"), db)
      else
        match ListingRepository.UpdateStatus now id "cancelled" db with
        | (Some e, db') => (Some (Wrapf "failed to cancel listing" e), db')
        | (None, db') => (None, db')
        end
  end.

Definition UpdateFromEvent (now : Time) (event : MarketItemCreatedEvent.t) (db : DB)
  : option error * DB :=
  let listing :=
    Listing.mk 0 (big_Uint64 (MarketItemCreatedEvent.ItemId event))
      (Address_Hex (MarketItemCreatedEvent.NftContract event))
      (big_String (MarketItemCreatedEvent.TokenId event))
      (Address_Hex (MarketItemCreatedEvent.Seller event))
      (big_String (MarketItemCreatedEvent.Price event))
      "active" "" now None 0%Z 0%Z in
  let '(err, _, db') := ListingRepository.CreateIfNotExists now listing db in
  (err, db').

Definition GetMarketStats (db : DB) : result MarketStats.t :=
  let activeCount := ListingRepository.CountActiveListings db in
  let totalCount := ListingRepository.CountTotalListings db in
  match ListingRepository.GetTotalVolume db with
  | Err e => Err (Wrapf "failed to get total volume" e)
  | Ok totalVolume =>
      match ListingRepository.GetAveragePrice db with
      | Err e => Err (Wrapf "failed to get average price" e)
      | Ok avgPrice =>
          match ListingRepository.GetMinPrice db with
          | Err e => Err (Wrapf "failed to get min price" e)
          | Ok minPrice =>
              match ListingRepository.GetMaxPrice db with
              | Err e => Err (Wrapf "failed to get max price" e)
              | Ok maxPrice =>
                  Ok (MarketStats.mk activeCount totalCount
                        (int64_sub totalCount activeCount)
                        totalVolume avgPrice minPrice maxPrice)
              end
          end
      end
  end.

Definition GetListing (id : N) (db : DB) : result ListingResponse.t :=
  match ListingRepository.GetByID id db with
  | Err e => Err (Wrapf "failed to get listing" e)
  | Ok listing => Ok (toResponse listing)
  end.

Definition GetActiveListings (page pageSize : Z) (db : DB) : list ListingResponse.t * Z :=
  let '(rows, total) := ListingRepository.GetActiveListings page pageSize db in
  (map toResponse rows, total).

Definition GetUserListings (address : string) (page pageSize : Z) (db : DB)
  : list ListingResponse.t * Z :=
  let '(rows, total) := ListingRepository.GetBySellerPaginated address page pageSize db in
  (map toResponse rows, total).

End ListingService.

Module TransactionResponse.
Record t : Type := mk {
  ID : N;
  TxHash : string;
  BlockNumber : N;
  BlockTimestamp : Time;
  TxType : string;
  ListingID : option N;
  NFTContract : string;
  TokenID : string;
  FromAddress : string;
  ToAddress : string;
  Value : string;
  GasPrice : string;
  GasUsed : N;
  PlatformFee : string;
  Status : string;
  CreatedAt : Time
}.
End TransactionResponse.

(** The map [GetTransactionStats] fills, one field per key. *)
Module TransactionStats.
Record t : Type := mk {
  total_listings : Z;
  total_sales : Z;
  total_cancellations : Z;
  total_transactions : Z;
  total_volume : string
}.
End TransactionStats.

Module TransactionService.

Definition RecordSale (now : Time) (event : MarketItemSoldEvent.t) (db : DB)
  : option error * DB :=
  let tx :=
    Transaction.mk 0 "" 0 now "sale" None "" ""
      (Address_Hex (MarketItemSoldEvent.Buyer event))
      (Address_Hex (MarketItemSoldEvent.Buyer event))
      (big_String (MarketItemSoldEvent.Price event))
      (big_String (MarketItemSoldEvent.Price event))
      "" 0 "" "confirmed" 0%Z 0%Z 0%Z 0%Z in
  let '(err, _, db') := TransactionRepository.Create now tx db in
  (err, db').

Definition toResponse (tx : Transaction.t) : TransactionResponse.t :=
  TransactionResponse.mk (Transaction.ID tx) (Transaction.TxHash tx) (Transaction.BlockNumber tx)
    (Transaction.BlockTimestamp tx) (Transaction.TxType tx) (Transaction.ListingID tx)
    (Transaction.NFTContract tx) (Transaction.TokenID tx) (Transaction.FromAddress tx)
    (Transaction.ToAddress tx) (Transaction.Value tx) (Transaction.GasPrice tx)
    (Transaction.GasUsed tx) (Transaction.PlatformFee tx) (Transaction.Status tx)
    (Transaction.CreatedAt tx).



(** [GetTotalVolume]: the text 0 goes with the error. *)
Definition GetTotalVolume (db : DB) : string * option error :=
  match TransactionRepository.GetTotalVolume db with
  | Err e => ("0", Some (Wrapf "failed to get total volume" e))
  | Ok volume => (volume, None)
  end.


End TransactionService.

(** ** The event listener *)

(** The logs the marketplace contract emits (NFTMarketplace.sol). *)
Inductive ContractEvent : Type :=
| MarketItemCreated (e : MarketItemCreatedEvent.t)
| MarketItemSold (e : MarketItemSoldEvent.t)
| MarketItemCanceled (itemId : N)
| PlatformFeeUpdated (newFee : N).

(** One log reaching [startEventListener] at instant [now].  Two
    topics are subscribed, MarketItemCreated and MarketItemSold; each
    handler logs the error of its service call and goes on.  A log of
    any other topic matches no subscription and reaches no handler. *)
Definition deliver (now : Time) (ev : ContractEvent) (db : DB) : DB :=
  match ev with
  | MarketItemCreated e => snd (ListingService.UpdateFromEvent now e db)
  | MarketItemSold e => snd (TransactionService.RecordSale now e db)
  | MarketItemCanceled _ => db
  | PlatformFeeUpdated _ => db
  end.

(** The listener over a stream of logs, each with the instant of its
    delivery.  The two handlers run concurrently and write different
    tables; the stream fixes one order of delivery. *)
Definition startEventListener (stream : list (Time * ContractEvent)) (db : DB) : DB :=
  fold_left (fun d te => deliver (fst te) (snd te) d) stream db.

(** ** The handler package *)

(** [strconv], base 10, as the handlers use it. *)
Module strconv.

Inductive NumError : Type := NoError | ErrSyntax | ErrRange.

Definition maxUint64 : N := 2 ^ 64 - 1.

(** The digit loop of [ParseUint]; [maxVal] is the largest value of
    the bit size asked for. *)
Fixpoint ParseUint_loop (maxVal : N) (cs : list byte) (n : N) : N * NumError :=
  match cs with
  | [] => (n, NoError)
  | c :: r =>
      if (48 <=? c) && (c <=? 57) then
        let d := c - 48 in
        if maxUint64 / 10 + 1 <=? n then (maxVal, ErrRange)
        else
          let n10 := n * 10 in
          let n1 := n10 + d in
          if (maxUint64 <? n1) || (maxVal <? n1) then (maxVal, ErrRange)
          else ParseUint_loop maxVal r n1
      else (0, ErrSyntax)
  end.

(** [ParseUint(s, 10, bitSize)]. *)
Definition ParseUint (bitSize : N) (s : list byte) : N * NumError :=
  match s with
  | [] => (0, ErrSyntax)
  | _ => ParseUint_loop (2 ^ bitSize - 1) s 0
  end.

(** [ParseInt(s, 10, 0)]. *)
Definition ParseInt (s : list byte) : Z * NumError :=
  match s with
  | [] => (0%Z, ErrSyntax)
  | c :: r =>
      let neg := c =? 45 in
      let digits := if (c =? 43) || (c =? 45) then r else s in
      match ParseUint 64 digits with
      | (_, ErrSyntax) => (0%Z, ErrSyntax)
      | (un, _) =>
          let cutoff := 2 ^ 63 in
          if negb neg && (cutoff <=? un) then (Z.of_N (cutoff - 1), ErrRange)
          else if neg && (cutoff <? un) then ((- Z.of_N cutoff)%Z, ErrRange)
          else (if neg then (- Z.of_N un)%Z else Z.of_N un, NoError)
      end
  end.

(** The fast path of [Atoi], for 1 to 18 bytes. *)
Fixpoint Atoi_digits (cs : list byte) (n : Z) : Z * NumError :=
  match cs with
  | [] => (n, NoError)
  | ch :: r =>
      let ch := (ch + 256 - 48) mod 256 in
      if 9 <? ch then (0%Z, ErrSyntax)
      else Atoi_digits r (n * 10 + Z.of_N ch)%Z
  end.

Definition Atoi (str : string) : Z * NumError :=
  let s := bytes_of_string str in
  let sLen := List.length s in
  if Nat.ltb 0 sLen && Nat.ltb sLen 19 then
    match s with
    | [] => (0%Z, ErrSyntax)
    | c :: r =>
        let signed := (c =? 45) || (c =? 43) in
        let s' := if signed then r else s in
        if signed && Nat.ltb (List.length s') 1 then (0%Z, ErrSyntax)
        else
          match Atoi_digits s' 0%Z with
          | (n, NoError) => (if c =? 45 then (- n)%Z else n, NoError)
          | other => other
          end
    end
  else ParseInt s.

End strconv.

(** [gin.Context.DefaultQuery]: the value of a query key, which may be
    empty, or the default when the key is absent. *)
Definition DefaultQuery (value : option string) (defaultValue : string) : string :=
  match value with
  | Some v => v
  | None => defaultValue
  end.

Module ListingHandler.

(** The JSON body of a page of listings. *)
Record Page : Type := mkPage {
  data : list ListingResponse.t;
  page : Z;
  page_size : Z;
  total : Z;
  total_pages : Z
}.

(** [GetActiveListings], from the page and page_size query values. *)
Definition GetActiveListings (page_q page_size_q : option string) (db : DB) : Page :=
  let page := fst (strconv.Atoi (DefaultQuery page_q "1")) in
  let pageSize := fst (strconv.Atoi (DefaultQuery page_size_q "20")) in
  let page := if (page <? 1)%Z then 1%Z else page in
  let pageSize := if (pageSize <? 1)%Z || (100 <? pageSize)%Z then 20%Z else pageSize in
  let '(listings, total) := ListingService.GetActiveListings page pageSize db in
  mkPage listings page pageSize total
    (Z.quot (int_wrap (int_wrap (total + pageSize) - 1)) pageSize).

(** [CancelListing], from the id path parameter and the
    X-User-Address header: the HTTP status and the store. *)
Definition CancelListing (now : Time) (id_param : string) (user_address : string) (db : DB)
  : Z * DB :=
  match strconv.ParseUint 32 (bytes_of_string id_param) with
  | (id, strconv.NoError) =>
      if String.eqb user_address "" then (401%Z, db)
      else
        match ListingService.CancelListing now id user_address db with
        | (Some _, db') => (500%Z, db')
        | (None, db') => (200%Z, db')
        end
  | _ => (400%Z, db)
  end.

End ListingHandler.

(** ** The config package *)

Module config.

(** [os.Getenv]: the value of a variable, empty when it is not set. *)
Definition Environ := string -> string.

(** The fields of [Config] the functions below read. *)
Record Config : Type := mkConfig {
  Environment : string;
  DBHost : string;
  DBName : string;
  EthereumRPC : string;
  MarketplaceAddress : string;
  JWTSecret : string;
  AllowedOrigins : list string
}.

Definition getEnv (env : Environ) (key defaultValue : string) : string :=
  if negb (String.eqb (env key) "") then env key else defaultValue.

Definition isSpace (c : ascii) : bool :=
  Ascii.eqb c " " || Ascii.eqb c "009" || Ascii.eqb c "010" || Ascii.eqb c "013".

(** The first loop of [trimSpace]: [start] moves right over blanks. *)
Fixpoint trimStart (s : string) : string :=
  match s with
  | EmptyString => EmptyString
  | String c r => if isSpace c then trimStart r else s
  end.

(** The second loop of [trimSpace]: [end] moves left over blanks. *)
Fixpoint trimEnd (s : string) : string :=
  match s with
  | EmptyString => EmptyString
  | String c r =>
      match trimEnd r with
      | EmptyString => if isSpace c then EmptyString else String c EmptyString
      | r' => String c r'
      end
  end.

Definition trimSpace (s : string) : string := trimEnd (trimStart s).

(** The loop of [splitString] at index [i]: [rest] is [s[i:]], [cur]
    is [s[start:i]], [acc] the pieces appended so far.  [None] when the
    slice [s[i:i+len(sep)]] runs past the end of [s], which panics, and
    when the loop does not end, which is the case of an empty [sep]. *)
Fixpoint splitString_loop (fuel : nat) (sep rest cur : string) (acc : list string)
  : option (list string) :=
  match fuel with
  | O => None
  | S fuel' =>
      match rest with
      | EmptyString => Some (acc ++ [cur])
      | String c r =>
          if Nat.ltb (String.length rest) (String.length sep) then None
          else if String.prefix sep rest
          then splitString_loop fuel' sep
                 (String.substring (String.length sep)
                                   (String.length rest - String.length sep) rest)
                 EmptyString (acc ++ [cur])
          else splitString_loop fuel' sep r (cur ++ String c EmptyString)%string acc
      end
  end.

Definition splitString (s sep : string) : option (list string) :=
  if String.eqb s "" then Some []
  else splitString_loop (S (String.length s)) sep s EmptyString [].

Definition nonEmpty (s : string) : bool := negb (String.eqb s "").

(** [splitAndTrim]: the pieces, trimmed, without the empty ones. *)
Definition splitAndTrim (s sep : string) : option (list string) :=
  match splitString s sep with
  | None => None
  | Some items => Some (filter nonEmpty (map trimSpace items))
  end.

Definition getEnvAsSlice (env : Environ) (key : string) (defaultValue : list string)
  : option (list string) :=
  let valueStr := env key in
  if String.eqb valueStr "" then Some defaultValue
  else
    match splitAndTrim valueStr "," with
    | None => None
    | Some items =>
        let result := filter nonEmpty items in
        if Nat.eqb (List.length result) 0 then Some defaultValue else Some result
    end.

Definition IsProduction (c : Config) : bool := String.eqb (Environment c) "production".
Definition IsDevelopment (c : Config) : bool := String.eqb (Environment c) "development".
Definition IsStaging (c : Config) : bool := String.eqb (Environment c) "staging".

Definition Validate (c : Config) : option error :=
  if String.eqb (DBHost c) "" then Some (Errorf "DB_HOST is required")
  else if String.eqb (DBName c) "" then Some (Errorf "DB_NAME is required")
  else if String.eqb (EthereumRPC c) "" then Some (Errorf "ETHEREUM_RPC is required")
  else if String.eqb (MarketplaceAddress c) ""
  then Some (Errorf "MARKETPLACE_ADDRESS is required")
  else if IsProduction c && String.eqb (JWTSecret c) "your-secret-key-change-in-production"
  then Some (Errorf "JWT_SECRET must be changed in production")
  else None.

(** [Load], for the fields above; [None] stands for the panic of
    [splitString], which the separator of [getEnvAsSlice] never
    raises. *)
Definition Load (env : Environ) : option Config :=
  match getEnvAsSlice env "ALLOWED_ORIGINS" ["*"%string] with
  | None => None
  | Some origins =>
      Some (mkConfig (getEnv env "ENVIRONMENT" "development")
                     (getEnv env "DB_HOST" "localhost")
                     (getEnv env "DB_NAME" "nft_marketplace")
                     (getEnv env "ETHEREUM_RPC" "")
                     (getEnv env "MARKETPLACE_ADDRESS" "")
                     (getEnv env "JWT_SECRET" "your-secret-key-change-in-production")
                     origins)
  end.

End config.

(** ** The main package *)

(** What [main] lets a stream of chain logs do to the store, the
    connections to the database and to the node being made: the
    configuration is loaded and validated, and [startEventListener] is
    started in the development and staging environments only.  [None]
    when the process ends first, on a configuration that fails
    [Validate]. *)
Definition main_events (env : config.Environ) (stream : list (Time * ContractEvent)) (db : DB)
  : option DB :=
  match config.Load env with
  | None => None
  | Some cfg =>
      match config.Validate cfg with
      | Some _ => None
      | None =>
          if config.IsDevelopment cfg || config.IsStaging cfg
          then Some (startEventListener stream db)
          else Some db
      end
  end.

(** ** The NFT table of the repository package *)

Module NFT.
Record t : Type := mk {
  ID : N;
  ContractAddress : string;
  TokenID : string;
  Owner : string;
  Creator : string;
  Name : string;
  Description : string;
  ImageURL : string;
  MetadataURI : string;
  Metadata : string;
  Status : string;
  ViewCount : Z;
  LikeCount : Z;
  MintedAt : Time;
  CreatedAt : Time;
  UpdatedAt : Time
}.
End NFT.

(** The nfts table, which no operation on listings or transactions
    touches. *)
Definition NFTTable := list NFT.t.

Definition maxInt64 : Z := (2 ^ 63 - 1)%Z.

Module NFTRepository.

Definition has_id (id : N) (n : NFT.t) : bool := NFT.ID n =? id.

Definition is_active (n : NFT.t) : bool := String.eqb (NFT.Status n) "active".

Definition with_counts (n : NFT.t) (views likes : Z) : NFT.t :=
  NFT.mk (NFT.ID n) (NFT.ContractAddress n) (NFT.TokenID n) (NFT.Owner n) (NFT.Creator n)
    (NFT.Name n) (NFT.Description n) (NFT.ImageURL n) (NFT.MetadataURI n) (NFT.Metadata n)
    (NFT.Status n) views likes (NFT.MintedAt n) (NFT.CreatedAt n) (NFT.UpdatedAt n).


Definition with_status (now : Time) (n : NFT.t) (status : string) : NFT.t :=
  NFT.mk (NFT.ID n) (NFT.ContractAddress n) (NFT.TokenID n) (NFT.Owner n) (NFT.Creator n)
    (NFT.Name n) (NFT.Description n) (NFT.ImageURL n) (NFT.MetadataURI n) (NFT.Metadata n)
    status (NFT.ViewCount n) (NFT.LikeCount n) (NFT.MintedAt n) (NFT.CreatedAt n) now.

Definition GetByID (id : N) (tbl : NFTTable) : result NFT.t :=
  match find (has_id id) tbl with
  | Some n => Ok n
  | None => Err ErrRecordNotFound
  end.


(** A column of type bigint refuses a value above 2^63 - 1: the
    statement fails and changes nothing. *)
Definition bigint_in_range (tbl : NFTTable) (touched : NFT.t -> bool) (value : NFT.t -> Z) : bool :=
  forallb (fun n => negb (touched n) || (value n <=? maxInt64)%Z) tbl.

(** [IncrementLikeCount]: UpdateColumn, which leaves [updated_at]. *)
Definition IncrementLikeCount (id : N) (tbl : NFTTable) : option error * NFTTable :=
  if bigint_in_range tbl (has_id id) (fun n => (NFT.LikeCount n + 1)%Z)
  then (None,
        map (fun n => if has_id id n
                      then with_counts n (NFT.ViewCount n) (NFT.LikeCount n + 1)%Z else n) tbl)
  else (Some (Errorf "bigint out of range"), tbl).

(** [DecrementLikeCount]: WHERE id = ? AND like_count > 0. *)
Definition DecrementLikeCount (id : N) (tbl : NFTTable) : option error * NFTTable :=
  (None,
   map (fun n => if has_id id n && (0 <? NFT.LikeCount n)%Z
                 then with_counts n (NFT.ViewCount n) (NFT.LikeCount n - 1)%Z else n) tbl).

(** [Delete]: the status becomes burned, the row stays. *)
Definition Delete (now : Time) (id : N) (tbl : NFTTable) : option error * NFTTable :=
  (None, map (fun n => if has_id id n then with_status now n "burned" else n) tbl).

Definition CountByOwner (owner : string) (tbl : NFTTable) : Z :=
  Z.of_nat (List.length (filter (fun n => String.eqb (NFT.Owner n) owner && is_active n) tbl)).

Definition CountByContract (contractAddress : string) (tbl : NFTTable) : Z :=
  Z.of_nat (List.length
              (filter (fun n => String.eqb (NFT.ContractAddress n) contractAddress
                                && is_active n) tbl)).

End NFTRepository.

Module NFTService.


Definition LikeNFT (id : N) (tbl : NFTTable) : option error * NFTTable :=
  match NFTRepository.IncrementLikeCount id tbl with
  | (Some e, tbl') => (Some (Wrapf "failed to like NFT" e), tbl')
  | (None, tbl') => (None, tbl')
  end.

Definition UnlikeNFT (id : N) (tbl : NFTTable) : option error * NFTTable :=
  match NFTRepository.DecrementLikeCount id tbl with
  | (Some e, tbl') => (Some (Wrapf "failed to unlike NFT" e), tbl')
  | (None, tbl') => (None, tbl')
  end.

End NFTService.

(** ** Operations on the store: chain events and the CRUD write path *)

Inductive Op : Type :=
| OpEvent (ev : ContractEvent)
| OpCreateListing (chain : Chain) (req : CreateListingRequest.t)
| OpCancelListing (id : N) (seller : string).

Definition step (now : Time) (op : Op) (db : DB) : DB :=
  match op with
  | OpEvent ev => deliver now ev db
  | OpCreateListing chain req => snd (ListingService.CreateListing chain now req db)
  | OpCancelListing id seller => snd (ListingService.CancelListing now id seller db)
  end.

Definition run (ops : list (Time * Op)) (db : DB) : DB :=
  fold_left (fun d to => step (fst to) (snd to) d) ops db.

(** ** Notions the properties are stated with *)

(** The records of an item. *)
Definition records_of_item (k : N) (db : DB) : list Listing.t :=
  filter (ListingRepository.has_item_id k) (listings db).

(** The primary keys of the listings are distinct and were issued by
    the sequence. *)
Definition listing_keys_ok (db : DB) : Prop :=
  NoDup (map Listing.ID (listings db))
  /\ Forall (fun l => Listing.ID l <= listings_id_seq db) (listings db).

(** One listing before and after some operations: the same row, whose
    status stayed or went from active to cancelled. *)
Definition status_moves (l l' : Listing.t) : Prop :=
  Listing.ID l' = Listing.ID l
  /\ Listing.ItemID l' = Listing.ItemID l
  /\ (Listing.Status l' = Listing.Status l
      \/ (Listing.Status l = "active" /\ Listing.Status l' = "cancelled")).

(** A row that differs from [l] in its status and [UpdatedAt] only. *)
Definition restatused (l : Listing.t) (status : string) (at_ : Time) : Listing.t :=
  Listing.mk (Listing.ID l) (Listing.ItemID l) (Listing.NFTContract l) (Listing.TokenID l)
    (Listing.Seller l) (Listing.Price l) status (Listing.TxHash l) (Listing.ListedAt l)
    (Listing.SoldAt l) (Listing.CreatedAt l) at_.

(** A well-formed address: 20 bytes. *)
Definition valid_address (a : Address) : Prop :=
  List.length a = AddressLength /\ Forall (fun b => b < 256) a.

(** A number of the ABI type uint256, and one of the Go type uint64. *)
Definition uint256 (n : N) : Prop := n < 2 ^ 256.
Definition uint64 (n : N) : Prop := n < 2 ^ 64.

(** A MarketItemCreated event as the ABI decoder hands it over:
    addresses of 20 bytes and numbers of 256 bits. *)
Definition decoded_created (e : MarketItemCreatedEvent.t) : Prop :=
  valid_address (MarketItemCreatedEvent.NftContract e)
  /\ valid_address (MarketItemCreatedEvent.Seller e)
  /\ uint256 (MarketItemCreatedEvent.TokenId e)
  /\ uint256 (MarketItemCreatedEvent.Price e).


(** What the table listings asks of a row: an item id below 2^63,
    texts that fit their columns, a price that casts to NUMERIC. *)
Definition storable (l : Listing.t) : bool :=
  negb (high_bit_set (Listing.ItemID l))
  && varchar 42 (Listing.NFTContract l)
  && varchar 78 (Listing.TokenID l)
  && varchar 42 (Listing.Seller l)
  && varchar 78 (Listing.Price l)
  && varchar 20 (Listing.Status l)
  && varchar 66 (Listing.TxHash l)
  && match cast_numeric (Listing.Price l) with Some _ => true | None => false end.

(** A listing as GORM completes it for its INSERT, under primary key
    [key]. *)
Definition stamped (key : N) (now : Time) (l : Listing.t) : Listing.t :=
  Listing.mk key (Listing.ItemID l) (Listing.NFTContract l) (Listing.TokenID l)
    (Listing.Seller l) (Listing.Price l)
    (if String.eqb (Listing.Status l) "" then "active" else Listing.Status l)
    (Listing.TxHash l) (Listing.ListedAt l) (Listing.SoldAt l)
    (if Time_IsZero (Listing.CreatedAt l) then now else Listing.CreatedAt l)
    (if Time_IsZero (Listing.UpdatedAt l) then now else Listing.UpdatedAt l).

(** The row [UpdateFromEvent] hands to the repository, as stored under
    primary key [id] at instant [now]. *)
Definition created_row (id : N) (now : Time) (e : MarketItemCreatedEvent.t) : Listing.t :=
  Listing.mk id (big_Uint64 (MarketItemCreatedEvent.ItemId e))
    (Address_Hex (MarketItemCreatedEvent.NftContract e))
    (big_String (MarketItemCreatedEvent.TokenId e))
    (Address_Hex (MarketItemCreatedEvent.Seller e))
    (big_String (MarketItemCreatedEvent.Price e))
    "active" "" now None now now.

(** A digit of lower-case hexadecimal text. *)
Definition hex_digit (c : byte) : bool :=
  ((48 <=? c) && (c <=? 57)) || ((97 <=? c) && (c <=? 102)).

(** The two digits [hex.Encode] writes for a byte are hexadecimal
    digits. *)
Definition hex_pair_digits (b : byte) : bool :=
  hex_digit (hextable (N.shiftr b 4)) && hex_digit (hextable (N.land b 15)).

(** The listings whose price enters an aggregate of [GetMarketStats]. *)
Definition priced (l : Listing.t) : bool :=
  ListingRepository.has_status "active" l || ListingRepository.has_status "sold" l.

(** A byte survives [hex.Encode] followed by [hex.Decode]. *)
Definition hex_pair_ok (b : byte) : bool :=
  let hi := hextable (N.shiftr b 4) in
  let lo := hextable (N.land b 15) in
  (hi <? 256) && (lo <? 256)
  && match fromHexChar hi, fromHexChar lo with
     | Some x, Some y => N.lor (N.shiftl x 4) y =? b
     | _, _ => false
     end.

(** The row [CreateListing] hands to the repository, as stored under
    primary key [id] at instant [now]. *)
Definition submitted_row (id : N) (now : Time) (req : CreateListingRequest.t) : Listing.t :=
  Listing.mk id (CreateListingRequest.ItemID req) (CreateListingRequest.NFTContract req)
    (CreateListingRequest.TokenID req) (CreateListingRequest.Seller req)
    (CreateListingRequest.Price req) "active" (CreateListingRequest.TxHash req)
    now None now now.

(** A digit of [Address.hex] as [checksumHex] may leave it: a letter
    upper-cased or not. *)
Definition cased (upper : bool) (c : byte) : byte :=
  if (57 <? c) && upper then c - 32 else c.

(** A byte survives [hex.Encode], any casing of the two digits and
    [hex.Decode]. *)
Definition hex_pair_case_ok (b : byte) : bool :=
  forallb (fun u : bool * bool =>
             let hi := cased (fst u) (hextable (N.shiftr b 4)) in
             let lo := cased (snd u) (hextable (N.land b 15)) in
             (hi <? 256) && (lo <? 256)
             && match fromHexChar hi, fromHexChar lo with
                | Some x, Some y => N.lor (N.shiftl x 4) y =? b
                | _, _ => false
                end)
          [(false, false); (false, true); (true, false); (true, true)].

(** The pieces of a split put together again, the separator between
    them. *)
Fixpoint joined (sep : string) (pieces : list string) : string :=
  match pieces with
  | [] => EmptyString
  | [x] => x
  | x :: rest => (x ++ sep ++ joined sep rest)%string
  end.

(** How often a character occurs in a string. *)
Fixpoint occurrences (c : ascii) (s : string) : nat :=
  match s with
  | EmptyString => O
  | String a r => (if Ascii.eqb a c then 1 else 0) + occurrences c r
  end.

(** A string of blanks only. *)
Fixpoint blank (s : string) : bool :=
  match s with
  | EmptyString => true
  | String a r => config.isSpace a && blank r
  end.

Definition first_char (s : string) : option ascii :=
  match s with
  | EmptyString => None
  | String a _ => Some a
  end.

Fixpoint last_char (s : string) : option ascii :=
  match s with
  | EmptyString => None
  | String a EmptyString => Some a
  | String _ r => last_char r
  end.

(** Neither the first nor the last character is a blank. *)
Definition trimmed (s : string) : Prop :=
  (forall a, first_char s = Some a -> config.isSpace a = false)
  /\ (forall a, last_char s = Some a -> config.isSpace a = false).

(** ** Sample data *)

Module Sample.

Definition nft : Address := HexToAddress "0x5aAeb6053F3E94C9b9A09f33669435E7Ef1BeAed".
Definition alice : Address := HexToAddress "0xfB6916095ca1df60bB79Ce92cE3Ea74c37c5d359".
Definition bob : Address := HexToAddress "0xdbF03B407c01E7cD3CBea99509d93f8DDDC8C6FB".
Definition buyer : Address := HexToAddress "0x00000000000000000000000000000000000000BB".

Definition created7 : MarketItemCreatedEvent.t :=
  MarketItemCreatedEvent.mk 7 nft 1 bob 100.

(** Created for the item 2^63 + 7, whose id has bit 63 set. *)
Definition created_high : MarketItemCreatedEvent.t :=
  MarketItemCreatedEvent.mk (2 ^ 63 + 7) nft 1 bob 100.
Definition sold7 : MarketItemSoldEvent.t :=
  MarketItemSoldEvent.mk 7 buyer 100.

(** Created(item 7, price 100), then Sold(item 7, buyer 0xBB). *)
Definition sale_stream : list (Time * ContractEvent) :=
  [ (10%Z, MarketItemCreated created7); (20%Z, MarketItemSold sold7) ].

(** Created(item 7) delivered twice, then Cancel(item 7). *)
Definition cancel_stream : list (Time * ContractEvent) :=
  [ (10%Z, MarketItemCreated created7); (11%Z, MarketItemCreated created7);
    (20%Z, MarketItemCanceled 7) ].

(** On chain, item 7 of the NFT contract is listed by bob. *)
Definition chain : Chain :=
  fun k => if k =? 7 then Some (MarketItem.mk 7 nft 1 bob bob 100 false 1700000000)
           else None.

(** A submission for item 7 that names the right NFT contract and
    alice as the seller. *)
Definition forged : CreateListingRequest.t :=
  CreateListingRequest.mk 7 "0x5aAeb6053F3E94C9b9A09f33669435E7Ef1BeAed" "1"
    "0xfB6916095ca1df60bB79Ce92cE3Ea74c37c5d359" "100" "0xaa01".

(** A submission for item 7 with another NFT contract. *)
Definition mismatched : CreateListingRequest.t :=
  CreateListingRequest.mk 7 "0xfB6916095ca1df60bB79Ce92cE3Ea74c37c5d359" "1"
    "0xdbF03B407c01E7cD3CBea99509d93f8DDDC8C6FB" "100" "0xaa01".

(** A submission that states for item 7 what the chain and the
    Created event state, in the event path's own rendering. *)
Definition honest : CreateListingRequest.t :=
  CreateListingRequest.mk 7 "0x5aAeb6053F3E94C9b9A09f33669435E7Ef1BeAed" "1"
    "0xdbF03B407c01E7cD3CBea99509d93f8DDDC8C6FB" "100" "0xaa01".

Definition row (id item : N) (seller price status : string) : Listing.t :=
  Listing.mk id item "0x5aAeb6053F3E94C9b9A09f33669435E7Ef1BeAed" "1" seller price
    status "" 10%Z None 10%Z 10%Z.

(** Three listings: one active, one cancelled, one active. *)
Definition market : DB :=
  mkDB [ row 1 7 "0xdbF03B407c01E7cD3CBea99509d93f8DDDC8C6FB" "100" "active";
         row 2 8 "0xdbF03B407c01E7cD3CBea99509d93f8DDDC8C6FB" "250" "cancelled";
         row 3 9 "0xfB6916095ca1df60bB79Ce92cE3Ea74c37c5d359" "40" "active" ]
       3 [] 0.

Definition token (id : N) (tokenID owner status : string) (likes : Z) : NFT.t :=
  NFT.mk id "0x5aAeb6053F3E94C9b9A09f33669435E7Ef1BeAed" tokenID owner owner
    "" "" "" "" "{}" status 0%Z likes 10%Z 10%Z 10%Z.

(** Three tokens: two of bob, one of them liked twice, and one of
    alice that is burned. *)
Definition tokens : NFTTable :=
  [ token 1 "1" "0xdbF03B407c01E7cD3CBea99509d93f8DDDC8C6FB" "active" 2%Z;
    token 2 "2" "0xdbF03B407c01E7cD3CBea99509d93f8DDDC8C6FB" "active" 0%Z;
    token 3 "3" "0xfB6916095ca1df60bB79Ce92cE3Ea74c37c5d359" "burned" 0%Z ].

End Sample.

(** ** Properties *)

Arguments Address_Hex : simpl never.
Arguments big_String : simpl never.
Arguments big_Uint64 : simpl never.
Arguments HexToAddress : simpl never.

Section ListFacts.

Context {A : Type}.
Variable p : A -> bool.

Lemma find_none_existsb (l : list A) :
  find p l = None <-> existsb p l = false.
Proof.
  induction l as [|a l IH]; simpl; [tauto|].
  destruct (p a); simpl; [split; discriminate | exact IH].
Qed.

Lemma find_none_filter (l : list A) :
  find p l = None <-> filter p l = [].
Proof.
  induction l as [|a l IH]; simpl; [tauto|].
  destruct (p a); [split; discriminate | exact IH].
Qed.

Lemma filter_app_one (l : list A) (a : A) :
  filter p (l ++ [a]) = filter p l ++ (if p a then [a] else []).
Proof. rewrite filter_app. simpl. destruct (p a); reflexivity. Qed.

End ListFacts.

(** *** Texts and numbers the schema takes *)

Lemma utf8_length_ascii (bs : list byte) :
  Forall (fun b => 0 < b < 128) bs -> utf8_length bs = Some (List.length bs).
Proof.
  induction 1 as [|b bs Hb _ IH]; [reflexivity|].
  cbn [utf8_length List.length].
  assert (E0 : (b =? 0) = false) by (apply N.eqb_neq; lia).
  assert (E1 : (b <? 128) = true) by (apply N.ltb_lt; lia).
  rewrite E0, E1, IH. reflexivity.
Qed.

Lemma varchar_pg_text (n : nat) (s : string) : varchar n s = true -> pg_text s = true.
Proof.
  unfold varchar, pg_text. destruct (utf8_length _); [reflexivity | discriminate].
Qed.

Lemma bytes_of_string_of_bytes (bs : list byte) :
  Forall (fun b => b < 256) bs -> bytes_of_string (string_of_bytes bs) = bs.
Proof.
  induction 1 as [|b bs Hb _ IH]; simpl; [reflexivity|].
  rewrite N_ascii_embedding by exact Hb. rewrite IH. reflexivity.
Qed.

Lemma hex_pair_digits_all (b : byte) : b < 256 -> hex_pair_digits b = true.
Proof.
  intros H.
  assert (All : forallb hex_pair_digits (map N.of_nat (seq 0 256)) = true)
    by (vm_compute; reflexivity).
  rewrite forallb_forall in All. apply All.
  apply in_map_iff. exists (N.to_nat b). split; [apply N2Nat.id|].
  apply in_seq. lia.
Qed.

Lemma hex_Encode_digits (a : list byte) :
  Forall (fun b => b < 256) a -> Forall (fun c => hex_digit c = true) (hex_Encode a).
Proof.
  induction 1 as [|b bs Hb _ IH]; simpl; [constructor|].
  pose proof (hex_pair_digits_all b Hb) as K. unfold hex_pair_digits in K.
  apply andb_true_iff in K. destruct K as [K1 K2].
  repeat constructor; assumption.
Qed.

Lemma hex_Encode_twice (a : list byte) :
  List.length (hex_Encode a) = (2 * List.length a)%nat.
Proof. induction a as [|b r IH]; simpl; [reflexivity | rewrite IH; lia]. Qed.

Lemma checksum_case_ascii (digits hash : list byte) :
  forall i,
    Forall (fun c => hex_digit c = true) digits ->
    Forall (fun b => 0 < b < 128) (checksum_case i digits hash)
    /\ List.length (checksum_case i digits hash) = List.length digits.
Proof.
  induction digits as [|c r IH]; intros i H; simpl; [split; [constructor | reflexivity]|].
  inversion H as [|x l Hc Hr]; subst.
  destruct (IH (S i) Hr) as [F L]. split; [|rewrite L; reflexivity].
  constructor; [|exact F].
  unfold hex_digit in Hc.
  destruct ((57 <? c) && _) eqn:U.
  - apply andb_true_iff in U. destruct U as [U _]. apply N.ltb_lt in U.
    apply orb_true_iff in Hc. destruct Hc as [Hc | Hc];
      apply andb_true_iff in Hc; destruct Hc as [A B]; apply N.leb_le in A, B; lia.
  - apply orb_true_iff in Hc. destruct Hc as [Hc | Hc];
      apply andb_true_iff in Hc; destruct Hc as [A B]; apply N.leb_le in A, B; lia.
Qed.

(** The text of an address fills a VARCHAR(42) exactly. *)
Lemma Address_Hex_length (a : Address) :
  List.length a = AddressLength -> Forall (fun b => b < 256) a ->
  utf8_length (bytes_of_string (Address_Hex a)) = Some 42%nat.
Proof.
  intros L B. unfold Address_Hex. cbv zeta.
  destruct (checksum_case_ascii (hex_Encode a) (Keccak.keccak256 (hex_Encode a)) 0
              (hex_Encode_digits a B)) as [F Len].
  assert (Fall : Forall (fun b => 0 < b < 128)
                   (48 :: 120 :: checksum_case 0 (hex_Encode a)
                                   (Keccak.keccak256 (hex_Encode a)))).
  { constructor; [lia|]. constructor; [lia | exact F]. }
  rewrite bytes_of_string_of_bytes.
  - rewrite (utf8_length_ascii _ Fall). cbn [List.length].
    rewrite Len, hex_Encode_twice, L. reflexivity.
  - eapply Forall_impl; [|exact Fall]. simpl. intros; lia.
Qed.

Lemma Address_Hex_varchar (a : Address) :
  valid_address a -> varchar 42 (Address_Hex a) = true.
Proof.
  intros [L B]. unfold varchar. rewrite (Address_Hex_length a L B). reflexivity.
Qed.

Lemma of_uint_acc_lower (d : Decimal.uint) :
  forall acc : positive,
    Npos acc * 10 ^ N.of_nat (Decimal.nb_digits d) <= Npos (Pos.of_uint_acc d acc).
Proof.
  induction d as [|d IH|d IH|d IH|d IH|d IH|d IH|d IH|d IH|d IH|d IH]; intros acc;
    [simpl; lia | | | | | | | | | | ];
    cbn [Decimal.nb_digits Pos.of_uint_acc];
    rewrite Nat2N.inj_succ, N.pow_succ_r';
    (eapply N.le_trans; [|apply IH]);
    (assert (P : 0 < 10 ^ N.of_nat (Decimal.nb_digits d))
      by (apply N.neq_0_lt_0, N.pow_nonzero; discriminate));
    nia.
Qed.

Lemma of_uint_lower (d : Decimal.uint) :
  Decimal.unorm d = d ->
  d = Decimal.D0 Decimal.Nil
  \/ 10 ^ N.of_nat (Nat.pred (Decimal.nb_digits d)) <= N.of_uint d.
Proof.
  intros U.
  destruct d as [|d|d|d|d|d|d|d|d|d|d];
    try (right; unfold N.of_uint; cbn [Pos.of_uint Decimal.nb_digits Nat.pred];
         eapply N.le_trans; [|apply of_uint_acc_lower]; lia).
  - discriminate U.
  - left. unfold Decimal.unorm in U. cbn [Decimal.nzhead] in U.
    destruct (Decimal.nzhead d) eqn:Z; try (exfalso; revert U; clear; congruence).
    + injection U as <-. reflexivity.
    + exfalso. exact (DecimalFacts.nzhead_nonzero d _ Z).
Qed.

Lemma string_of_uint_digits (d : Decimal.uint) :
  Forall (fun b => 0 < b < 128) (bytes_of_string (NilEmpty.string_of_uint d))
  /\ List.length (bytes_of_string (NilEmpty.string_of_uint d)) = Decimal.nb_digits d.
Proof.
  induction d as [|d [F L]|d [F L]|d [F L]|d [F L]|d [F L]|d [F L]|d [F L]|d [F L]|d [F L]
                  |d [F L]];
    simpl; (split; [(constructor; [simpl; lia | exact F]) || constructor
                   | try rewrite L; reflexivity]).
Qed.

(** The decimal text of a number below 10^78 has 78 characters at
    most. *)
Lemma big_String_length (n : N) :
  n < 10 ^ 78 ->
  exists k, utf8_length (bytes_of_string (big_String n)) = Some k /\ (1 <= k <= 78)%nat.
Proof.
  intros H. unfold big_String.
  assert (U : Decimal.unorm (N.to_uint n) = N.to_uint n).
  { rewrite <- (DecimalN.Unsigned.of_to n) at 2. symmetry. apply DecimalN.Unsigned.to_of. }
  assert (NN : N.to_uint n <> Decimal.Nil).
  { rewrite <- U. apply DecimalFacts.unorm_nonnil. }
  assert (E : NilZero.string_of_uint (N.to_uint n) = NilEmpty.string_of_uint (N.to_uint n)).
  { unfold NilZero.string_of_uint.
    destruct (N.to_uint n); [exfalso; apply NN; reflexivity|..]; reflexivity. }
  rewrite E. destruct (string_of_uint_digits (N.to_uint n)) as [F L].
  rewrite (utf8_length_ascii _ F), L.
  eexists. split; [reflexivity|].
  assert (Pos1 : (1 <= Decimal.nb_digits (N.to_uint n))%nat).
  { destruct (N.to_uint n); [exfalso; apply NN; reflexivity|..];
      cbn [Decimal.nb_digits]; apply le_n_S, Nat.le_0_l. }
  split; [exact Pos1|].
  destruct (of_uint_lower _ U) as [Z | B].
  - rewrite Z. simpl. lia.
  - rewrite DecimalN.Unsigned.of_to in B.
    assert (P : 10 ^ N.of_nat (Nat.pred (Decimal.nb_digits (N.to_uint n))) < 10 ^ 78)
      by (eapply N.le_lt_trans; [exact B | exact H]).
    apply N.pow_lt_mono_r_iff in P; [lia | lia].
Qed.

Lemma big_String_varchar (n : N) : uint256 n -> varchar 78 (big_String n) = true.
Proof.
  intros H. unfold varchar.
  destruct (big_String_length n) as [k [E [_ K]]].
  - unfold uint256 in H. eapply N.lt_trans; [exact H|]. vm_compute. reflexivity.
  - rewrite E. apply Nat.leb_le. exact K.
Qed.

Lemma cast_numeric_big_String (n : N) : cast_numeric (big_String n) = Some n.
Proof.
  unfold cast_numeric, big_String.
  rewrite NilZero.usu.
  - simpl. rewrite DecimalN.Unsigned.of_to. reflexivity.
  - destruct n as [|p]; [discriminate|].
    simpl. intros H. apply (f_equal Pos.of_uint) in H.
    rewrite DecimalPos.Unsigned.of_to in H. discriminate.
Qed.

(** *** What an INSERT does *)

Lemma first_error_none (checks : list (bool * error)) :
  first_error checks = None <-> Forall (fun c => fst c = true) checks.
Proof.
  unfold first_error. induction checks as [|[b e] r IH]; simpl.
  - split; [constructor | reflexivity].
  - destruct b; simpl.
    + rewrite IH. split; [intros F; constructor; [reflexivity | exact F]
                         | intros F; inversion F; assumption].
    + split; [discriminate | intros F; inversion F; discriminate].
Qed.

Lemma storable_iff (l : Listing.t) :
  storable l = true <->
  high_bit_set (Listing.ItemID l) = false
  /\ varchar 42 (Listing.NFTContract l) = true
  /\ varchar 78 (Listing.TokenID l) = true
  /\ varchar 42 (Listing.Seller l) = true
  /\ varchar 78 (Listing.Price l) = true
  /\ varchar 20 (Listing.Status l) = true
  /\ varchar 66 (Listing.TxHash l) = true
  /\ (exists v, cast_numeric (Listing.Price l) = Some v).
Proof.
  unfold storable. rewrite !andb_true_iff, negb_true_iff.
  split.
  - intros [[[[[[[A B] C] D] E] F] G] H].
    repeat (split; [assumption|]).
    destruct (cast_numeric (Listing.Price l)) as [v|]; [exists v; reflexivity | discriminate].
  - intros [A [B [C [D [E [F [G [v H]]]]]]]]. rewrite H. repeat split; assumption.
Qed.

(** An INSERT into listings stores the row, stamped and numbered by
    the sequence, or changes no table. *)
Lemma insert_cases (now : Time) (l : Listing.t) (db : DB) :
  let row := stamped (listings_id_seq db + 1) now l in
  (exists e db',
      ListingRepository.insert now l db = (Some e, stamped (Listing.ID l) now l, db')
      /\ listings db' = listings db
      /\ transactions db' = transactions db
      /\ transactions_id_seq db' = transactions_id_seq db
      /\ listings_id_seq db <= listings_id_seq db' <= listings_id_seq db + 1
      /\ (storable row = false
          \/ existsb (ListingRepository.has_item_id (Listing.ItemID l)) (listings db) = true))
  \/ (ListingRepository.insert now l db
      = (None, row,
         mkDB (listings db ++ [row]) (listings_id_seq db + 1)
              (transactions db) (transactions_id_seq db))
      /\ storable row = true
      /\ existsb (ListingRepository.has_item_id (Listing.ItemID l)) (listings db) = false).
Proof.
  intros row.
  assert (Hrow : row = stamped (listings_id_seq db + 1) now l) by reflexivity.
  unfold ListingRepository.insert. cbv zeta.
  fold (stamped (Listing.ID l) now l). fold (stamped (listings_id_seq db + 1) now l).
  rewrite <- Hrow.
  destruct (high_bit_set (Listing.ItemID l)) eqn:Hb.
  { left. exists (ErrUint64 "item_id"), db.
    repeat split; try reflexivity; try lia.
    left. unfold storable. subst row. simpl Listing.ItemID. rewrite Hb. reflexivity. }
  destruct (first_error _) as [e1|] eqn:V1.
  { left. exists e1, db. repeat split; try reflexivity; try lia. left.
    destruct (storable row) eqn:S; [|reflexivity]. exfalso.
    apply storable_iff in S. destruct S as [_ [B [C [D [E [F [G _]]]]]]].
    apply varchar_pg_text in B, C, D, E, F, G.
    rewrite B, C, D, E, F, G in V1. discriminate V1. }
  apply first_error_none in V1.
  destruct (first_error _) as [e2|] eqn:V2.
  { left. exists e2. eexists. repeat split; try reflexivity; simpl; try lia. left.
    destruct (storable row) eqn:S; [|reflexivity]. exfalso.
    apply storable_iff in S. destruct S as [_ [B [C [D [E [F [G _]]]]]]].
    rewrite B, C, D, E, F, G in V2. discriminate V2. }
  apply first_error_none in V2.
  assert (Hv : varchar 42 (Listing.NFTContract row) = true
               /\ varchar 78 (Listing.TokenID row) = true
               /\ varchar 42 (Listing.Seller row) = true
               /\ varchar 78 (Listing.Price row) = true
               /\ varchar 20 (Listing.Status row) = true
               /\ varchar 66 (Listing.TxHash row) = true).
  { repeat match goal with
           | F : Forall _ (_ :: _) |- _ => inversion F; clear F; subst
           end.
    repeat split; assumption. }
  unfold sync_price_numeric.
  destruct (cast_numeric (Listing.Price row)) as [v|] eqn:Cn.
  2:{ left. eexists. eexists. repeat split; try reflexivity; simpl; try lia. left.
      destruct (storable row) eqn:S; [|reflexivity]. exfalso.
      apply storable_iff in S. destruct S as [_ [_ [_ [_ [_ [_ [_ [v' S]]]]]]]]. congruence. }
  assert (St : storable row = true).
  { apply storable_iff. destruct Hv as [B [C [D [E [F G]]]]].
    split; [subst row; exact Hb|]. repeat (split; [assumption|]). exists v. exact Cn. }
  destruct (existsb _ (listings db)) eqn:Ex.
  - left. eexists. eexists. repeat split; try reflexivity; simpl; try lia.
  - right. split; [reflexivity|]. split; [exact St | reflexivity].
Qed.

(** A row the table takes, for an item without a record, is stored. *)
Lemma insert_stored (now : Time) (l : Listing.t) (db : DB) :
  let row := stamped (listings_id_seq db + 1) now l in
  storable row = true ->
  existsb (ListingRepository.has_item_id (Listing.ItemID l)) (listings db) = false ->
  ListingRepository.insert now l db
  = (None, row,
     mkDB (listings db ++ [row]) (listings_id_seq db + 1)
          (transactions db) (transactions_id_seq db)).
Proof.
  intros row S Ex.
  destruct (insert_cases now l db) as [[e [db' [_ [_ [_ [_ [_ [C | C]]]]]]]] | [E _]].
  - fold row in C. congruence.
  - congruence.
  - exact E.
Qed.

(** *** The two handlers of the listener *)

Lemma created_row_stamped (id : N) (now : Time) (e : MarketItemCreatedEvent.t) :
  stamped id now
    (Listing.mk 0 (big_Uint64 (MarketItemCreatedEvent.ItemId e))
       (Address_Hex (MarketItemCreatedEvent.NftContract e))
       (big_String (MarketItemCreatedEvent.TokenId e))
       (Address_Hex (MarketItemCreatedEvent.Seller e))
       (big_String (MarketItemCreatedEvent.Price e))
       "active" "" now None 0%Z 0%Z)
  = created_row id now e.
Proof. reflexivity. Qed.

(** The row of a decoded event fits the table when its item id is
    below 2^63. *)
Lemma created_row_storable (id : N) (now : Time) (e : MarketItemCreatedEvent.t) :
  decoded_created e ->
  high_bit_set (big_Uint64 (MarketItemCreatedEvent.ItemId e)) = false ->
  storable (created_row id now e) = true.
Proof.
  intros [A [B [C D]]] Hb. apply storable_iff. unfold created_row.
  cbn [Listing.ItemID Listing.NFTContract Listing.TokenID Listing.Seller Listing.Price
       Listing.Status Listing.TxHash].
  split; [exact Hb|].
  split; [apply Address_Hex_varchar; exact A|].
  split; [apply big_String_varchar; exact C|].
  split; [apply Address_Hex_varchar; exact B|].
  split; [apply big_String_varchar; exact D|].
  split; [reflexivity|]. split; [reflexivity|].
  exists (MarketItemCreatedEvent.Price e). apply cast_numeric_big_String.
Qed.

Lemma UpdateFromEvent_high (now : Time) (e : MarketItemCreatedEvent.t) (db : DB) :
  high_bit_set (big_Uint64 (MarketItemCreatedEvent.ItemId e)) = true ->
  ListingService.UpdateFromEvent now e db = (Some (ErrUint64 "item_id"), db).
Proof.
  intros H. unfold ListingService.UpdateFromEvent, ListingRepository.CreateIfNotExists.
  simpl Listing.ItemID. rewrite H. reflexivity.
Qed.

Lemma UpdateFromEvent_present (now : Time) (e : MarketItemCreatedEvent.t) (db : DB) :
  high_bit_set (big_Uint64 (MarketItemCreatedEvent.ItemId e)) = false ->
  records_of_item (big_Uint64 (MarketItemCreatedEvent.ItemId e)) db <> [] ->
  ListingService.UpdateFromEvent now e db = (None, db).
Proof.
  intros Hb H. unfold ListingService.UpdateFromEvent, ListingRepository.CreateIfNotExists.
  simpl Listing.ItemID. rewrite Hb.
  destruct (find _ (listings db)) eqn:F; [reflexivity|].
  apply find_none_filter in F. contradiction.
Qed.

(** What [UpdateFromEvent] does for an item without a record: the row
    of the event is stored when the table takes it, and no table changes
    when it does not. *)
Lemma UpdateFromEvent_absent_cases (now : Time) (e : MarketItemCreatedEvent.t) (db : DB) :
  records_of_item (big_Uint64 (MarketItemCreatedEvent.ItemId e)) db = [] ->
  let row := created_row (listings_id_seq db + 1) now e in
  (storable row = true
   /\ ListingService.UpdateFromEvent now e db
      = (None, mkDB (listings db ++ [row]) (listings_id_seq db + 1)
                    (transactions db) (transactions_id_seq db)))
  \/ (storable row = false
      /\ exists err db',
           ListingService.UpdateFromEvent now e db = (Some err, db')
           /\ listings db' = listings db
           /\ transactions db' = transactions db
           /\ transactions_id_seq db' = transactions_id_seq db
           /\ listings_id_seq db <= listings_id_seq db' <= listings_id_seq db + 1).
Proof.
  intros H row. apply find_none_filter in H.
  unfold ListingService.UpdateFromEvent, ListingRepository.CreateIfNotExists.
  simpl Listing.ItemID.
  destruct (high_bit_set (big_Uint64 (MarketItemCreatedEvent.ItemId e))) eqn:Hb.
  { right. split.
    - unfold storable, row, created_row. simpl Listing.ItemID. rewrite Hb. reflexivity.
    - exists (ErrUint64 "item_id"), db. repeat split; try reflexivity; lia. }
  rewrite H.
  match goal with
  | |- context [ListingRepository.insert now ?l db] =>
      destruct (insert_cases now l db) as [[err [db' [E [L [T [S [Q C]]]]]]] | [E [St Ex]]];
        rewrite created_row_stamped in *; simpl Listing.ItemID in *; rewrite E
  end.
  - right. destruct C as [C | C].
    + split; [exact C|]. exists err, db'. repeat split; try assumption; apply Q.
    + apply find_none_existsb in H. congruence.
  - left. split; [exact St | reflexivity].
Qed.

Lemma UpdateFromEvent_absent (now : Time) (e : MarketItemCreatedEvent.t) (db : DB) :
  decoded_created e ->
  high_bit_set (big_Uint64 (MarketItemCreatedEvent.ItemId e)) = false ->
  records_of_item (big_Uint64 (MarketItemCreatedEvent.ItemId e)) db = [] ->
  ListingService.UpdateFromEvent now e db =
    (None,
     mkDB (listings db ++ [created_row (listings_id_seq db + 1) now e])
          (listings_id_seq db + 1) (transactions db) (transactions_id_seq db)).
Proof.
  intros D Hb H.
  destruct (UpdateFromEvent_absent_cases now e db H) as [[_ E] | [S _]]; [exact E|].
  rewrite (created_row_storable _ now e D Hb) in S. discriminate S.
Qed.

(** [UpdateFromEvent] whatever the event: it appends the row of the
    event or changes no listing, and never touches the transactions. *)
Lemma UpdateFromEvent_shape (now : Time) (e : MarketItemCreatedEvent.t) (db : DB) :
  let db' := snd (ListingService.UpdateFromEvent now e db) in
  (listings db' = listings db
   \/ (listings db' = listings db ++ [created_row (listings_id_seq db + 1) now e]
       /\ listings_id_seq db' = listings_id_seq db + 1
       /\ records_of_item (big_Uint64 (MarketItemCreatedEvent.ItemId e)) db = []
       /\ storable (created_row (listings_id_seq db + 1) now e) = true))
  /\ transactions db' = transactions db
  /\ transactions_id_seq db' = transactions_id_seq db
  /\ listings_id_seq db <= listings_id_seq db' <= listings_id_seq db + 1.
Proof.
  intros db'. subst db'.
  destruct (records_of_item (big_Uint64 (MarketItemCreatedEvent.ItemId e)) db) eqn:R.
  - destruct (UpdateFromEvent_absent_cases now e db R) as [[S E] | [S [err [d [E [L [T [Q B]]]]]]]];
      rewrite E; simpl.
    + split; [right; repeat split; assumption || reflexivity|].
      repeat split; try reflexivity; lia.
    + split; [left; exact L|]. repeat split; try assumption; apply B.
  - destruct (high_bit_set (big_Uint64 (MarketItemCreatedEvent.ItemId e))) eqn:Hb.
    + rewrite (UpdateFromEvent_high now e db Hb). simpl.
      split; [left; reflexivity|]. repeat split; try reflexivity; lia.
    + rewrite (UpdateFromEvent_present now e db Hb) by (rewrite R; discriminate). simpl.
      split; [left; reflexivity|]. repeat split; try reflexivity; lia.
Qed.

(** [RecordSale] stores nothing: whatever the event, its INSERT is
    refused, and at the latest by the trigger of the table. *)
Lemma RecordSale_refused (now : Time) (e : MarketItemSoldEvent.t) (db : DB) :
  exists err db',
    TransactionService.RecordSale now e db = (Some err, db')
    /\ listings db' = listings db
    /\ listings_id_seq db' = listings_id_seq db
    /\ transactions db' = transactions db
    /\ transactions_id_seq db <= transactions_id_seq db' <= transactions_id_seq db + 1.
Proof.
  unfold TransactionService.RecordSale, TransactionRepository.Create. cbv zeta.
  destruct (first_error _) as [e1|].
  { exists e1, db. repeat split; try reflexivity; lia. }
  destruct (first_error _) as [e2|].
  { exists e2. eexists. repeat split; try reflexivity; simpl; lia. }
  cbn [sync_price_numeric].
  eexists. eexists. repeat split; try reflexivity; simpl; lia.
Qed.




Lemma RecordSale_listings (now : Time) (e : MarketItemSoldEvent.t) (db : DB) :
  listings (snd (TransactionService.RecordSale now e db)) = listings db.
Proof.
  destruct (RecordSale_refused now e db) as [err [db' [E [L _]]]]. rewrite E. exact L.
Qed.

Lemma RecordSale_transactions (now : Time) (e : MarketItemSoldEvent.t) (db : DB) :
  transactions (snd (TransactionService.RecordSale now e db)) = transactions db.
Proof.
  destruct (RecordSale_refused now e db) as [err [db' [E [_ [_ [T _]]]]]]. rewrite E. exact T.
Qed.

(** What the two subscribed handlers do to the listings: a Created
    event may append one active record, nothing else is touched. *)
Lemma deliver_listings (now : Time) (ev : ContractEvent) (db : DB) :
  exists ext,
    listings (deliver now ev db) = listings db ++ ext
    /\ Forall (fun l => Listing.Status l = "active") ext.
Proof.
  destruct ev as [e|e|k|f]; simpl.
  - destruct (UpdateFromEvent_shape now e db) as [[L | [L _]] _].
    + exists []. rewrite app_nil_r. split; [exact L | constructor].
    + eexists. split; [exact L|]. repeat constructor.
  - rewrite RecordSale_listings. exists []. rewrite app_nil_r. split; [reflexivity | constructor].
  - exists []. rewrite app_nil_r. split; [reflexivity | constructor].
  - exists []. rewrite app_nil_r. split; [reflexivity | constructor].
Qed.

Lemma startEventListener_listings (stream : list (Time * ContractEvent)) (db : DB) :
  exists ext,
    listings (startEventListener stream db) = listings db ++ ext
    /\ Forall (fun l => Listing.Status l = "active") ext.
Proof.
  revert db. induction stream as [|[now ev] stream IH]; intros db.
  - exists []. simpl. rewrite app_nil_r. split; [reflexivity | constructor].
  - unfold startEventListener in *. simpl.
    destruct (deliver_listings now ev db) as [ext1 [E1 F1]].
    destruct (IH (deliver now ev db)) as [ext2 [E2 F2]].
    exists (ext1 ++ ext2). rewrite E2, E1, app_assoc. split; [reflexivity|].
    apply Forall_app. split; assumption.
Qed.

(** No stream of chain events changes the transactions. *)
Lemma deliver_transactions (now : Time) (ev : ContractEvent) (db : DB) :
  transactions (deliver now ev db) = transactions db.
Proof.
  destruct ev as [e|e|k|f]; simpl; try reflexivity.
  - apply UpdateFromEvent_shape.
  - apply RecordSale_transactions.
Qed.

Lemma startEventListener_transactions (stream : list (Time * ContractEvent)) (db : DB) :
  transactions (startEventListener stream db) = transactions db.
Proof.
  revert db. induction stream as [|[now ev] stream IH]; intros db; [reflexivity|].
  unfold startEventListener in *. simpl. rewrite IH. apply deliver_transactions.
Qed.

Lemma valid_address_check (a : Address) :
  Nat.eqb (List.length a) AddressLength && forallb (fun b => b <? 256) a = true ->
  valid_address a.
Proof.
  intros H. apply andb_true_iff in H. destruct H as [L F].
  split; [apply Nat.eqb_eq; exact L|].
  apply Forall_forall. intros b Hb. rewrite forallb_forall in F.
  apply N.ltb_lt. exact (F b Hb).
Qed.

Lemma created7_decoded : decoded_created Sample.created7.
Proof.
  split; [apply valid_address_check; vm_compute; reflexivity|].
  split; [apply valid_address_check; vm_compute; reflexivity|].
  split; vm_compute; reflexivity.
Qed.


(** C2, as the spec states it, fails for an item id with bit 63 set:
    the Created event of item 2^63 + 7 is refused with an error, and
    after two deliveries the item has no record. *)
Lemma high_item_is_not_recorded :
  ListingService.UpdateFromEvent 10%Z Sample.created_high empty_db
  = (Some (ErrUint64 "item_id"), empty_db)
  /\ records_of_item (2 ^ 63 + 7)
       (snd (ListingService.UpdateFromEvent 11%Z Sample.created_high
               (snd (ListingService.UpdateFromEvent 10%Z Sample.created_high empty_db))))
     = [].
Proof.
  assert (H : high_bit_set (big_Uint64 (MarketItemCreatedEvent.ItemId Sample.created_high))
              = true) by (vm_compute; reflexivity).
  rewrite !(UpdateFromEvent_high _ Sample.created_high _ H).
  split; reflexivity.
Qed.

(** C2, amended.  For a decoded MarketItemCreated event whose item id
    (its low 64 bits) is below 2^63: for an item that has a record the
    event is a no-op; for an item without one it appends a record with
    status active; delivered again, at once or after any further stream
    of chain events, it changes nothing, and an item that had no record
    has exactly one afterwards.  An event whose item id has bit 63 set is
    refused with an error and stores nothing, on every delivery. *)
Theorem UpdateFromEvent_idempotent :
  forall (now now' : Time) (e : MarketItemCreatedEvent.t) (db : DB),
    decoded_created e ->
    let k := big_Uint64 (MarketItemCreatedEvent.ItemId e) in
    let db1 := snd (ListingService.UpdateFromEvent now e db) in
    (k < 2 ^ 63 ->
     ListingService.UpdateFromEvent now' e db1 = (None, db1)
     /\ (forall stream : list (Time * ContractEvent),
           ListingService.UpdateFromEvent now' e (startEventListener stream db1)
           = (None, startEventListener stream db1))
     /\ (records_of_item k db <> [] ->
         ListingService.UpdateFromEvent now e db = (None, db))
     /\ (records_of_item k db = [] ->
         exists row,
           ListingService.UpdateFromEvent now e db =
             (None, mkDB (listings db ++ [row]) (listings_id_seq db + 1)
                         (transactions db) (transactions_id_seq db))
           /\ Listing.ItemID row = k
           /\ Listing.Status row = "active"
           /\ Listing.NFTContract row = Address_Hex (MarketItemCreatedEvent.NftContract e)
           /\ Listing.TokenID row = big_String (MarketItemCreatedEvent.TokenId e)
           /\ Listing.Seller row = Address_Hex (MarketItemCreatedEvent.Seller e)
           /\ Listing.Price row = big_String (MarketItemCreatedEvent.Price e))
     /\ List.length (records_of_item k db1) = Nat.max 1 (List.length (records_of_item k db)))
    /\ (2 ^ 63 <= k ->
        db1 = db
        /\ forall (stream : list (Time * ContractEvent)),
             ListingService.UpdateFromEvent now' e (startEventListener stream db)
             = (Some (ErrUint64 "item_id"), startEventListener stream db)).
Proof.
  intros now now' e db D k db1. split.
  - intros Hk.
    assert (Hb : high_bit_set k = false) by (apply N.leb_gt; exact Hk).
    assert (Hpresent : records_of_item k db1 <> []
                       /\ List.length (records_of_item k db1)
                          = Nat.max 1 (List.length (records_of_item k db))).
    { subst db1. destruct (records_of_item k db) as [|r rs] eqn:R.
      - rewrite (UpdateFromEvent_absent now e db D Hb R). unfold records_of_item in *.
        simpl. rewrite filter_app_one, R. unfold ListingRepository.has_item_id, created_row.
        simpl Listing.ItemID. fold k. rewrite N.eqb_refl. simpl.
        split; [discriminate | reflexivity].
      - assert (R' : records_of_item k db <> []) by (rewrite R; discriminate).
        rewrite (UpdateFromEvent_present now e db Hb R'). simpl. rewrite R.
        split; [discriminate|]. simpl. destruct (List.length rs); reflexivity. }
    destruct Hpresent as [Hne Hlen].
    split; [apply UpdateFromEvent_present; assumption|].
    split.
    { intros stream. apply UpdateFromEvent_present; [exact Hb|]. fold k.
      destruct (startEventListener_listings stream db1) as [ext [L _]].
      unfold records_of_item in *. rewrite L, filter_app.
      intros Habs. apply app_eq_nil in Habs. destruct Habs as [Habs _]. contradiction. }
    split; [apply UpdateFromEvent_present; exact Hb|].
    split; [|exact Hlen].
    intros R. eexists. split; [apply UpdateFromEvent_absent; assumption|].
    simpl. repeat split; reflexivity.
  - intros Hk.
    assert (Hb : high_bit_set k = true) by (apply N.leb_le; exact Hk).
    split.
    + subst db1. rewrite (UpdateFromEvent_high now e db Hb). reflexivity.
    + intros stream. apply UpdateFromEvent_high. exact Hb.
Qed.

(** The second delivery of Created(item 7) to the empty store is a
    no-op. *)
Lemma UpdateFromEvent_idempotent_witness :
  decoded_created Sample.created7
  /\ ListingService.UpdateFromEvent 11%Z Sample.created7
       (snd (ListingService.UpdateFromEvent 10%Z Sample.created7 empty_db))
     = (None, snd (ListingService.UpdateFromEvent 10%Z Sample.created7 empty_db)).
Proof.
  split; [exact created7_decoded|].
  exact (proj1 (proj1 (UpdateFromEvent_idempotent 10%Z 11%Z Sample.created7 empty_db
                         created7_decoded)
                  (eq_refl : (7 ?= 2 ^ 63) = Lt))).
Defined.

(** C1, as the spec states it, fails on the sample stream: after
    Created(item 7, price 100) and Sold(item 7, buyer 0xBB) the record
    of item 7 is still active. *)
Lemma sale_stream_leaves_listing_active :
  exists l,
    listings (startEventListener Sample.sale_stream empty_db) = [l]
    /\ Listing.ItemID l = 7
    /\ Listing.Status l = "active"
    /\ Listing.Status l <> "sold".
Proof.
  eexists. split; [vm_compute; reflexivity|].
  repeat split; try reflexivity. discriminate.
Qed.

(** C1, amended.  A MarketItemSold event leaves every listing as it
    was, and so does any number of them: the record of the item stays
    active, and a listing has no field for a buyer.  On the sample stream
    the listings end with the one record of item 7, active, at price
    100. *)
Theorem MarketItemSold_leaves_listings :
  (forall (now : Time) (e : MarketItemSoldEvent.t) (db : DB),
      listings (deliver now (MarketItemSold e) db) = listings db)
  /\ (forall (sales : list (Time * MarketItemSoldEvent.t)) (db : DB),
        listings (startEventListener
                    (map (fun s => (fst s, MarketItemSold (snd s))) sales) db)
        = listings db)
  /\ (exists l,
        listings (startEventListener Sample.sale_stream empty_db) = [l]
        /\ Listing.ItemID l = 7 /\ Listing.Status l = "active" /\ Listing.Price l = "100").
Proof.
  split; [intros now e db; apply RecordSale_listings|].
  split.
  - intros sales. induction sales as [|[t e] sales IH]; intros db; [reflexivity|].
    unfold startEventListener in *. simpl. rewrite IH. apply RecordSale_listings.
  - eexists. split; [vm_compute; reflexivity|]. repeat split; reflexivity.
Qed.

(** C5, as the spec states it, fails on the sample stream: after
    Created(item 7) twice and Cancel(item 7) the one record of item 7
    is active. *)
Lemma cancel_stream_leaves_listing_active :
  exists l,
    listings (startEventListener Sample.cancel_stream empty_db) = [l]
    /\ Listing.ItemID l = 7
    /\ Listing.Status l = "active"
    /\ Listing.Status l <> "cancelled".
Proof.
  eexists. split; [vm_compute; reflexivity|].
  repeat split; try reflexivity. discriminate.
Qed.

(** C5, amended.  A MarketItemCanceled log reaches no handler and
    leaves the store as it is; no stream of chain events changes a
    record that exists, it only appends active records.  The sample
    stream ends with exactly one record of item 7, whose status is
    active. *)
Theorem MarketItemCanceled_changes_nothing :
  (forall (now : Time) (k : N) (db : DB), deliver now (MarketItemCanceled k) db = db)
  /\ (forall (stream : list (Time * ContractEvent)) (db : DB),
        exists ext,
          listings (startEventListener stream db) = listings db ++ ext
          /\ Forall (fun l => Listing.Status l = "active") ext)
  /\ (exists l,
        records_of_item 7 (startEventListener Sample.cancel_stream empty_db) = [l]
        /\ Listing.Status l = "active").
Proof.
  split; [reflexivity|].
  split; [exact startEventListener_listings|].
  eexists. split; [vm_compute; reflexivity | reflexivity].
Qed.



Lemma set_status_cancelled (now : Time) (l : Listing.t) :
  ListingRepository.set_status now "cancelled" l = restatused l "cancelled" now.
Proof. reflexivity. Qed.

(** With distinct primary keys, the row [find] returns for a key is the
    only one the UPDATE of that key rewrites. *)
Lemma update_one_row (f : Listing.t -> Listing.t) (id : N) (ls : list Listing.t) (l : Listing.t) :
  NoDup (map Listing.ID ls) ->
  find (ListingRepository.has_id id) ls = Some l ->
  exists pre post,
    ls = pre ++ l :: post
    /\ Listing.ID l = id
    /\ map (fun x => if ListingRepository.has_id id x then f x else x) ls
       = pre ++ f l :: post.
Proof.
  induction ls as [|a ls IH]; simpl; intros ND F; [discriminate|].
  inversion ND as [|? ? Hnotin ND']; subst.
  destruct (ListingRepository.has_id id a) eqn:E.
  - inversion F; subst a. apply N.eqb_eq in E.
    exists [], ls. split; [reflexivity|]. split; [exact E|]. simpl. f_equal.
    rewrite <- (map_id ls) at 2. apply map_ext_in. intros x Hx.
    destruct (ListingRepository.has_id id x) eqn:Ex; [|reflexivity].
    exfalso. apply Hnotin. apply N.eqb_eq in Ex. rewrite E, <- Ex.
    apply in_map. exact Hx.
  - destruct (IH ND' F) as [pre [post [H1 [H2 H3]]]].
    exists (a :: pre), post. split; [simpl; rewrite H1; reflexivity|].
    split; [exact H2|]. simpl. rewrite H3. reflexivity.
Qed.

Lemma find_unique_id (id : N) (ls : list Listing.t) (l : Listing.t) :
  NoDup (map Listing.ID ls) -> In l ls -> Listing.ID l = id ->
  find (ListingRepository.has_id id) ls = Some l.
Proof.
  induction ls as [|a ls IH]; simpl; intros ND Hin Hid; [contradiction|].
  inversion ND as [|? ? Hnotin ND']; subst.
  destruct Hin as [->|Hin].
  - unfold ListingRepository.has_id. rewrite N.eqb_refl. reflexivity.
  - destruct (ListingRepository.has_id (Listing.ID l) a) eqn:E.
    + exfalso. apply Hnotin. apply N.eqb_eq in E. rewrite E. apply in_map. exact Hin.
    + apply IH; auto.
Qed.

(** The status cancelled fits its column. *)
Lemma UpdateStatus_cancelled (now : Time) (id : N) (db : DB) :
  ListingRepository.UpdateStatus now id "cancelled" db
  = (None,
     mkDB (map (fun l => if ListingRepository.has_id id l
                         then ListingRepository.set_status now "cancelled" l else l)
               (listings db))
          (listings_id_seq db) (transactions db) (transactions_id_seq db)).
Proof.
  unfold ListingRepository.UpdateStatus.
  change (pg_text "cancelled") with true. change (varchar 20 "cancelled") with true.
  rewrite andb_false_r. reflexivity.
Qed.

(** C9.  [CancelListing] succeeds exactly when a listing with that id
    exists, its stored seller is the one supplied and its status is
    active; it then rewrites the status (to cancelled) and [UpdatedAt] of
    that one row and nothing else.  In every other case it returns an
    error and the store is unchanged. *)
Theorem CancelListing_guards :
  forall (now : Time) (id : N) (seller : string) (db : DB),
    NoDup (map Listing.ID (listings db)) ->
    let r := ListingService.CancelListing now id seller db in
    ((exists l, In l (listings db) /\ Listing.ID l = id
                /\ Listing.Seller l = seller /\ Listing.Status l = "active")
     -> fst r = None)
    /\ (fst r = None ->
        exists pre l post,
          listings db = pre ++ l :: post
          /\ Listing.ID l = id /\ Listing.Seller l = seller /\ Listing.Status l = "active"
          /\ snd r = mkDB (pre ++ restatused l "cancelled" now :: post)
                          (listings_id_seq db) (transactions db) (transactions_id_seq db))
    /\ (forall e, fst r = Some e -> snd r = db).
Proof.
  intros now id seller db ND r. subst r.
  unfold ListingService.CancelListing, ListingRepository.GetByID.
  rewrite UpdateStatus_cancelled.
  split; [|split].
  - intros [l [Hin [Hid [Hs Hst]]]].
    rewrite (find_unique_id id _ l ND Hin Hid).
    rewrite Hs, Hst, String.eqb_refl. reflexivity.
  - destruct (find _ (listings db)) as [l|] eqn:F; [|simpl; discriminate].
    destruct (String.eqb (Listing.Seller l) seller) eqn:Es; [|simpl; discriminate].
    destruct (String.eqb (Listing.Status l) "active") eqn:Ea; [|simpl; discriminate].
    simpl. intros _.
    destruct (update_one_row (ListingRepository.set_status now "cancelled") id _ l ND F)
      as [pre [post [H1 [H2 H3]]]].
    exists pre, l, post. apply String.eqb_eq in Es, Ea.
    repeat split; try assumption.
    rewrite H3, set_status_cancelled. reflexivity.
  - intros e. destruct (find _ (listings db)) as [l|] eqn:F; [|reflexivity].
    destruct (String.eqb (Listing.Seller l) seller); [|reflexivity].
    destruct (String.eqb (Listing.Status l) "active"); [|reflexivity].
    simpl. discriminate.
Qed.

(** Bob cancels his active listing 1 of the sample market. *)
Lemma CancelListing_guards_witness :
  NoDup (map Listing.ID (listings Sample.market))
  /\ fst (ListingService.CancelListing 30%Z 1
            "0xdbF03B407c01E7cD3CBea99509d93f8DDDC8C6FB" Sample.market) = None.
Proof.
  assert (ND : NoDup (map Listing.ID (listings Sample.market))).
  { simpl. repeat constructor; simpl; intuition discriminate. }
  split; [exact ND|].
  apply (proj1 (CancelListing_guards 30%Z 1 "0xdbF03B407c01E7cD3CBea99509d93f8DDDC8C6FB"
                  Sample.market ND)).
  eexists. split; [left; reflexivity|]. repeat split; reflexivity.
Defined.

Lemma int64_sub_small (a b : Z) :
  (0 <= b <= a)%Z -> (a < 2 ^ 63)%Z -> int64_sub a b = (a - b)%Z.
Proof.
  intros H1 H2. unfold int64_sub.
  rewrite Z.mod_small; lia.
Qed.

Lemma GetMarketStats_counts (db : DB) (stats : MarketStats.t) :
  ListingService.GetMarketStats db = Ok stats ->
  MarketStats.active_listings stats = ListingRepository.CountActiveListings db
  /\ MarketStats.total_listings stats = ListingRepository.CountTotalListings db
  /\ MarketStats.sold_listings stats
     = int64_sub (ListingRepository.CountTotalListings db)
                 (ListingRepository.CountActiveListings db).
Proof.
  unfold ListingService.GetMarketStats.
  destruct (ListingRepository.GetTotalVolume db); [|discriminate].
  destruct (ListingRepository.GetAveragePrice db); [|discriminate].
  destruct (ListingRepository.GetMinPrice db); [|discriminate].
  destruct (ListingRepository.GetMaxPrice db); [|discriminate].
  intros H. inversion H; subst. simpl. repeat split; reflexivity.
Qed.

Lemma filter_length_implied {A : Type} (p q : A -> bool) (l : list A) :
  (forall x, p x = true -> q x = true) ->
  (List.length (filter p l) <= List.length (filter q l))%nat.
Proof.
  intros H. induction l as [|a l IH]; simpl; [lia|].
  destruct (p a) eqn:P.
  - rewrite (H a P). simpl. lia.
  - destruct (q a); simpl; lia.
Qed.

(** C10.  The sold_listings figure of [GetMarketStats] is the total
    number of listings minus the number of active ones: it counts every
    listing that is not active, the cancelled ones included. *)
Theorem sold_listings_counts_cancelled :
  forall (db : DB) (stats : MarketStats.t),
    ListingService.GetMarketStats db = Ok stats ->
    (Z.of_nat (List.length (listings db)) < 2 ^ 63)%Z ->
    MarketStats.sold_listings stats
      = (MarketStats.total_listings stats - MarketStats.active_listings stats)%Z
    /\ MarketStats.total_listings stats = Z.of_nat (List.length (listings db))
    /\ MarketStats.active_listings stats
       = Z.of_nat (List.length (filter (ListingRepository.has_status "active") (listings db)))
    /\ MarketStats.sold_listings stats
       = Z.of_nat (List.length
                     (filter (fun l => negb (ListingRepository.has_status "active" l))
                             (listings db)))
    /\ (Z.of_nat (List.length (filter (ListingRepository.has_status "cancelled") (listings db)))
        <= MarketStats.sold_listings stats)%Z.
Proof.
  intros db stats H Hsmall.
  destruct (GetMarketStats_counts db stats H) as [Ha [Ht Hs]].
  unfold ListingRepository.CountActiveListings, ListingRepository.CountTotalListings in *.
  pose proof (filter_length (ListingRepository.has_status "active") (listings db)) as FL.
  assert (Hsub : MarketStats.sold_listings stats
                 = Z.of_nat (List.length
                               (filter (fun l => negb (ListingRepository.has_status "active" l))
                                       (listings db)))).
  { rewrite Hs, int64_sub_small; lia. }
  split; [rewrite Hsub, Ht, Ha; lia|].
  split; [exact Ht|]. split; [exact Ha|]. split; [exact Hsub|].
  rewrite Hsub. apply inj_le. apply filter_length_implied.
  intros l. unfold ListingRepository.has_status. intros E.
  apply String.eqb_eq in E. rewrite E. reflexivity.
Qed.

(** The sample market has one cancelled listing and none sold; its
    sold_listings figure is 1. *)
Lemma sold_listings_counts_cancelled_witness :
  exists stats,
    ListingService.GetMarketStats Sample.market = Ok stats
    /\ MarketStats.sold_listings stats = 1%Z
    /\ filter (ListingRepository.has_status "sold") (listings Sample.market) = [].
Proof.
  eexists. split; [vm_compute; reflexivity|].
  split; [|reflexivity].
  match goal with
  | |- MarketStats.sold_listings ?s = _ =>
      assert (G : ListingService.GetMarketStats Sample.market = Ok s)
        by (vm_compute; reflexivity);
      assert (B : (Z.of_nat (List.length (listings Sample.market)) < 2 ^ 63)%Z)
        by (vm_compute; reflexivity);
      destruct (sold_listings_counts_cancelled Sample.market s G B) as [_ [_ [_ [E _]]]];
      rewrite E
  end.
  reflexivity.
Defined.

(** *** The aggregates of the statistics *)

Lemma cast_all_Forall2 (ss : list string) (vs : list N) :
  cast_all ss = Ok vs <-> Forall2 (fun s v => cast_numeric s = Some v) ss vs.
Proof.
  revert vs. induction ss as [|s ss IH]; intros vs; simpl.
  - split; intros H; inversion H; constructor.
  - destruct (cast_numeric s) as [v|] eqn:C.
    + destruct (cast_all ss) as [ws|e] eqn:CA.
      * split; intros H.
        -- inversion H; subst. constructor; [exact C | apply IH; reflexivity].
        -- inversion H as [|? v' ? ws' Hc Hr]; subst.
           apply IH in Hr. inversion Hr; subst. congruence.
      * split; intros H; [discriminate|].
        inversion H as [|? v' ? ws' Hc Hr]; subst. apply IH in Hr. discriminate.
    + split; intros H; [discriminate|].
      inversion H; subst. congruence.
Qed.

Lemma cast_all_total (ss : list string) :
  Forall (fun s => exists v, cast_numeric s = Some v) ss ->
  exists vs, cast_all ss = Ok vs.
Proof.
  induction 1 as [|s ss [v Hv] _ [vs IH]]; simpl.
  - exists []. reflexivity.
  - rewrite Hv, IH. exists (v :: vs). reflexivity.
Qed.

Lemma sql_min_from (a : N) (vs : list N) :
  exists m,
    fold_left (fun acc v => match acc with None => Some v | Some m => Some (N.min m v) end)
              vs (Some a) = Some m
    /\ In m (a :: vs) /\ Forall (fun v => m <= v) (a :: vs).
Proof.
  revert a. induction vs as [|v vs IH]; intros a; simpl.
  - exists a. repeat split; [left; reflexivity | repeat constructor; lia].
  - destruct (IH (N.min a v)) as [m [E [Hin Hall]]].
    exists m. split; [exact E|]. inversion Hall as [|? ? Hm Hvs]; subst. split.
    + destruct Hin as [Hin|Hin]; [|right; right; exact Hin].
      destruct (N.min_spec a v) as [[_ M]|[_ M]]; rewrite M in Hin; subst; simpl; auto.
    + repeat constructor; try assumption; lia.
Qed.

Lemma sql_max_from (a : N) (vs : list N) :
  exists m,
    fold_left (fun acc v => match acc with None => Some v | Some m => Some (N.max m v) end)
              vs (Some a) = Some m
    /\ In m (a :: vs) /\ Forall (fun v => v <= m) (a :: vs).
Proof.
  revert a. induction vs as [|v vs IH]; intros a; simpl.
  - exists a. repeat split; [left; reflexivity | repeat constructor; lia].
  - destruct (IH (N.max a v)) as [m [E [Hin Hall]]].
    exists m. split; [exact E|]. inversion Hall as [|? ? Hm Hvs]; subst. split.
    + destruct Hin as [Hin|Hin]; [|right; right; exact Hin].
      destruct (N.max_spec a v) as [[_ M]|[_ M]]; rewrite M in Hin; subst; simpl; auto.
    + repeat constructor; try assumption; lia.
Qed.

Lemma sql_sum_from (a : N) (vs : list N) :
  fold_left (fun acc v => match acc with None => Some v | Some m => Some (m + v) end)
            vs (Some a) = Some (a + fold_right N.add 0 vs).
Proof.
  revert a. induction vs as [|v vs IH]; intros a; simpl.
  - rewrite N.add_0_r. reflexivity.
  - rewrite IH. f_equal. lia.
Qed.

Lemma sql_avg_value (v : N) (vs : list N) :
  exists q,
    sql_avg (v :: vs) = Some q
    /\ (q * inject_Z (Z.of_nat (List.length (v :: vs)))
        == inject_Z (Z.of_N (fold_right N.add 0%N (v :: vs))))%Q.
Proof.
  unfold sql_avg, sql_sum. simpl fold_left. rewrite sql_sum_from.
  eexists. split; [reflexivity|].
  change (List.length (v :: vs)) with (S (List.length vs)).
  change (fold_right N.add 0%N (v :: vs)) with (v + fold_right N.add 0%N vs).
  generalize (List.length vs) as n. intros n.
  unfold Qeq, Qmult, inject_Z. cbn [Qnum Qden].
  rewrite Pos.mul_1_r, Z.mul_1_r. f_equal.
  rewrite <- Pos.of_nat_succ, Znat.Zpos_P_of_succ_nat. lia.
Qed.

Lemma Forall2_map_left {A B C : Type} (f : A -> B) (R : B -> C -> Prop) (l : list A) (vs : list C) :
  Forall2 R (map f l) vs -> Forall2 (fun a v => R (f a) v) l vs.
Proof.
  revert vs. induction l as [|a l IH]; intros vs H; inversion H; subst; constructor; auto.
Qed.

Lemma prices_where_total (s : string) (db : DB) :
  (forall l, In l (listings db) -> ListingRepository.has_status s l = true ->
             exists v, cast_numeric (Listing.Price l) = Some v) ->
  exists vs,
    ListingRepository.prices_where s db = Ok vs
    /\ Forall2 (fun l v => cast_numeric (Listing.Price l) = Some v)
               (filter (ListingRepository.has_status s) (listings db)) vs.
Proof.
  intros H. unfold ListingRepository.prices_where.
  destruct (cast_all_total (map Listing.Price (filter (ListingRepository.has_status s) (listings db))))
    as [vs E].
  - apply Forall_forall. intros x Hx. apply in_map_iff in Hx.
    destruct Hx as [l [<- Hl]]. apply filter_In in Hl. destruct Hl as [Hin Hs].
    exact (H l Hin Hs).
  - exists vs. split; [exact E|].
    apply (Forall2_map_left Listing.Price (fun s v => cast_numeric s = Some v)).
    apply cast_all_Forall2. exact E.
Qed.

(** C7.  The statistics are computed from the listings stored at the
    time of the query: the floor price is the least and the ceiling
    price the greatest price among the listings with status active, the
    average is their sum over their number, and all three are 0 when no
    listing is active. *)
Theorem GetMarketStats_recomputed :
  forall db : DB,
    (forall l, In l (listings db) -> priced l = true ->
               exists v, cast_numeric (Listing.Price l) = Some v) ->
    exists stats vs,
      ListingService.GetMarketStats db = Ok stats
      /\ Forall2 (fun l v => cast_numeric (Listing.Price l) = Some v)
                 (filter (ListingRepository.has_status "active") (listings db)) vs
      /\ (vs = [] ->
          MarketStats.floor_price stats = "0"
          /\ MarketStats.ceiling_price stats = "0"
          /\ (MarketStats.average_price stats == 0)%Q)
      /\ (vs <> [] ->
          exists lo hi,
            In lo vs /\ In hi vs
            /\ Forall (fun v => lo <= v /\ v <= hi) vs
            /\ MarketStats.floor_price stats = big_String lo
            /\ MarketStats.ceiling_price stats = big_String hi
            /\ (MarketStats.average_price stats * inject_Z (Z.of_nat (List.length vs))
                == inject_Z (Z.of_N (fold_right N.add 0%N vs)))%Q)
      /\ (forall db', listings db' = listings db ->
                      ListingService.GetMarketStats db' = Ok stats).
Proof.
  intros db H.
  destruct (prices_where_total "active" db) as [va [Ea Fa]].
  { intros l Hin Hs. apply (H l Hin). unfold priced. rewrite Hs. reflexivity. }
  destruct (prices_where_total "sold" db) as [vs [Es _]].
  { intros l Hin Hs. apply (H l Hin). unfold priced. rewrite Hs. apply orb_true_r. }
  assert (G : forall db', listings db' = listings db ->
              ListingService.GetMarketStats db' =
                Ok (MarketStats.mk
                      (ListingRepository.CountActiveListings db)
                      (ListingRepository.CountTotalListings db)
                      (int64_sub (ListingRepository.CountTotalListings db)
                                 (ListingRepository.CountActiveListings db))
                      (big_String (COALESCE (sql_sum vs) 0))
                      (COALESCE (sql_avg va) 0%Q)
                      (big_String (COALESCE (sql_min va) 0))
                      (big_String (COALESCE (sql_max va) 0)))).
  { intros db' L.
    unfold ListingService.GetMarketStats, ListingRepository.GetTotalVolume,
      ListingRepository.GetAveragePrice, ListingRepository.GetMinPrice,
      ListingRepository.GetMaxPrice, ListingRepository.CountActiveListings,
      ListingRepository.CountTotalListings, ListingRepository.prices_where in *.
    rewrite L, Ea, Es. reflexivity. }
  eexists. exists va.
  split; [apply G; reflexivity|].
  split; [exact Fa|].
  split; [|split; [|exact G]].
  - intros ->. simpl. repeat split; reflexivity.
  - intros Hne. destruct va as [|v va]; [contradiction|].
    destruct (sql_min_from v va) as [lo [Elo [Ilo Flo]]].
    destruct (sql_max_from v va) as [hi [Ehi [Ihi Fhi]]].
    destruct (sql_avg_value v va) as [q [Eq Hq]].
    exists lo, hi. cbn [MarketStats.floor_price MarketStats.ceiling_price
                        MarketStats.average_price].
    unfold sql_min, sql_max. simpl fold_left. rewrite Elo, Ehi, Eq. simpl COALESCE.
    split; [exact Ilo|]. split; [exact Ihi|].
    split; [|split; [reflexivity | split; [reflexivity | exact Hq]]].
    apply Forall_forall. intros x Hx.
    rewrite Forall_forall in Flo, Fhi. split; [apply Flo | apply Fhi]; exact Hx.
Qed.

(** The sample market: the active listings are priced 100 and 40, the
    cancelled one 250; the floor is 40 and the ceiling 100. *)
Lemma GetMarketStats_recomputed_witness :
  exists stats,
    ListingService.GetMarketStats Sample.market = Ok stats
    /\ MarketStats.floor_price stats = "40"
    /\ MarketStats.ceiling_price stats = "100".
Proof.
  assert (H : forall l, In l (listings Sample.market) -> priced l = true ->
                        exists v, cast_numeric (Listing.Price l) = Some v).
  { intros l [<-|[<-|[<-|[]]]] _; eexists; vm_compute; reflexivity. }
  destruct (GetMarketStats_recomputed Sample.market H) as [stats [vs [G _]]].
  exists stats. split; [exact G|].
  assert (E : ListingService.GetMarketStats Sample.market
              = Ok (MarketStats.mk 2 3 1 "0" (140 # 2) "40" "100"))
    by (vm_compute; reflexivity).
  rewrite E in G. inversion G. split; reflexivity.
Defined.

(** *** Hexadecimal text of an address and back *)

Lemma hex_pair_ok_all (b : byte) : b < 256 -> hex_pair_ok b = true.
Proof.
  intros H.
  assert (All : forallb hex_pair_ok (map N.of_nat (seq 0 256)) = true)
    by (vm_compute; reflexivity).
  rewrite forallb_forall in All. apply All.
  apply in_map_iff. exists (N.to_nat b). split; [apply N2Nat.id|].
  apply in_seq. lia.
Qed.

Lemma hex_Encode_bytes (a : list byte) :
  Forall (fun b => b < 256) a -> Forall (fun b => b < 256) (hex_Encode a).
Proof.
  induction 1 as [|b bs Hb _ IH]; simpl; [constructor|].
  pose proof (hex_pair_ok_all b Hb) as K. unfold hex_pair_ok in K. cbv zeta in K.
  apply andb_true_iff in K. destruct K as [K _].
  apply andb_true_iff in K. destruct K as [K1 K2].
  apply N.ltb_lt in K1, K2. repeat constructor; assumption.
Qed.

Lemma hex_Encode_length (a : list byte) :
  List.length (hex_Encode a) = (2 * List.length a)%nat.
Proof. induction a as [|b a IH]; simpl; [reflexivity|]. rewrite IH. lia. Qed.

Lemma hex_Decode_Encode (a : list byte) :
  Forall (fun b => b < 256) a -> hex_Decode (hex_Encode a) = a.
Proof.
  induction 1 as [|b bs Hb _ IH]; [reflexivity|].
  cbn [hex_Encode hex_Decode].
  pose proof (hex_pair_ok_all b Hb) as K. unfold hex_pair_ok in K. cbv zeta in K.
  apply andb_true_iff in K. destruct K as [_ K].
  destruct (fromHexChar (hextable (N.shiftr b 4))) as [x|]; [|discriminate].
  destruct (fromHexChar (hextable (N.land b 15))) as [y|]; [|discriminate].
  apply N.eqb_eq in K. rewrite K, IH. reflexivity.
Qed.

(** The address [GetMarketItem] renders as text is the address
    [HexToAddress] reads back. *)
Lemma HexToAddress_hex (a : Address) :
  valid_address a -> HexToAddress (string_of_bytes (Address_hex a)) = a.
Proof.
  intros [Hlen Hb]. unfold HexToAddress, FromHex, Address_hex.
  rewrite bytes_of_string_of_bytes.
  - simpl has0xPrefix. simpl skipn. cbv zeta. cbv iota.
    rewrite hex_Encode_length.
    replace (Nat.odd (2 * List.length a)) with false.
    + rewrite hex_Decode_Encode by exact Hb.
      unfold BytesToAddress. cbv zeta. rewrite Hlen.
      change (Nat.ltb AddressLength AddressLength) with false. cbv iota.
      rewrite Hlen, Nat.sub_diag. reflexivity.
    + symmetry. rewrite <- Nat.negb_even, Nat.even_mul. reflexivity.
  - repeat constructor. apply hex_Encode_bytes. exact Hb.
Qed.

Lemma Address_eqb_eq (a b : Address) : Address_eqb a b = true <-> a = b.
Proof.
  unfold Address_eqb. destruct (list_eq_dec N.eq_dec a b); split; congruence.
Qed.

(** *** The CRUD write path *)

(** *** The CRUD write path *)

Lemma submitted_row_stamped (id : N) (now : Time) (req : CreateListingRequest.t) :
  stamped id now
    (Listing.mk 0 (CreateListingRequest.ItemID req) (CreateListingRequest.NFTContract req)
       (CreateListingRequest.TokenID req) (CreateListingRequest.Seller req)
       (CreateListingRequest.Price req) "active" (CreateListingRequest.TxHash req)
       now None 0%Z 0%Z)
  = submitted_row id now req.
Proof. reflexivity. Qed.

(** [big.NewInt(int64(itemID))]: the item id itself below 2^63, a
    negative number from there on. *)
Lemma int64_small (x : N) :
  x < 2 ^ 63 ->
  (int64_of_uint64 x <? 0)%Z = false /\ U256 (int64_of_uint64 x) = x.
Proof.
  intros H. unfold int64_of_uint64, U256.
  assert (E : ((Z.of_N x + 2 ^ 63) mod 2 ^ 64 = Z.of_N x + 2 ^ 63)%Z)
    by (apply Z.mod_small; lia).
  rewrite E. replace (Z.of_N x + 2 ^ 63 - 2 ^ 63)%Z with (Z.of_N x) by lia.
  split; [apply Z.ltb_ge; lia|].
  rewrite Z.mod_small; [apply N2Z.id|].
  split; [lia|]. eapply Z.lt_trans with (2 ^ 63)%Z; [lia | reflexivity].
Qed.

Lemma int64_high (x : N) :
  2 ^ 63 <= x -> uint64 x -> (int64_of_uint64 x <? 0)%Z = true.
Proof.
  intros H U. unfold uint64 in U. unfold int64_of_uint64. apply Z.ltb_lt.
  replace (Z.of_N x + 2 ^ 63)%Z with ((Z.of_N x - 2 ^ 63) + 1 * 2 ^ 64)%Z by lia.
  rewrite Z.mod_add by discriminate.
  rewrite Z.mod_small; lia.
Qed.

Lemma CreateListing_high (chain : Chain) (now : Time) (req : CreateListingRequest.t) (db : DB) :
  2 ^ 63 <= CreateListingRequest.ItemID req ->
  uint64 (CreateListingRequest.ItemID req) ->
  ListingService.CreateListing chain now req db
  = (Err (Wrapf "failed to verify on-chain data" (Wrapf "failed to pack data" ErrPack)), db).
Proof.
  intros H U. unfold ListingService.CreateListing, Client.GetMarketItem. cbv zeta.
  rewrite (int64_high _ H U). reflexivity.
Qed.

(** [CreateListing] for an item id below 2^63, case by case. *)
Lemma CreateListing_cases (chain : Chain) (now : Time) (req : CreateListingRequest.t) (db : DB) :
  CreateListingRequest.ItemID req < 2 ^ 63 ->
  let key := CreateListingRequest.ItemID req in
  let row := submitted_row (listings_id_seq db + 1) now req in
  let r := ListingService.CreateListing chain now req db in
  (chain key = None /\ r = (Err (Wrapf "failed to verify on-chain data" ErrChain), db))
  \/ (exists it,
        chain key = Some it
        /\ HexToAddress (string_of_bytes (Address_hex (MarketItem.nftContract it)))
           <> HexToAddress (CreateListingRequest.NFTContract req)
        /\ r = (Err (Errorf "nft contract mismatch"), db))
  \/ (exists it,
        chain key = Some it
        /\ HexToAddress (string_of_bytes (Address_hex (MarketItem.nftContract it)))
           = HexToAddress (CreateListingRequest.NFTContract req)
        /\ ((exists e db',
               r = (Err (Wrapf "failed to create listing" e), db')
               /\ listings db' = listings db
               /\ transactions db' = transactions db
               /\ transactions_id_seq db' = transactions_id_seq db
               /\ listings_id_seq db <= listings_id_seq db' <= listings_id_seq db + 1
               /\ (storable row = false \/ records_of_item key db <> []))
            \/ (records_of_item key db = []
                /\ storable row = true
                /\ r = (Ok (ListingService.toResponse row),
                        mkDB (listings db ++ [row]) (listings_id_seq db + 1)
                             (transactions db) (transactions_id_seq db))))).
Proof.
  intros Hx key row r. subst r key row.
  unfold ListingService.CreateListing, Client.GetMarketItem.
  cbv zeta. destruct (int64_small _ Hx) as [Z1 Z2]. rewrite Z1, Z2.
  set (row := submitted_row (listings_id_seq db + 1) now req).
  destruct (chain (CreateListingRequest.ItemID req)) as [it|]; [|left; split; reflexivity].
  right. simpl ItemData.nftContract.
  destruct (Address_eqb _ _) eqn:E; simpl negb; cbv iota.
  - right. exists it. split; [reflexivity|]. apply Address_eqb_eq in E. split; [exact E|].
    unfold ListingRepository.Create.
    match goal with
    | |- context [ListingRepository.insert now ?l db] =>
        pose proof (insert_cases now l db) as C;
          pose proof (insert_stored now l db) as St
    end.
    cbv zeta in C, St. rewrite !submitted_row_stamped in C, St. simpl Listing.ItemID in C, St.
    fold row in C, St.
    destruct C as [[e [db' [I [L [T [S [Q C]]]]]]] | [I [S X]]]; rewrite I.
    + left. exists e, db'. repeat split; try assumption; try apply Q.
      destruct C as [C | C]; [left; exact C|].
      right. intros R. apply find_none_filter in R. apply find_none_existsb in R. congruence.
    + right. split; [|split; [exact S | reflexivity]].
      apply find_none_filter, find_none_existsb. exact X.
  - left. exists it. split; [reflexivity|]. split; [|reflexivity].
    intros Heq. apply Address_eqb_eq in Heq.
    pose proof (eq_trans (eq_sym Heq) E) as Absurd. discriminate Absurd.
Qed.

(** An item id of 2^63 or more never reaches the table. *)
Lemma CreateListing_beyond (chain : Chain) (now : Time) (req : CreateListingRequest.t) (db : DB) :
  2 ^ 63 <= CreateListingRequest.ItemID req ->
  exists e, ListingService.CreateListing chain now req db = (Err e, db).
Proof.
  intros H. unfold ListingService.CreateListing, Client.GetMarketItem. cbv zeta.
  destruct (_ <? 0)%Z; [eexists; reflexivity|].
  destruct (chain _) as [it|]; [|eexists; reflexivity].
  destruct (negb _); [eexists; reflexivity|].
  unfold ListingRepository.Create, ListingRepository.insert. cbv zeta.
  simpl Listing.ItemID.
  assert (Hb : high_bit_set (CreateListingRequest.ItemID req) = true)
    by (apply N.leb_le; exact H).
  rewrite Hb. eexists. reflexivity.
Qed.

Lemma CreateListing_shape (chain : Chain) (now : Time) (req : CreateListingRequest.t) (db : DB) :
  let r := ListingService.CreateListing chain now req db in
  let row := submitted_row (listings_id_seq db + 1) now req in
  ((exists e, fst r = Err e)
   /\ listings (snd r) = listings db
   /\ transactions (snd r) = transactions db
   /\ transactions_id_seq (snd r) = transactions_id_seq db
   /\ listings_id_seq db <= listings_id_seq (snd r) <= listings_id_seq db + 1)
  \/ (CreateListingRequest.ItemID req < 2 ^ 63
      /\ records_of_item (CreateListingRequest.ItemID req) db = []
      /\ storable row = true
      /\ r = (Ok (ListingService.toResponse row),
              mkDB (listings db ++ [row]) (listings_id_seq db + 1)
                   (transactions db) (transactions_id_seq db))).
Proof.
  intros r row. subst r row.
  destruct (N.lt_ge_cases (CreateListingRequest.ItemID req) (2 ^ 63)) as [Hx | Hx].
  - destruct (CreateListing_cases chain now req db Hx)
      as [[_ R] | [[it [_ [_ R]]] | [it [_ [_ [[e [db' [R [L [T [S [Q _]]]]]]] | [A [S R]]]]]]]];
      cbv zeta in R.
    + left. rewrite R. simpl. split; [eexists; reflexivity|]. repeat split; try reflexivity; lia.
    + left. rewrite R. simpl. split; [eexists; reflexivity|]. repeat split; try reflexivity; lia.
    + left. rewrite R. simpl. split; [eexists; reflexivity|].
      repeat split; try assumption; apply Q.
    + right. repeat split; assumption.
  - left. destruct (CreateListing_beyond chain now req db Hx) as [e E]. rewrite E. simpl.
    split; [eexists; reflexivity|]. repeat split; try reflexivity; lia.
Qed.

(** C3, as the spec states it, fails: on chain item 7 is listed by
    bob; the submission that names alice as its seller, with the right
    NFT contract, is accepted and stored with alice as the seller. *)
Lemma forged_seller_is_persisted :
  exists it resp db',
    Sample.chain 7 = Some it
    /\ ListingService.CreateListing Sample.chain 30%Z Sample.forged empty_db = (Ok resp, db')
    /\ map Listing.Seller (listings db') = [CreateListingRequest.Seller Sample.forged]
    /\ HexToAddress (CreateListingRequest.Seller Sample.forged) = Sample.alice
    /\ MarketItem.seller it = Sample.bob
    /\ Sample.alice <> Sample.bob.
Proof.
  do 3 eexists.
  split; [reflexivity|].
  split; [vm_compute; reflexivity|].
  split; [reflexivity|].
  split; [reflexivity|].
  split; [reflexivity|].
  vm_compute. discriminate.
Qed.

(** C3, amended.  [CreateListing] compares one field with the chain,
    the NFT contract.  For an item id below 2^63: when the read of the
    on-chain item fails, or the submitted NFT contract is another address
    than the one on chain, the submission is rejected and the store is
    unchanged.  A submission whose item id is 2^63 or more is rejected
    before the chain is asked.  The listings change only when the NFT
    contract agrees.  When it agrees, the item has no record and the row
    fits the table, the record is stored with the token, seller and price
    of the submission. *)
Theorem CreateListing_verifies_nft_contract :
  forall (chain : Chain) (now : Time) (req : CreateListingRequest.t) (db : DB),
    (forall k it, chain k = Some it -> valid_address (MarketItem.nftContract it)) ->
    uint64 (CreateListingRequest.ItemID req) ->
    let key := CreateListingRequest.ItemID req in
    let row := submitted_row (listings_id_seq db + 1) now req in
    let r := ListingService.CreateListing chain now req db in
    (2 ^ 63 <= key ->
     r = (Err (Wrapf "failed to verify on-chain data" (Wrapf "failed to pack data" ErrPack)),
          db))
    /\ (key < 2 ^ 63 -> chain key = None ->
        r = (Err (Wrapf "failed to verify on-chain data" ErrChain), db))
    /\ (forall it,
          key < 2 ^ 63 -> chain key = Some it ->
          MarketItem.nftContract it <> HexToAddress (CreateListingRequest.NFTContract req) ->
          r = (Err (Errorf "nft contract mismatch"), db))
    /\ (listings (snd r) = listings db
        \/ exists it,
             key < 2 ^ 63 /\ chain key = Some it
             /\ MarketItem.nftContract it
                = HexToAddress (CreateListingRequest.NFTContract req))
    /\ (forall it,
          key < 2 ^ 63 -> chain key = Some it ->
          MarketItem.nftContract it = HexToAddress (CreateListingRequest.NFTContract req) ->
          records_of_item key db = [] ->
          storable row = true ->
          r = (Ok (ListingService.toResponse row),
               mkDB (listings db ++ [row])
                    (listings_id_seq db + 1) (transactions db) (transactions_id_seq db))).
Proof.
  intros chain now req db V U key row r.
  destruct (N.lt_ge_cases key (2 ^ 63)) as [Hx | Hx].
  2:{ pose proof (CreateListing_high chain now req db Hx U) as R. fold r in R.
      split; [intros _; exact R|].
      split; [intros Hlt; exfalso; apply (N.lt_irrefl key); apply (N.lt_le_trans _ _ _ Hlt Hx)|].
      split; [intros it Hlt; exfalso; apply (N.lt_irrefl key);
              apply (N.lt_le_trans _ _ _ Hlt Hx)|].
      split; [left; rewrite R; reflexivity|].
      intros it Hlt; exfalso; apply (N.lt_irrefl key); apply (N.lt_le_trans _ _ _ Hlt Hx). }
  split; [intros Hge; exfalso; apply (N.lt_irrefl key); apply (N.lt_le_trans _ _ _ Hx Hge)|].
  pose proof (CreateListing_cases chain now req db Hx) as C. cbv zeta in C.
  fold key in C. fold row in C. fold r in C.
  destruct C as [[K R]|[[it [K [Hne R]]]|[it [K [Heq D]]]]].
  - split; [intros _ _; exact R|].
    split; [intros it _ K'; congruence|].
    split; [left; rewrite R; reflexivity|].
    intros it _ K'; congruence.
  - rewrite (HexToAddress_hex _ (V _ _ K)) in Hne.
    split; [intros _ K'; congruence|].
    split; [intros it' _ K' _; exact R|].
    split; [left; rewrite R; reflexivity|].
    intros it' _ K' E. assert (it' = it) by congruence. subst it'. contradiction.
  - rewrite (HexToAddress_hex _ (V _ _ K)) in Heq.
    split; [intros _ K'; congruence|].
    split; [intros it' _ K' Hne; assert (it' = it) by congruence; subst it'; contradiction|].
    split; [right; exists it; repeat split; assumption|].
    intros it' _ K' _ Habs St.
    destruct D as [[e [db' [_ [_ [_ [_ [_ [C | C]]]]]]]] | [_ [_ R]]];
      [congruence | contradiction | exact R].
Qed.

(** The submission with another NFT contract than item 7 has on chain
    is rejected and nothing is stored. *)
Lemma CreateListing_verifies_nft_contract_witness :
  (forall k it, Sample.chain k = Some it -> valid_address (MarketItem.nftContract it))
  /\ uint64 (CreateListingRequest.ItemID Sample.mismatched)
  /\ ListingService.CreateListing Sample.chain 30%Z Sample.mismatched empty_db
     = (Err (Errorf "nft contract mismatch"), empty_db).
Proof.
  assert (V : forall k it, Sample.chain k = Some it -> valid_address (MarketItem.nftContract it)).
  { intros k it. unfold Sample.chain. destruct (k =? 7); [|discriminate].
    intros H. inversion H; subst. simpl. apply valid_address_check. vm_compute. reflexivity. }
  assert (U : uint64 (CreateListingRequest.ItemID Sample.mismatched)) by reflexivity.
  split; [exact V|]. split; [exact U|].
  destruct (CreateListing_verifies_nft_contract Sample.chain 30%Z Sample.mismatched empty_db V U)
    as [_ [_ [H _]]].
  apply (H (MarketItem.mk 7 Sample.nft 1 Sample.bob Sample.bob 100 false 1700000000)).
  - reflexivity.
  - reflexivity.
  - vm_compute. discriminate.
Defined.






(** *** Status transitions *)

Lemma CancelListing_cases (now : Time) (id : N) (seller : string) (db : DB) :
  NoDup (map Listing.ID (listings db)) ->
  let r := ListingService.CancelListing now id seller db in
  (exists e, r = (Some e, db))
  \/ (exists pre l post,
        listings db = pre ++ l :: post
        /\ Listing.ID l = id /\ Listing.Seller l = seller /\ Listing.Status l = "active"
        /\ r = (None, mkDB (pre ++ restatused l "cancelled" now :: post)
                           (listings_id_seq db) (transactions db) (transactions_id_seq db))).
Proof.
  intros ND r. subst r.
  unfold ListingService.CancelListing, ListingRepository.GetByID.
  rewrite UpdateStatus_cancelled.
  destruct (find _ (listings db)) as [l|] eqn:F; [|left; eexists; reflexivity].
  destruct (String.eqb (Listing.Seller l) seller) eqn:Es; [|left; eexists; reflexivity].
  destruct (String.eqb (Listing.Status l) "active") eqn:Ea; [|left; eexists; reflexivity].
  right. simpl negb. cbv iota.
  destruct (update_one_row (ListingRepository.set_status now "cancelled") id _ l ND F)
    as [pre [post [H1 [H2 H3]]]].
  exists pre, l, post. apply String.eqb_eq in Es, Ea.
  repeat split; try assumption.
  rewrite H3, set_status_cancelled. reflexivity.
Qed.

(** What one operation does to the listings: nothing, or it appends an
    active record under a fresh primary key, or it moves one active
    record to cancelled. *)
Lemma step_shape (now : Time) (op : Op) (db : DB) :
  NoDup (map Listing.ID (listings db)) ->
  let db' := step now op db in
  (listings db' = listings db /\ listings_id_seq db <= listings_id_seq db')
  \/ (exists row,
        listings db' = listings db ++ [row]
        /\ Listing.ID row = listings_id_seq db + 1
        /\ listings_id_seq db' = listings_id_seq db + 1
        /\ Listing.Status row = "active")
  \/ (exists pre l post,
        listings db = pre ++ l :: post
        /\ Listing.Status l = "active"
        /\ listings db' = pre ++ restatused l "cancelled" now :: post
        /\ listings_id_seq db' = listings_id_seq db).
Proof.
  intros ND db'. subst db'. destruct op as [ev|chain req|id seller]; simpl step.
  - destruct ev as [e|e|k|f]; simpl deliver.
    + destruct (UpdateFromEvent_shape now e db) as [[L | [L [Q _]]] [_ [_ B]]].
      * left. split; [exact L | apply B].
      * right. left. eexists. split; [exact L|]. repeat split; try reflexivity. exact Q.
    + left. destruct (RecordSale_refused now e db) as [err [d [E [L [Q _]]]]].
      rewrite E. simpl. split; [exact L | lia].
    + left. split; [reflexivity | lia].
    + left. split; [reflexivity | lia].
  - destruct (CreateListing_shape chain now req db) as [[_ [L [_ [_ B]]]] | [_ [_ [_ R]]]].
    + left. split; [exact L | apply B].
    + rewrite R. simpl. right. left. eexists. repeat split; reflexivity.
  - pose proof (CancelListing_cases now id seller db ND) as C. cbv zeta in C.
    destruct C as [[e R]|[pre [l [post [H1 [_ [_ [H4 R]]]]]]]]; rewrite R; simpl.
    + left. split; [reflexivity | lia].
    + right. right. exists pre, l, post. repeat split; assumption || reflexivity.
Qed.

Lemma step_keys_ok (now : Time) (op : Op) (db : DB) :
  listing_keys_ok db -> listing_keys_ok (step now op db).
Proof.
  intros [ND B]. unfold listing_keys_ok.
  pose proof (step_shape now op db ND) as S. cbv zeta in S.
  destruct S as [[L Q]|[[row [L [I [Q _]]]]|[pre [l [post [L0 [_ [L Q]]]]]]]]; rewrite L.
  - split; [exact ND|]. eapply Forall_impl; [|exact B]. simpl. intros a Ha. lia.
  - rewrite Q. split.
    + rewrite map_app. simpl. apply NoDup_app; [exact ND | repeat constructor; intros [] |].
      intros x Hx [Hr|[]]. subst x. apply in_map_iff in Hx.
      destruct Hx as [a [Ea Hin]]. rewrite Forall_forall in B.
      specialize (B a Hin). simpl in B. lia.
    + apply Forall_app. split.
      * eapply Forall_impl; [|exact B]. simpl. intros a Ha. lia.
      * repeat constructor. lia.
  - rewrite Q. rewrite L0 in ND, B. split.
    + rewrite map_app in *. simpl in *. exact ND.
    + apply Forall_app in B. destruct B as [B1 B2]. inversion B2; subst.
      apply Forall_app. split; [exact B1|]. constructor; assumption.
Qed.

Lemma run_keys_ok (ops : list (Time * Op)) (db : DB) :
  listing_keys_ok db -> listing_keys_ok (run ops db).
Proof.
  revert db. induction ops as [|[now op] ops IH]; intros db K; [exact K|].
  unfold run in *. simpl. apply IH. apply step_keys_ok. exact K.
Qed.

(** Every store the operations reach from the empty one has
    well-formed primary keys. *)
Lemma reachable_keys_ok (ops : list (Time * Op)) : listing_keys_ok (run ops empty_db).
Proof. apply run_keys_ok. split; constructor. Qed.

Lemma status_moves_refl (l : Listing.t) : status_moves l l.
Proof. unfold status_moves. auto. Qed.

Lemma status_moves_trans (a b c : Listing.t) :
  status_moves a b -> status_moves b c -> status_moves a c.
Proof.
  unfold status_moves. intros [I1 [K1 S1]] [I2 [K2 S2]].
  split; [congruence|]. split; [congruence|].
  destruct S1 as [S1|[S1 S1']]; destruct S2 as [S2|[S2 S2']].
  - left. congruence.
  - right. split; congruence.
  - right. split; congruence.
  - rewrite S1' in S2. discriminate.
Qed.

Lemma step_moves (now : Time) (op : Op) (db : DB) (l : Listing.t) :
  listing_keys_ok db -> In l (listings db) ->
  exists l', In l' (listings (step now op db)) /\ status_moves l l'.
Proof.
  intros [ND _] Hin.
  pose proof (step_shape now op db ND) as S. cbv zeta in S.
  destruct S as [[L _]|[[row [L _]]|[pre [x [post [L0 [A [L _]]]]]]]]; rewrite L.
  - exists l. split; [exact Hin | apply status_moves_refl].
  - exists l. split; [apply in_or_app; left; exact Hin | apply status_moves_refl].
  - rewrite L0 in Hin. apply in_app_or in Hin. destruct Hin as [Hin|[Hx|Hin]].
    + exists l. split; [apply in_or_app; left; exact Hin | apply status_moves_refl].
    + subst x. exists (restatused l "cancelled" now).
      split; [apply in_or_app; right; left; reflexivity|].
      unfold status_moves. simpl. auto.
    + exists l. split; [apply in_or_app; right; right; exact Hin | apply status_moves_refl].
Qed.

Lemma run_moves (ops : list (Time * Op)) (db : DB) (l : Listing.t) :
  listing_keys_ok db -> In l (listings db) ->
  exists l', In l' (listings (run ops db)) /\ status_moves l l'.
Proof.
  revert db l. induction ops as [|[now op] ops IH]; intros db l K Hin.
  - exists l. split; [exact Hin | apply status_moves_refl].
  - destruct (step_moves now op db l K Hin) as [l1 [Hin1 M1]].
    destruct (IH (step now op db) l1 (step_keys_ok now op db K) Hin1) as [l2 [Hin2 M2]].
    exists l2. split; [exact Hin2 | exact (status_moves_trans _ _ _ M1 M2)].
Qed.

Lemma same_key_same_row (ls : list Listing.t) (a b : Listing.t) :
  NoDup (map Listing.ID ls) -> In a ls -> In b ls -> Listing.ID a = Listing.ID b -> a = b.
Proof.
  induction ls as [|x ls IH]; simpl; intros ND Ha Hb E; [contradiction|].
  inversion ND as [|? ? Hnotin ND']; subst.
  destruct Ha as [->|Ha]; destruct Hb as [->|Hb]; auto.
  - exfalso. apply Hnotin. rewrite E. apply in_map. exact Hb.
  - exfalso. apply Hnotin. rewrite <- E. apply in_map. exact Ha.
Qed.

(** C6.  Through any sequence of chain events, submissions and
    cancellations a record keeps its keys, and its status either stays or
    goes from active to cancelled: a record that is sold or cancelled
    keeps that status, none returns to active. *)
Theorem status_monotonic :
  forall (ops : list (Time * Op)) (db : DB) (l : Listing.t),
    listing_keys_ok db ->
    In l (listings db) ->
    exists l',
      In l' (listings (run ops db))
      /\ (forall x, In x (listings (run ops db)) -> Listing.ID x = Listing.ID l -> x = l')
      /\ Listing.ItemID l' = Listing.ItemID l
      /\ (Listing.Status l' = Listing.Status l
          \/ (Listing.Status l = "active" /\ Listing.Status l' = "cancelled"))
      /\ (Listing.Status l = "sold" \/ Listing.Status l = "cancelled" ->
          Listing.Status l' = Listing.Status l).
Proof.
  intros ops db l K Hin.
  destruct (run_moves ops db l K Hin) as [l' [Hin' [I [IK S]]]].
  destruct (run_keys_ok ops db K) as [ND' _].
  exists l'. split; [exact Hin'|].
  split; [intros x Hx Ex; apply (same_key_same_row _ x l' ND' Hx Hin'); congruence|].
  split; [exact IK|]. split; [exact S|].
  intros T. destruct S as [S|[S _]]; [exact S|].
  destruct T as [T|T]; rewrite T in S; discriminate.
Qed.

(** The cancelled listing 2 of the sample market stays cancelled when
    its item is created again on chain, submitted again and cancelled
    again. *)
Lemma status_monotonic_witness :
  exists l',
    In l' (listings
             (run [ (40%Z, OpEvent (MarketItemCreated
                                      (MarketItemCreatedEvent.mk 8 Sample.nft 1 Sample.bob 250)));
                    (41%Z, OpCreateListing Sample.chain Sample.honest);
                    (42%Z, OpCancelListing 2 "0xdbF03B407c01E7cD3CBea99509d93f8DDDC8C6FB") ]
                  Sample.market))
    /\ Listing.ItemID l' = 8
    /\ Listing.Status l' = "cancelled".
Proof.
  assert (K : listing_keys_ok Sample.market).
  { split; simpl.
    - repeat constructor; simpl; intuition discriminate.
    - repeat constructor; simpl; discriminate. }
  destruct (status_monotonic
              [ (40%Z, OpEvent (MarketItemCreated
                                  (MarketItemCreatedEvent.mk 8 Sample.nft 1 Sample.bob 250)));
                (41%Z, OpCreateListing Sample.chain Sample.honest);
                (42%Z, OpCancelListing 2 "0xdbF03B407c01E7cD3CBea99509d93f8DDDC8C6FB") ]
              Sample.market
              (Sample.row 2 8 "0xdbF03B407c01E7cD3CBea99509d93f8DDDC8C6FB" "250" "cancelled")
              K (or_intror (or_introl eq_refl)))
    as [l' [Hin [_ [HK [_ HS]]]]].
  exists l'. split; [exact Hin|]. split; [exact HK|].
  rewrite HS; [reflexivity | right; reflexivity].
Defined.


(** ** Further properties of the backend *)

(** *** Lookups after writes *)


Lemma find_item_app (k : N) (ls : list Listing.t) (row : Listing.t) :
  filter (ListingRepository.has_item_id k) ls = [] ->
  Listing.ItemID row = k ->
  find (ListingRepository.has_item_id k) (ls ++ [row]) = Some row.
Proof.
  intros F E. induction ls as [|a ls IH]; simpl in *.
  - unfold ListingRepository.has_item_id. rewrite E, N.eqb_refl. reflexivity.
  - destruct (ListingRepository.has_item_id k a); [discriminate | exact (IH F)].
Qed.



(** X2.  After a decoded MarketItemCreated event whose item id is
    below 2^63, [GetByItemID] finds a record of the item of the event: the
    record the store had, unchanged, or the active one the event made,
    with the price and seller of the event.  For an item id with bit 63
    set the event changes nothing and the lookup itself is refused. *)
Theorem GetByItemID_after_UpdateFromEvent :
  forall (now : Time) (e : MarketItemCreatedEvent.t) (db : DB),
    decoded_created e ->
    let k := big_Uint64 (MarketItemCreatedEvent.ItemId e) in
    let db' := snd (ListingService.UpdateFromEvent now e db) in
    (k < 2 ^ 63 ->
     exists l,
       ListingRepository.GetByItemID k db' = Ok l
       /\ Listing.ItemID l = k
       /\ (forall l0, ListingRepository.GetByItemID k db = Ok l0 -> l = l0)
       /\ (ListingRepository.GetByItemID k db = Err ErrRecordNotFound ->
           Listing.Status l = "active"
           /\ Listing.Price l = big_String (MarketItemCreatedEvent.Price e)
           /\ Listing.Seller l = Address_Hex (MarketItemCreatedEvent.Seller e)
           /\ Listing.ListedAt l = now))
    /\ (2 ^ 63 <= k ->
        db' = db /\ ListingRepository.GetByItemID k db' = Err (ErrUint64 "item_id")).
Proof.
  intros now e db D k db'. subst db'. split.
  - intros Hk.
    assert (Hb : high_bit_set k = false) by (apply N.leb_gt; exact Hk).
    unfold ListingRepository.GetByItemID. rewrite Hb.
    destruct (find (ListingRepository.has_item_id k) (listings db)) as [l0|] eqn:F.
    + assert (R : records_of_item k db <> []).
      { intros R. apply find_none_filter in R. congruence. }
      rewrite (UpdateFromEvent_present now e db Hb R). simpl snd. rewrite F.
      exists l0. split; [reflexivity|].
      apply find_some in F. destruct F as [_ F]. apply N.eqb_eq in F.
      split; [exact F|]. split; [intros l1 H; congruence | discriminate].
    + assert (R : records_of_item k db = []) by (apply find_none_filter; exact F).
      rewrite (UpdateFromEvent_absent now e db D Hb R). simpl snd. simpl listings.
      rewrite find_item_app; [|exact R | reflexivity].
      eexists. split; [reflexivity|]. split; [reflexivity|].
      split; [discriminate|]. intros _. simpl. repeat split; reflexivity.
  - intros Hk.
    assert (Hb : high_bit_set k = true) by (apply N.leb_le; exact Hk).
    rewrite (UpdateFromEvent_high now e db Hb). simpl snd.
    split; [reflexivity|]. unfold ListingRepository.GetByItemID. rewrite Hb. reflexivity.
Qed.

(** After Created(item 7) on the empty store the record of item 7 is
    found; after Created(item 2^63 + 7) the lookup is refused. *)
Lemma GetByItemID_after_UpdateFromEvent_witness :
  decoded_created Sample.created_high
  /\ ListingRepository.GetByItemID (2 ^ 63 + 7)
       (snd (ListingService.UpdateFromEvent 10%Z Sample.created_high empty_db))
     = Err (ErrUint64 "item_id").
Proof.
  assert (D : decoded_created Sample.created_high).
  { split; [apply valid_address_check; vm_compute; reflexivity|].
    split; [apply valid_address_check; vm_compute; reflexivity|].
    split; vm_compute; reflexivity. }
  split; [exact D|].
  exact (proj2 (proj2 (GetByItemID_after_UpdateFromEvent 10%Z Sample.created_high empty_db D)
                  ltac:(vm_compute; discriminate))).
Defined.

(** *** Cancelling *)

Lemma find_middle (id : N) (pre post : list Listing.t) (l l' : Listing.t) :
  NoDup (map Listing.ID (pre ++ l :: post)) ->
  Listing.ID l = id -> Listing.ID l' = id ->
  find (ListingRepository.has_id id) (pre ++ l' :: post) = Some l'.
Proof.
  intros ND E E'. induction pre as [|a pre IH]; simpl in *.
  - unfold ListingRepository.has_id. rewrite E', N.eqb_refl. reflexivity.
  - inversion ND as [|? ? Hnotin ND']; subst.
    unfold ListingRepository.has_id at 1.
    destruct (Listing.ID a =? Listing.ID l) eqn:X.
    + exfalso. apply Hnotin. apply N.eqb_eq in X. rewrite X, map_app.
      apply in_or_app. right. left. reflexivity.
    + apply IH. exact ND'.
Qed.

(** X3.  A cancellation that succeeded cannot be repeated: the second
    call is refused as not active and changes nothing, [GetListing]
    shows the listing as cancelled, and one listing fewer is active. *)
Theorem CancelListing_once :
  forall (now now' : Time) (id : N) (seller : string) (db : DB),
    NoDup (map Listing.ID (listings db)) ->
    fst (ListingService.CancelListing now id seller db) = None ->
    let db' := snd (ListingService.CancelListing now id seller db) in
    ListingService.CancelListing now' id seller db'
      = (Some (Errorf "listing is not active"), db')
    /\ (exists resp,
          ListingService.GetListing id db' = Ok resp
          /\ ListingResponse.Status resp = "cancelled"
          /\ ListingResponse.Seller resp = seller)
    /\ ListingRepository.CountActiveListings db'
       = (ListingRepository.CountActiveListings db - 1)%Z.
Proof.
  intros now now' id seller db ND H db'. subst db'.
  pose proof (CancelListing_cases now id seller db ND) as C. cbv zeta in C.
  destruct C as [[e R]|[pre [l [post [L [I [S [A R]]]]]]]]; rewrite R in H |- *;
    simpl in H; [discriminate|]. simpl snd. clear H R.
  rewrite L in ND.
  assert (F : find (ListingRepository.has_id id)
                (pre ++ restatused l "cancelled" now :: post)
              = Some (restatused l "cancelled" now))
    by (apply (find_middle id pre post l); auto).
  split; [|split].
  - unfold ListingService.CancelListing, ListingRepository.GetByID. simpl listings.
    rewrite F. simpl Listing.Seller. simpl Listing.Status. rewrite S, String.eqb_refl.
    reflexivity.
  - unfold ListingService.GetListing, ListingRepository.GetByID. simpl listings.
    rewrite F. eexists. split; [reflexivity|]. simpl. split; [reflexivity | exact S].
  - unfold ListingRepository.CountActiveListings. simpl listings. rewrite L.
    assert (H1 : ListingRepository.has_status "active" (restatused l "cancelled" now) = false)
      by reflexivity.
    assert (H2 : ListingRepository.has_status "active" l = true)
      by (unfold ListingRepository.has_status; rewrite A; reflexivity).
    rewrite !filter_app. cbn [filter]. rewrite H1, H2, !length_app. cbn [List.length]. lia.
Qed.

(** Bob cancels listing 1 of the sample market; the second attempt is
    refused. *)
Lemma CancelListing_once_witness :
  NoDup (map Listing.ID (listings Sample.market))
  /\ fst (ListingService.CancelListing 31%Z 1 "0xdbF03B407c01E7cD3CBea99509d93f8DDDC8C6FB"
            (snd (ListingService.CancelListing 30%Z 1
                    "0xdbF03B407c01E7cD3CBea99509d93f8DDDC8C6FB" Sample.market)))
     = Some (Errorf "listing is not active").
Proof.
  assert (ND : NoDup (map Listing.ID (listings Sample.market))).
  { simpl. repeat constructor; simpl; intuition discriminate. }
  split; [exact ND|].
  rewrite (proj1 (CancelListing_once 30%Z 31%Z 1 "0xdbF03B407c01E7cD3CBea99509d93f8DDDC8C6FB"
                    Sample.market ND eq_refl)).
  reflexivity.
Defined.




(** *** Invariants of the store *)

Lemma filter_unique_item (k : N) (ls : list Listing.t) :
  NoDup (map Listing.ItemID ls) ->
  (List.length (filter (ListingRepository.has_item_id k) ls) <= 1)%nat.
Proof.
  induction ls as [|a ls IH]; simpl; intros ND; [lia|].
  inversion ND as [|? ? Hnotin ND']; subst.
  destruct (ListingRepository.has_item_id k a) eqn:E; [|auto].
  apply N.eqb_eq in E.
  assert (Hnone : filter (ListingRepository.has_item_id k) ls = []).
  { apply find_none_filter. destruct (find _ ls) eqn:F; [|reflexivity].
    apply find_some in F. destruct F as [Hin Hk]. apply N.eqb_eq in Hk.
    exfalso. apply Hnotin. rewrite E, <- Hk. apply in_map. exact Hin. }
  rewrite Hnone. simpl. lia.
Qed.

Lemma absent_item_not_in (k : N) (ls : list Listing.t) :
  filter (ListingRepository.has_item_id k) ls = [] -> ~ In k (map Listing.ItemID ls).
Proof.
  intros F Hin. apply in_map_iff in Hin. destruct Hin as [l [E Hl]].
  assert (In l (filter (ListingRepository.has_item_id k) ls)).
  { apply filter_In. split; [exact Hl|]. apply N.eqb_eq. exact E. }
  rewrite F in H. contradiction.
Qed.

Lemma NoDup_snoc {A : Type} (l : list A) (a : A) :
  NoDup l -> ~ In a l -> NoDup (l ++ [a]).
Proof.
  intros ND Hn. apply NoDup_app; [exact ND | repeat constructor; intros [] |].
  intros x Hx [<-|[]]. contradiction.
Qed.

Lemma step_item_ids (now : Time) (op : Op) (db : DB) :
  NoDup (map Listing.ID (listings db)) ->
  NoDup (map Listing.ItemID (listings db)) ->
  NoDup (map Listing.ItemID (listings (step now op db))).
Proof.
  intros NI ND. destruct op as [ev|chain req|id seller]; simpl step.
  - destruct ev as [e|e|k|f]; simpl deliver; try exact ND.
    + destruct (UpdateFromEvent_shape now e db) as [[L | [L [_ [R _]]]] _]; rewrite L;
        [exact ND|].
      rewrite map_app. simpl.
      apply NoDup_snoc; [exact ND | apply absent_item_not_in; exact R].
    + rewrite RecordSale_listings. exact ND.
  - pose proof (CreateListing_shape chain now req db) as C. cbv zeta in C.
    destruct C as [[_ [L _]] | [_ [A [_ R]]]]; [rewrite L; exact ND|].
    rewrite R. simpl. rewrite map_app. simpl.
    apply NoDup_snoc; [exact ND | apply absent_item_not_in; exact A].
  - pose proof (CancelListing_cases now id seller db NI) as C. cbv zeta in C.
    destruct C as [[e R]|[pre [l [post [H1 [_ [_ [_ R]]]]]]]]; rewrite R; simpl;
      [exact ND|].
    rewrite H1 in ND. rewrite map_app in *. simpl in *. exact ND.
Qed.

Lemma step_transactions (now : Time) (op : Op) (db : DB) :
  NoDup (map Listing.ID (listings db)) ->
  transactions (step now op db) = transactions db.
Proof.
  intros NI. destruct op as [ev|chain req|id seller]; simpl step.
  - apply deliver_transactions.
  - pose proof (CreateListing_shape chain now req db) as C. cbv zeta in C.
    destruct C as [[_ [_ [T _]]] | [_ [_ [_ R]]]]; [exact T | rewrite R; reflexivity].
  - pose proof (CancelListing_cases now id seller db NI) as C. cbv zeta in C.
    destruct C as [[e R]|[pre [l [post [H1 [_ [_ [_ R]]]]]]]]; rewrite R; reflexivity.
Qed.

Lemma step_tx_hashes (now : Time) (op : Op) (db : DB) :
  NoDup (map Listing.ID (listings db)) ->
  NoDup (map Transaction.TxHash (transactions db)) ->
  NoDup (map Transaction.TxHash (transactions (step now op db))).
Proof.
  intros NI ND. rewrite (step_transactions now op db NI). exact ND.
Qed.

(** X5.  The operations keep the keys of the store: through any
    sequence of chain events, submissions and cancellations the primary
    keys of the listings stay distinct, no item has two records, and no
    two transactions share a hash. *)
Theorem run_keeps_keys_unique :
  forall (ops : list (Time * Op)) (db : DB),
    listing_keys_ok db ->
    NoDup (map Listing.ItemID (listings db)) ->
    NoDup (map Transaction.TxHash (transactions db)) ->
    listing_keys_ok (run ops db)
    /\ NoDup (map Listing.ItemID (listings (run ops db)))
    /\ NoDup (map Transaction.TxHash (transactions (run ops db)))
    /\ forall k, (List.length (records_of_item k (run ops db)) <= 1)%nat.
Proof.
  intros ops. induction ops as [|[now op] ops IH]; intros db K NI NT.
  - split; [exact K|]. split; [exact NI|]. split; [exact NT|].
    intros k. apply filter_unique_item. exact NI.
  - unfold run in *. simpl. apply IH.
    + apply step_keys_ok. exact K.
    + apply step_item_ids; [exact (proj1 K) | exact NI].
    + apply step_tx_hashes; [exact (proj1 K) | exact NT].
Qed.

(** Item 7 submitted, announced on chain twice and submitted again
    has one record. *)
Lemma run_keeps_keys_unique_witness :
  (List.length
     (records_of_item 7
        (run [ (10%Z, OpCreateListing Sample.chain Sample.honest);
               (11%Z, OpEvent (MarketItemCreated Sample.created7));
               (12%Z, OpEvent (MarketItemCreated Sample.created7));
               (13%Z, OpCreateListing Sample.chain Sample.forged) ] empty_db)) <= 1)%nat.
Proof.
  apply run_keeps_keys_unique.
  - split; constructor.
  - constructor.
  - constructor.
Defined.

(** *** What the store never holds *)

Lemma step_statuses (now : Time) (op : Op) (db : DB) :
  NoDup (map Listing.ID (listings db)) ->
  Forall (fun l => Listing.Status l = "active" \/ Listing.Status l = "cancelled") (listings db) ->
  Forall (fun l => Listing.Status l = "active" \/ Listing.Status l = "cancelled")
         (listings (step now op db)).
Proof.
  intros ND F. pose proof (step_shape now op db ND) as S. cbv zeta in S.
  destruct S as [[L _]|[[row [L [_ [_ A]]]]|[pre [l [post [L0 [_ [L _]]]]]]]]; rewrite L.
  - exact F.
  - apply Forall_app. split; [exact F|]. constructor; [left; exact A | constructor].
  - rewrite L0 in F. apply Forall_app in F. destruct F as [F1 F2].
    inversion F2; subst. apply Forall_app. split; [exact F1|].
    constructor; [right; reflexivity | assumption].
Qed.

(** X6.  No operation makes a listing sold: when every listing of the
    store is active or cancelled, this stays so through any sequence of
    chain events, submissions and cancellations, and the total volume of
    the listing statistics stays 0. *)
Theorem no_listing_is_ever_sold :
  forall (ops : list (Time * Op)) (db : DB),
    listing_keys_ok db ->
    Forall (fun l => Listing.Status l = "active" \/ Listing.Status l = "cancelled")
           (listings db) ->
    Forall (fun l => Listing.Status l = "active" \/ Listing.Status l = "cancelled")
           (listings (run ops db))
    /\ filter (ListingRepository.has_status "sold") (listings (run ops db)) = []
    /\ ListingRepository.GetTotalVolume (run ops db) = Ok "0".
Proof.
  intros ops db K F.
  assert (G : Forall (fun l => Listing.Status l = "active" \/ Listing.Status l = "cancelled")
                     (listings (run ops db))).
  { revert db K F. induction ops as [|[now op] ops IH]; intros db K F; [exact F|].
    unfold run in *. simpl. apply IH.
    - apply step_keys_ok. exact K.
    - apply step_statuses; [exact (proj1 K) | exact F]. }
  assert (E : filter (ListingRepository.has_status "sold") (listings (run ops db)) = []).
  { induction G as [|a ls Ha _ IH]; simpl; [reflexivity|].
    unfold ListingRepository.has_status at 1.
    destruct Ha as [Ha|Ha]; rewrite Ha; simpl; exact IH. }
  split; [exact G|]. split; [exact E|].
  unfold ListingRepository.GetTotalVolume, ListingRepository.prices_where.
  rewrite E. reflexivity.
Qed.

(** After a creation, a sale and a cancellation of item 7 the volume
    of the listing statistics is 0. *)
Lemma no_listing_is_ever_sold_witness :
  ListingRepository.GetTotalVolume
    (run [ (10%Z, OpEvent (MarketItemCreated Sample.created7));
           (20%Z, OpEvent (MarketItemSold Sample.sold7));
           (30%Z, OpCancelListing 1 "0xdbF03B407c01E7cD3CBea99509d93f8DDDC8C6FB") ] empty_db)
  = Ok "0".
Proof.
  apply no_listing_is_ever_sold.
  - split; constructor.
  - constructor.
Defined.

Lemma UpdateStatus_transactions (now : Time) (id : N) (status : string) (db : DB) :
  transactions (snd (ListingRepository.UpdateStatus now id status db)) = transactions db.
Proof.
  unfold ListingRepository.UpdateStatus.
  destruct (negb (pg_text status)); [reflexivity|].
  destruct (existsb _ _ && _); reflexivity.
Qed.

Lemma CancelListing_transactions (now : Time) (id : N) (seller : string) (db : DB) :
  transactions (snd (ListingService.CancelListing now id seller db)) = transactions db.
Proof.
  unfold ListingService.CancelListing.
  destruct (ListingRepository.GetByID id db) as [l|e]; [|reflexivity].
  destruct (negb (String.eqb (Listing.Seller l) seller)); [reflexivity|].
  destruct (negb (String.eqb (Listing.Status l) "active")); [reflexivity|].
  pose proof (UpdateStatus_transactions now id "cancelled" db) as T.
  destruct (ListingRepository.UpdateStatus now id "cancelled" db) as [[e|] db']; exact T.
Qed.

Lemma run_transactions (ops : list (Time * Op)) (db : DB) :
  transactions (run ops db) = transactions db.
Proof.
  revert db. induction ops as [|[now op] ops IH]; intros db; [reflexivity|].
  unfold run in *. simpl fold_left. rewrite IH.
  destruct op as [ev|chain req|id seller]; simpl step.
  - apply deliver_transactions.
  - pose proof (CreateListing_shape chain now req db) as C. cbv zeta in C.
    destruct C as [[_ [_ [T _]]] | [_ [_ [_ R]]]]; [exact T | rewrite R; reflexivity].
  - apply CancelListing_transactions.
Qed.

(** X7.  No sale is ever recorded.  The INSERT of [RecordSale] is the
    only write to the transactions table, and the table's trigger
    refuses it: every Sold event delivered is answered with an error, and
    through any sequence of chain events, submissions and cancellations
    the transactions table stays as it was, so a store that starts empty
    never holds a transaction. *)
Theorem no_sale_is_ever_recorded :
  forall (ops : list (Time * Op)) (stream : list (Time * ContractEvent)) (db : DB),
    transactions (run ops db) = transactions db
    /\ transactions (startEventListener stream db) = transactions db
    /\ transactions (run ops empty_db) = []
    /\ forall (now : Time) (e : MarketItemSoldEvent.t),
         exists err, fst (TransactionService.RecordSale now e db) = Some err.
Proof.
  intros ops stream db. split; [apply run_transactions|].
  split; [apply startEventListener_transactions|].
  split; [apply run_transactions|].
  intros now e. destruct (RecordSale_refused now e db) as [err [db' [E _]]].
  exists err. rewrite E. reflexivity.
Qed.



(** *** Statistics of a store built from chain events *)

Lemma deliver_rows (now : Time) (ev : ContractEvent) (db : DB) :
  Forall (fun l => Listing.Status l = "active" /\ exists n, Listing.Price l = big_String n)
         (listings db) ->
  Forall (fun l => Listing.Status l = "active" /\ exists n, Listing.Price l = big_String n)
         (listings (deliver now ev db)).
Proof.
  intros F. destruct ev as [e|e|k|f]; simpl; try exact F.
  - destruct (UpdateFromEvent_shape now e db) as [[L | [L _]] _]; rewrite L; [exact F|].
    apply Forall_app. split; [exact F|].
    constructor; [|constructor]. simpl. split; [reflexivity | eexists; reflexivity].
  - rewrite RecordSale_listings. exact F.
Qed.

Lemma all_active_filter (ls : list Listing.t) :
  Forall (fun l => Listing.Status l = "active" /\ exists n, Listing.Price l = big_String n) ls ->
  filter (ListingRepository.has_status "active") ls = ls
  /\ filter (ListingRepository.has_status "sold") ls = []
  /\ exists vs, cast_all (map Listing.Price ls) = Ok vs.
Proof.
  induction 1 as [|a ls [Ha [n Hn]] _ [IH1 [IH2 [vs IH3]]]]; simpl.
  - split; [reflexivity|]. split; [reflexivity|]. exists []. reflexivity.
  - unfold ListingRepository.has_status. rewrite Ha. simpl.
    rewrite Hn, cast_numeric_big_String, IH3.
    fold (ListingRepository.has_status "active"). fold (ListingRepository.has_status "sold").
    rewrite IH1, IH2. split; [reflexivity|]. split; [reflexivity|].
    eexists. reflexivity.
Qed.

Lemma startEventListener_rows (stream : list (Time * ContractEvent)) (db : DB) :
  Forall (fun l => Listing.Status l = "active" /\ exists n, Listing.Price l = big_String n)
         (listings db) ->
  Forall (fun l => Listing.Status l = "active" /\ exists n, Listing.Price l = big_String n)
         (listings (startEventListener stream db)).
Proof.
  revert db. induction stream as [|[now ev] stream IH]; intros db F; [exact F|].
  unfold startEventListener in *. simpl. apply IH. apply deliver_rows. exact F.
Qed.

(** X9.  On a store built from chain events alone the listing
    statistics never fail: every listing is active and priced in decimal
    digits, so [GetMarketStats] returns, with every listing counted as
    active, none as sold and a total volume of 0. *)
Theorem GetMarketStats_after_events :
  forall stream : list (Time * ContractEvent),
    let db := startEventListener stream empty_db in
    exists stats,
      ListingService.GetMarketStats db = Ok stats
      /\ MarketStats.active_listings stats = Z.of_nat (List.length (listings db))
      /\ MarketStats.total_listings stats = Z.of_nat (List.length (listings db))
      /\ MarketStats.sold_listings stats = 0%Z
      /\ MarketStats.total_volume stats = "0".
Proof.
  intros stream db.
  assert (F : Forall (fun l => Listing.Status l = "active"
                               /\ exists n, Listing.Price l = big_String n) (listings db)).
  { subst db. apply startEventListener_rows. constructor. }
  destruct (all_active_filter _ F) as [A [S [vs C]]].
  unfold ListingService.GetMarketStats, ListingRepository.GetTotalVolume,
    ListingRepository.GetAveragePrice, ListingRepository.GetMinPrice,
    ListingRepository.GetMaxPrice, ListingRepository.CountActiveListings,
    ListingRepository.CountTotalListings, ListingRepository.prices_where.
  rewrite A, S, C. simpl cast_all. cbv iota.
  eexists. split; [reflexivity|]. simpl.
  split; [reflexivity|]. split; [reflexivity|]. split; [|reflexivity].
  unfold int64_sub. rewrite Z.sub_diag. reflexivity.
Qed.

(** *** The NFT contract of a submission *)

Lemma hex_pair_case_ok_all (b : byte) : b < 256 -> hex_pair_case_ok b = true.
Proof.
  intros H.
  assert (All : forallb hex_pair_case_ok (map N.of_nat (seq 0 256)) = true)
    by (vm_compute; reflexivity).
  rewrite forallb_forall in All. apply All.
  apply in_map_iff. exists (N.to_nat b). split; [apply N2Nat.id|].
  apply in_seq. lia.
Qed.

Lemma cased_pair (b : byte) (u1 u2 : bool) :
  b < 256 ->
  cased u1 (hextable (N.shiftr b 4)) < 256
  /\ cased u2 (hextable (N.land b 15)) < 256
  /\ exists x y,
       fromHexChar (cased u1 (hextable (N.shiftr b 4))) = Some x
       /\ fromHexChar (cased u2 (hextable (N.land b 15))) = Some y
       /\ N.lor (N.shiftl x 4) y = b.
Proof.
  intros H. pose proof (hex_pair_case_ok_all b H) as K.
  unfold hex_pair_case_ok in K. rewrite forallb_forall in K.
  specialize (K (u1, u2)). cbv zeta in K. simpl fst in K. simpl snd in K.
  assert (Hin : In (u1, u2) [(false, false); (false, true); (true, false); (true, true)]).
  { destruct u1, u2; simpl; auto. }
  specialize (K Hin).
  apply andb_true_iff in K. destruct K as [K K3].
  apply andb_true_iff in K. destruct K as [K1 K2].
  apply N.ltb_lt in K1, K2. split; [exact K1|]. split; [exact K2|].
  destruct (fromHexChar (cased u1 _)) as [x|]; [|discriminate].
  destruct (fromHexChar (cased u2 _)) as [y|]; [|discriminate].
  exists x, y. apply N.eqb_eq in K3. repeat split; assumption.
Qed.

Lemma checksum_case_two (i : nat) (c1 c2 : byte) (r hash : list byte) :
  exists u1 u2,
    checksum_case i (c1 :: c2 :: r) hash
    = cased u1 c1 :: cased u2 c2 :: checksum_case (S (S i)) r hash.
Proof. do 2 eexists. unfold cased. cbn [checksum_case]. reflexivity. Qed.

Lemma checksum_case_decodes (a : list byte) (hash : list byte) (i : nat) :
  Forall (fun b => b < 256) a ->
  Forall (fun b => b < 256) (checksum_case i (hex_Encode a) hash)
  /\ List.length (checksum_case i (hex_Encode a) hash) = (2 * List.length a)%nat
  /\ hex_Decode (checksum_case i (hex_Encode a) hash) = a.
Proof.
  intros F. revert i. induction F as [|b bs Hb _ IH]; intros i.
  - simpl. split; [constructor|]. split; reflexivity.
  - cbn [hex_Encode].
    destruct (checksum_case_two i (hextable (N.shiftr b 4)) (hextable (N.land b 15))
                (hex_Encode bs) hash) as [u1 [u2 U]].
    rewrite U. clear U.
    destruct (IH (S (S i))) as [IH1 [IH2 IH3]].
    destruct (cased_pair b u1 u2 Hb) as [B1 [B2 [x [y [X [Y E]]]]]].
    split; [repeat constructor; assumption|].
    split; [cbn [List.length]; rewrite IH2; simpl; lia|].
    cbn [hex_Decode]. rewrite X, Y, E, IH3. reflexivity.
Qed.

(** The text [Hex] renders an address as is read back by
    [HexToAddress] as that address. *)
Lemma HexToAddress_Hex (a : Address) :
  valid_address a -> HexToAddress (Address_Hex a) = a.
Proof.
  intros [Hlen Hb]. unfold HexToAddress, FromHex, Address_Hex. cbv zeta.
  destruct (checksum_case_decodes a (Keccak.keccak256 (hex_Encode a)) 0 Hb) as [C1 [C2 C3]].
  rewrite bytes_of_string_of_bytes by (repeat constructor; exact C1).
  simpl has0xPrefix. simpl skipn. cbv iota.
  rewrite C2.
  replace (Nat.odd (2 * List.length a)) with false
    by (symmetry; rewrite <- Nat.negb_even, Nat.even_mul; reflexivity).
  rewrite C3. unfold BytesToAddress. cbv zeta. rewrite Hlen.
  change (Nat.ltb AddressLength AddressLength) with false. cbv iota.
  rewrite Hlen, Nat.sub_diag. reflexivity.
Qed.

(** X10.  A submission that names the NFT contract in the rendering
    the event path stores, or in lower-case hexadecimal, passes the
    comparison with the chain: for an item id below 2^63 without a
    record, and fields the listings table takes, it is accepted and
    stored. *)
Theorem CreateListing_accepts_rendered_contract :
  forall (chain : Chain) (now : Time) (req : CreateListingRequest.t) (db : DB)
         (it : MarketItem.t),
    CreateListingRequest.ItemID req < 2 ^ 63 ->
    chain (CreateListingRequest.ItemID req) = Some it ->
    valid_address (MarketItem.nftContract it) ->
    CreateListingRequest.NFTContract req = Address_Hex (MarketItem.nftContract it)
    \/ CreateListingRequest.NFTContract req
       = string_of_bytes (Address_hex (MarketItem.nftContract it)) ->
    records_of_item (CreateListingRequest.ItemID req) db = [] ->
    storable (submitted_row (listings_id_seq db + 1) now req) = true ->
    HexToAddress (CreateListingRequest.NFTContract req) = MarketItem.nftContract it
    /\ ListingService.CreateListing chain now req db
       = (Ok (ListingService.toResponse (submitted_row (listings_id_seq db + 1) now req)),
          mkDB (listings db ++ [submitted_row (listings_id_seq db + 1) now req])
               (listings_id_seq db + 1) (transactions db) (transactions_id_seq db)).
Proof.
  intros chain now req db it Hx K V Hreq A St.
  assert (E : HexToAddress (CreateListingRequest.NFTContract req) = MarketItem.nftContract it).
  { destruct Hreq as [-> | ->]; [apply HexToAddress_Hex | apply HexToAddress_hex]; exact V. }
  split; [exact E|].
  pose proof (CreateListing_cases chain now req db Hx) as C. cbv zeta in C.
  destruct C as [[K' _]|[[it' [K' [Hne _]]]|[it' [K' [_ [[e [db' [_ [_ [_ [_ [_ P]]]]]]]|[_ [_ R]]]]]]]].
  - congruence.
  - exfalso. apply Hne. assert (it' = it) by congruence. subst it'.
    rewrite (HexToAddress_hex _ V). symmetry. exact E.
  - exfalso. destruct P as [P|P]; [congruence | contradiction].
  - exact R.
Qed.

(** The honest submission names the NFT contract of item 7 as the
    event path renders it, and is accepted on the empty store. *)
Lemma CreateListing_accepts_rendered_contract_witness :
  CreateListingRequest.NFTContract Sample.honest = Address_Hex Sample.nft
  /\ storable (submitted_row 1 30%Z Sample.honest) = true
  /\ HexToAddress (CreateListingRequest.NFTContract Sample.honest) = Sample.nft.
Proof.
  assert (R : CreateListingRequest.NFTContract Sample.honest = Address_Hex Sample.nft)
    by (vm_compute; reflexivity).
  split; [exact R|]. split; [vm_compute; reflexivity|].
  refine (proj1 (CreateListing_accepts_rendered_contract
                   Sample.chain 30%Z Sample.honest empty_db
                   (MarketItem.mk 7 Sample.nft 1 Sample.bob Sample.bob 100 false 1700000000)
                   eq_refl eq_refl _ (or_introl R) eq_refl _)).
  - split; [reflexivity | vm_compute; repeat constructor].
  - vm_compute; reflexivity.
Defined.

(** X11.  The item [CreateListing] asks the chain for is the submitted
    one as long as its id is below 2^63: the answer depends on the chain
    through that item alone.  From 2^63 on, the conversion to int64 makes
    the id negative; the call cannot be packed, the chain is not asked at
    all, and the submission fails with the store unchanged. *)
Theorem CreateListing_chain_item :
  forall (chain chain' : Chain) (now : Time) (req : CreateListingRequest.t) (db : DB),
    let x := CreateListingRequest.ItemID req in
    (x < 2 ^ 63 ->
     chain x = chain' x ->
     ListingService.CreateListing chain now req db
     = ListingService.CreateListing chain' now req db)
    /\ (2 ^ 63 <= x < 2 ^ 64 ->
        (int64_of_uint64 x < 0)%Z
        /\ ListingService.CreateListing chain now req db
           = (Err (Wrapf "failed to verify on-chain data" (Wrapf "failed to pack data" ErrPack)),
              db)).
Proof.
  intros chain chain' now req db x. split.
  - intros H E. unfold ListingService.CreateListing, Client.GetMarketItem. cbv zeta.
    fold x. destruct (int64_small x H) as [Z1 Z2]. rewrite Z1, Z2, E. reflexivity.
  - intros [H U]. split.
    + apply Z.ltb_lt. apply int64_high; [exact H | exact U].
    + apply CreateListing_high; [exact H | exact U].
Qed.

(** A submission for item 2^63 + 7 is refused whatever the chain
    holds. *)
Lemma CreateListing_chain_item_witness :
  2 ^ 63 <= 2 ^ 63 + 7 < 2 ^ 64
  /\ ListingService.CreateListing
       (fun _ => Some (MarketItem.mk 7 Sample.nft 1 Sample.bob Sample.bob 100 false 1700000000))
       30%Z
       (CreateListingRequest.mk (2 ^ 63 + 7) "0x5aAeb6053F3E94C9b9A09f33669435E7Ef1BeAed" "1"
          "0xdbF03B407c01E7cD3CBea99509d93f8DDDC8C6FB" "100" "0xaa01")
       empty_db
     = (Err (Wrapf "failed to verify on-chain data" (Wrapf "failed to pack data" ErrPack)),
        empty_db).
Proof.
  assert (B : 2 ^ 63 <= 2 ^ 63 + 7 < 2 ^ 64) by (split; [discriminate | reflexivity]).
  split; [exact B|].
  exact (proj2 (proj2 (CreateListing_chain_item
                         (fun _ => Some (MarketItem.mk 7 Sample.nft 1 Sample.bob Sample.bob
                                           100 false 1700000000))
                         Sample.chain 30%Z
                         (CreateListingRequest.mk (2 ^ 63 + 7)
                            "0x5aAeb6053F3E94C9b9A09f33669435E7Ef1BeAed" "1"
                            "0xdbF03B407c01E7cD3CBea99509d93f8DDDC8C6FB" "100" "0xaa01")
                         empty_db) B)).
Defined.

(** *** Pages of listings *)

Lemma int_wrap_small (z : Z) : (- 2 ^ 63 <= z < 2 ^ 63)%Z -> int_wrap z = z.
Proof. intros H. unfold int_wrap. rewrite Z.mod_small; lia. Qed.

Section Ordering.

Context {A : Type}.
Variable key : A -> Z.

Lemma insert_desc_in (a x : A) (l : list A) :
  In x (insert_desc key a l) <-> x = a \/ In x l.
Proof.
  induction l as [|b l IH]; simpl; [intuition|].
  destruct (key b <=? key a)%Z; simpl; rewrite ?IH; intuition.
Qed.

Lemma insert_desc_length (a : A) (l : list A) :
  List.length (insert_desc key a l) = S (List.length l).
Proof.
  induction l as [|b l IH]; simpl; [reflexivity|].
  destruct (key b <=? key a)%Z; simpl; rewrite ?IH; reflexivity.
Qed.

Lemma insert_desc_sorted (a : A) (l : list A) :
  StronglySorted (fun x y => (key y <= key x)%Z) l ->
  StronglySorted (fun x y => (key y <= key x)%Z) (insert_desc key a l).
Proof.
  induction 1 as [|b l S IH F]; simpl; [repeat constructor|].
  destruct (key b <=? key a)%Z eqn:E.
  - apply Z.leb_le in E. constructor; [constructor; assumption|].
    constructor; [exact E|]. eapply Forall_impl; [|exact F]. simpl. intros c Hc. lia.
  - apply Z.leb_gt in E. constructor; [exact IH|].
    apply Forall_forall. intros c Hc. apply insert_desc_in in Hc.
    destruct Hc as [->|Hc]; [lia|]. rewrite Forall_forall in F. exact (F c Hc).
Qed.

Lemma order_desc_in (x : A) (l : list A) : In x (order_desc key l) <-> In x l.
Proof.
  unfold order_desc. induction l as [|a l IH]; simpl; [tauto|].
  rewrite insert_desc_in, IH. intuition.
Qed.

Lemma order_desc_length (l : list A) : List.length (order_desc key l) = List.length l.
Proof.
  unfold order_desc. induction l as [|a l IH]; simpl; [reflexivity|].
  rewrite insert_desc_length, IH. reflexivity.
Qed.

Lemma order_desc_sorted (l : list A) :
  StronglySorted (fun x y => (key y <= key x)%Z) (order_desc key l).
Proof.
  unfold order_desc. induction l as [|a l IH]; simpl; [constructor|].
  apply insert_desc_sorted. exact IH.
Qed.

Lemma sorted_skipn (n : nat) (l : list A) (R : A -> A -> Prop) :
  StronglySorted R l -> StronglySorted R (skipn n l).
Proof.
  revert l. induction n as [|n IH]; intros l S; [exact S|].
  destruct l as [|a l]; [constructor|]. simpl. apply IH. inversion S; assumption.
Qed.

Lemma sorted_firstn (n : nat) (l : list A) (R : A -> A -> Prop) :
  StronglySorted R l -> StronglySorted R (firstn n l).
Proof.
  revert l. induction n as [|n IH]; intros l S; [constructor|].
  destruct l as [|a l]; [constructor|]. simpl. inversion S as [|? ? S' F]; subst.
  constructor; [apply IH; exact S'|].
  apply Forall_forall. intros x Hx. rewrite Forall_forall in F. apply F.
  rewrite <- (firstn_skipn n l). apply in_or_app. left. exact Hx.
Qed.

Lemma page_in (limit offset : Z) (l : list A) (x : A) :
  In x (Limit limit (Offset offset l)) -> In x l.
Proof.
  unfold Limit, Offset. intros H.
  assert (H1 : In x (if (0 <? offset)%Z then skipn (Z.to_nat offset) l else l)).
  { destruct (0 <=? limit)%Z; [|exact H].
    rewrite <- (firstn_skipn (Z.to_nat limit) _). apply in_or_app. left. exact H. }
  destruct (0 <? offset)%Z; [|exact H1].
  rewrite <- (firstn_skipn (Z.to_nat offset) l). apply in_or_app. right. exact H1.
Qed.

Lemma page_sorted (limit offset : Z) (l : list A) (R : A -> A -> Prop) :
  StronglySorted R l -> StronglySorted R (Limit limit (Offset offset l)).
Proof.
  intros S. unfold Limit, Offset.
  destruct (0 <=? limit)%Z; destruct (0 <? offset)%Z;
    try apply sorted_firstn; try apply sorted_skipn; exact S.
Qed.

Lemma page_length (limit offset : Z) (l : list A) :
  (0 <= limit)%Z -> (Z.of_nat (List.length (Limit limit (Offset offset l))) <= limit)%Z.
Proof.
  intros H. unfold Limit. destruct (0 <=? limit)%Z eqn:E; [|apply Z.leb_gt in E; lia].
  pose proof (firstn_le_length (Z.to_nat limit) (Offset offset l)). lia.
Qed.

Lemma page_beyond (limit offset : Z) (l : list A) :
  (0 < offset)%Z -> (Z.of_nat (List.length l) <= offset)%Z ->
  Limit limit (Offset offset l) = [].
Proof.
  intros H1 H2. unfold Limit, Offset.
  destruct (0 <? offset)%Z eqn:E; [|apply Z.ltb_ge in E; lia].
  rewrite skipn_all2 by lia. destruct (0 <=? limit)%Z; [apply firstn_nil | reflexivity].
Qed.

End Ordering.

Lemma sorted_map {A B : Type} (f : A -> B) (R : B -> B -> Prop) (l : list A) :
  StronglySorted (fun x y => R (f x) (f y)) l -> StronglySorted R (map f l).
Proof.
  induction 1 as [|a l S IH F]; simpl; constructor; [exact IH|].
  apply Forall_forall. intros y Hy. apply in_map_iff in Hy. destruct Hy as [x [<- Hx]].
  rewrite Forall_forall in F. exact (F x Hx).
Qed.

(** X12.  A page of [GetActiveListings] for a page size of 1 or more:
    it has no more entries than the page size, each entry is an active
    listing of the store, the entries come newest first, and the total is
    the number of active listings.  A page that starts at or beyond the
    total is empty. *)
Theorem GetActiveListings_page :
  forall (page pageSize : Z) (db : DB),
    (1 <= pageSize)%Z ->
    let r := ListingService.GetActiveListings page pageSize db in
    (Z.of_nat (List.length (fst r)) <= pageSize)%Z
    /\ Forall (fun resp =>
                 ListingResponse.Status resp = "active"
                 /\ exists l, In l (listings db) /\ ListingService.toResponse l = resp)
              (fst r)
    /\ StronglySorted (fun a b => (ListingResponse.ListedAt b <= ListingResponse.ListedAt a)%Z)
                      (fst r)
    /\ snd r = ListingRepository.CountActiveListings db
    /\ (forall l, Listing.Status l = "active" -> In l (listings db) ->
                  page = 1%Z -> (snd r <= pageSize)%Z ->
                  In (ListingService.toResponse l) (fst r))
    /\ ((2 <= page)%Z -> ((page - 1) * pageSize < 2 ^ 63)%Z ->
        (snd r <= (page - 1) * pageSize)%Z -> fst r = []).
Proof.
  intros page pageSize db Hps r. subst r.
  unfold ListingService.GetActiveListings, ListingRepository.GetActiveListings.
  cbv zeta. simpl fst. simpl snd.
  set (act := filter (ListingRepository.has_status "active") (listings db)).
  set (offset := int_wrap (int_wrap (page - 1) * pageSize)).
  split; [rewrite length_map; apply page_length; lia|].
  split.
  { apply Forall_forall. intros resp Hr. apply in_map_iff in Hr.
    destruct Hr as [l [<- Hl]]. apply page_in in Hl. apply order_desc_in in Hl.
    subst act. apply filter_In in Hl. destruct Hl as [Hin Hs].
    apply String.eqb_eq in Hs. split; [exact Hs|]. exists l. split; [exact Hin | reflexivity]. }
  split.
  { apply sorted_map. simpl. apply page_sorted. apply order_desc_sorted. }
  split; [reflexivity|].
  split.
  { intros l Hs Hin Hp Ht. subst page. apply in_map.
    subst offset. simpl. unfold Offset. simpl. unfold Limit.
    destruct (0 <=? pageSize)%Z eqn:E; [|apply order_desc_in].
    - rewrite firstn_all2.
      + apply order_desc_in. subst act. apply filter_In. split; [exact Hin|].
        unfold ListingRepository.has_status. rewrite Hs. reflexivity.
      + rewrite order_desc_length. fold act in Ht. lia.
    - subst act. apply filter_In. split; [exact Hin|].
      unfold ListingRepository.has_status. rewrite Hs. reflexivity. }
  intros Hp Hb Ht. fold act in Ht.
  assert (Eo : offset = ((page - 1) * pageSize)%Z).
  { subst offset. rewrite (int_wrap_small (page - 1)) by nia.
    apply int_wrap_small. nia. }
  rewrite page_beyond; [reflexivity | nia |].
  rewrite order_desc_length, Eo. exact Ht.
Qed.

(** The second page of size 1 of the sample market holds one of its
    two active listings. *)
Lemma GetActiveListings_page_witness :
  (Z.of_nat (List.length (fst (ListingService.GetActiveListings 2 1 Sample.market))) <= 1)%Z.
Proof.
  exact (proj1 (GetActiveListings_page 2 1 Sample.market (Z.le_refl 1))).
Defined.

Lemma Atoi_digits_syntax (cs : list byte) (n : Z) :
  snd (strconv.Atoi_digits cs n) <> strconv.ErrRange
  /\ (snd (strconv.Atoi_digits cs n) = strconv.ErrSyntax -> fst (strconv.Atoi_digits cs n) = 0%Z).
Proof.
  revert n. induction cs as [|c cs IH]; intros n; simpl.
  - split; [discriminate | discriminate].
  - destruct (9 <? (c + 256 - 48) mod 256); [split; [discriminate | reflexivity] | apply IH].
Qed.

(** What the handlers read from a number that does not parse: 0. *)
Lemma Atoi_syntax_zero (s : string) :
  snd (strconv.Atoi s) = strconv.ErrSyntax -> fst (strconv.Atoi s) = 0%Z.
Proof.
  unfold strconv.Atoi. cbv zeta.
  destruct (Nat.ltb 0 (List.length (bytes_of_string s))
            && Nat.ltb (List.length (bytes_of_string s)) 19).
  - destruct (bytes_of_string s) as [|c r]; [reflexivity|].
    destruct ((c =? 45) || (c =? 43)) eqn:Sg; cbv iota.
    + destruct (true && Nat.ltb (List.length r) 1); [reflexivity|].
      pose proof (Atoi_digits_syntax r 0%Z) as [D1 D2].
      destruct (strconv.Atoi_digits r 0%Z) as [n [| |]]; simpl in *;
        try discriminate; intros _; apply D2; reflexivity.
    + simpl andb. cbv iota.
      pose proof (Atoi_digits_syntax (c :: r) 0%Z) as [D1 D2].
      destruct (strconv.Atoi_digits (c :: r) 0%Z) as [n [| |]]; simpl in *;
        try discriminate; intros _; apply D2; reflexivity.
  - unfold strconv.ParseInt.
    destruct (bytes_of_string s) as [|c r]; [reflexivity|]. cbv zeta.
    destruct (strconv.ParseUint 64 (if (c =? 43) || (c =? 45) then r else c :: r))
      as [un [| |]]; try reflexivity.
    + destruct (negb (c =? 45) && (2 ^ 63 <=? un)); [discriminate|].
      destruct ((c =? 45) && (2 ^ 63 <? un)); discriminate.
    + destruct (negb (c =? 45) && (2 ^ 63 <=? un)); [discriminate|].
      destruct ((c =? 45) && (2 ^ 63 <? un)); discriminate.
Qed.

Lemma ceil_quot (total pageSize : Z) :
  (0 <= total)%Z -> (1 <= pageSize)%Z ->
  let pages := Z.quot (total + pageSize - 1) pageSize in
  ((pages - 1) * pageSize < total <= pages * pageSize)%Z.
Proof.
  intros Ht Hp pages. subst pages.
  rewrite Z.quot_div_nonneg by lia.
  pose proof (Z.div_mod (total + pageSize - 1) pageSize ltac:(lia)) as D.
  pose proof (Z.mod_pos_bound (total + pageSize - 1) pageSize ltac:(lia)) as B.
  nia.
Qed.

(** X13.  What the listings endpoint makes of its query: the page is
    at least 1, the page size is the requested one when that is from 1
    to 100 and 20 otherwise (an absent, empty or malformed value, 0, a
    negative number, a number above 100), the body holds at most a page
    size of active listings, and total_pages is the total divided by the
    page size, rounded up. *)
Theorem ListingHandler_paging :
  forall (page_q page_size_q : option string) (db : DB),
    (Z.of_nat (List.length (listings db)) < 2 ^ 62)%Z ->
    let p := ListingHandler.GetActiveListings page_q page_size_q db in
    let asked := fst (strconv.Atoi (DefaultQuery page_size_q "20")) in
    (1 <= ListingHandler.page p)%Z
    /\ ListingHandler.page_size p
       = (if (1 <=? asked)%Z && (asked <=? 100)%Z then asked else 20%Z)
    /\ (1 <= ListingHandler.page_size p <= 100)%Z
    /\ (Z.of_nat (List.length (ListingHandler.data p)) <= ListingHandler.page_size p)%Z
    /\ ListingHandler.total p = ListingRepository.CountActiveListings db
    /\ ((ListingHandler.total_pages p - 1) * ListingHandler.page_size p
        < ListingHandler.total p
        <= ListingHandler.total_pages p * ListingHandler.page_size p)%Z
    /\ (page_q = None -> ListingHandler.page p = 1%Z)
    /\ (page_size_q = None -> ListingHandler.page_size p = 20%Z)
    /\ (forall v, page_q = Some v -> snd (strconv.Atoi v) = strconv.ErrSyntax ->
                  ListingHandler.page p = 1%Z)
    /\ (forall v, page_size_q = Some v -> snd (strconv.Atoi v) = strconv.ErrSyntax ->
                  ListingHandler.page_size p = 20%Z).
Proof.
  intros page_q page_size_q db Hsmall p asked.
  set (a := fst (strconv.Atoi (DefaultQuery page_q "1"))).
  set (pg := if (a <? 1)%Z then 1%Z else a).
  set (ps := if (asked <? 1)%Z || (100 <? asked)%Z then 20%Z else asked).
  assert (Hp : p = ListingHandler.mkPage
                     (fst (ListingService.GetActiveListings pg ps db)) pg ps
                     (snd (ListingService.GetActiveListings pg ps db))
                     (Z.quot (int_wrap
                                (int_wrap (snd (ListingService.GetActiveListings pg ps db) + ps)
                                 - 1)) ps)).
  { subst p. unfold ListingHandler.GetActiveListings. cbv zeta.
    fold a. fold asked. fold pg. fold ps.
    destruct (ListingService.GetActiveListings pg ps db). reflexivity. }
  assert (Hps : (1 <= ps <= 100)%Z).
  { subst ps. destruct (asked <? 1)%Z eqn:E1; destruct (100 <? asked)%Z eqn:E2; simpl; lia. }
  assert (Hpg : (1 <= pg)%Z).
  { subst pg. destruct (a <? 1)%Z eqn:E; [lia | apply Z.ltb_ge in E; exact E]. }
  assert (Hfmt : ps = if (1 <=? asked)%Z && (asked <=? 100)%Z then asked else 20%Z).
  { subst ps. destruct (asked <? 1)%Z eqn:E1; destruct (100 <? asked)%Z eqn:E2;
      destruct (1 <=? asked)%Z eqn:E3; destruct (asked <=? 100)%Z eqn:E4; simpl;
        try reflexivity; lia. }
  assert (Ht : snd (ListingService.GetActiveListings pg ps db)
               = ListingRepository.CountActiveListings db).
  { unfold ListingService.GetActiveListings, ListingRepository.GetActiveListings.
    reflexivity. }
  assert (Hc : (0 <= ListingRepository.CountActiveListings db < 2 ^ 62)%Z).
  { unfold ListingRepository.CountActiveListings.
    pose proof (filter_length_le (ListingRepository.has_status "active") (listings db)).
    lia. }
  assert (Hlen : (Z.of_nat (List.length (fst (ListingService.GetActiveListings pg ps db)))
                  <= ps)%Z).
  { unfold ListingService.GetActiveListings, ListingRepository.GetActiveListings.
    cbv zeta. simpl fst. rewrite length_map. apply page_length. lia. }
  rewrite Hp.
  cbn [ListingHandler.page ListingHandler.page_size ListingHandler.data
       ListingHandler.total ListingHandler.total_pages].
  rewrite !Ht.
  split; [exact Hpg|]. split; [exact Hfmt|]. split; [exact Hps|]. split; [exact Hlen|].
  split; [reflexivity|].
  split.
  { rewrite (int_wrap_small (ListingRepository.CountActiveListings db + ps)) by lia.
    rewrite int_wrap_small by lia.
    apply ceil_quot; lia. }
  split; [intros ->; reflexivity|].
  split; [intros E; subst ps asked; rewrite E; reflexivity|].
  split.
  - intros v E S. subst pg a. rewrite E. simpl DefaultQuery.
    rewrite (Atoi_syntax_zero v S). reflexivity.
  - intros v E S. subst ps asked. rewrite E. simpl DefaultQuery.
    rewrite (Atoi_syntax_zero v S). reflexivity.
Qed.

(** A page size of 500 is answered with pages of 20. *)
Lemma ListingHandler_paging_witness :
  (Z.of_nat (List.length (listings Sample.market)) < 2 ^ 62)%Z
  /\ ListingHandler.page_size (ListingHandler.GetActiveListings None (Some "500") Sample.market)
     = 20%Z.
Proof.
  assert (H : (Z.of_nat (List.length (listings Sample.market)) < 2 ^ 62)%Z)
    by (vm_compute; reflexivity).
  split; [exact H|].
  destruct (ListingHandler_paging None (Some "500") Sample.market H) as [_ [E _]].
  rewrite E. vm_compute. reflexivity.
Defined.

(** A number [ParseUint] accepts is a run of decimal digits, read in
    base 10, within the bit size. *)
Lemma ParseUint_loop_ok (maxVal : N) (cs : list byte) (n v : N) :
  strconv.ParseUint_loop maxVal cs n = (v, strconv.NoError) ->
  Forall (fun c => 48 <= c <= 57) cs
  /\ v = fold_left (fun a c => a * 10 + (c - 48)) cs n
  /\ (cs <> [] -> v <= maxVal).
Proof.
  revert n. induction cs as [|c cs IH]; intros n; cbn [strconv.ParseUint_loop]; cbv zeta.
  - intros E. injection E as <-. split; [constructor|]. split; [reflexivity|].
    intros C. contradiction C. reflexivity.
  - destruct ((48 <=? c) && (c <=? 57)) eqn:D; [|discriminate].
    destruct (strconv.maxUint64 / 10 + 1 <=? n); [discriminate|].
    destruct ((strconv.maxUint64 <? n * 10 + (c - 48)) || (maxVal <? n * 10 + (c - 48)))
      eqn:R; [discriminate|].
    intros E. destruct (IH _ E) as [F [V B]].
    apply andb_true_iff in D. destruct D as [D1 D2].
    apply N.leb_le in D1, D2. apply orb_false_iff in R. destruct R as [_ R].
    apply N.ltb_ge in R.
    split; [constructor; [lia | exact F]|]. split; [exact V|].
    intros _. destruct cs as [|c' cs'].
    + simpl in V. subst v. exact R.
    + apply B. discriminate.
Qed.

(** X14.  The cancel endpoint answers 200, 400, 401 or 500, and only
    a 200 changes the store.  With 200 the id parameter is a run of
    decimal digits denoting a number below 2^32, the X-User-Address
    header is not empty and equals the seller of the record with that
    id, that record was active, and it is the one record that changed:
    to cancelled. *)
Theorem ListingHandler_CancelListing_status :
  forall (now : Time) (id_param user_address : string) (db : DB),
    NoDup (map Listing.ID (listings db)) ->
    let r := ListingHandler.CancelListing now id_param user_address db in
    ((fst r = 400%Z \/ fst r = 401%Z \/ fst r = 500%Z) /\ snd r = db)
    \/ (fst r = 200%Z
        /\ user_address <> ""
        /\ Forall (fun c => 48 <= c <= 57) (bytes_of_string id_param)
        /\ exists pre l post,
             listings db = pre ++ l :: post
             /\ Listing.ID l
                = fold_left (fun a c => a * 10 + (c - 48)) (bytes_of_string id_param) 0
             /\ Listing.ID l < 2 ^ 32
             /\ Listing.Seller l = user_address
             /\ Listing.Status l = "active"
             /\ snd r = mkDB (pre ++ restatused l "cancelled" now :: post)
                          (listings_id_seq db) (transactions db) (transactions_id_seq db)).
Proof.
  intros now id_param user_address db ND r. subst r.
  unfold ListingHandler.CancelListing.
  destruct (strconv.ParseUint 32 (bytes_of_string id_param)) as [id [| |]] eqn:P;
    [| left; split; [left; reflexivity | reflexivity]
     | left; split; [left; reflexivity | reflexivity]].
  destruct (String.eqb user_address "") eqn:Eh;
    [left; split; [right; left; reflexivity | reflexivity]|].
  apply String.eqb_neq in Eh.
  destruct (CancelListing_cases now id user_address db ND) as [[e E] | [pre [l [post H]]]].
  - rewrite E. left. split; [right; right; reflexivity | reflexivity].
  - destruct H as [H1 [H2 [H3 [H4 H5]]]]. rewrite H5. right.
    unfold strconv.ParseUint in P.
    destruct (bytes_of_string id_param) as [|c cs] eqn:B; [discriminate|].
    destruct (ParseUint_loop_ok _ _ _ _ P) as [F [V Bd]].
    split; [reflexivity|]. split; [exact Eh|]. split; [exact F|].
    exists pre, l, post. rewrite H2.
    split; [exact H1|]. split; [exact V|].
    split; [assert (Hb : id <= 2 ^ 32 - 1) by (apply Bd; discriminate);
            change (2 ^ 32) with 4294967296 in *; lia|].
    split; [exact H3|]. split; [exact H4|]. reflexivity.
Qed.

(** Bob cancels his listing 1 of the sample market. *)
Lemma ListingHandler_CancelListing_status_witness :
  NoDup (map Listing.ID (listings Sample.market))
  /\ fst (ListingHandler.CancelListing 30%Z "1" "0xdbF03B407c01E7cD3CBea99509d93f8DDDC8C6FB"
            Sample.market) = 200%Z.
Proof.
  assert (ND : NoDup (map Listing.ID (listings Sample.market))).
  { simpl. repeat constructor; simpl; intuition discriminate. }
  split; [exact ND|].
  destruct (ListingHandler_CancelListing_status 30%Z "1"
              "0xdbF03B407c01E7cD3CBea99509d93f8DDDC8C6FB" Sample.market ND)
    as [[_ H] | [H _]].
  - vm_compute in H. discriminate H.
  - exact H.
Defined.

(** *** The configuration *)

Lemma trimStart_split (s : string) :
  exists pre, blank pre = true /\ s = (pre ++ config.trimStart s)%string
              /\ (forall a, first_char (config.trimStart s) = Some a -> config.isSpace a = false).
Proof.
  induction s as [|c r IH]; simpl.
  - exists EmptyString. repeat split. discriminate.
  - destruct (config.isSpace c) eqn:Sp.
    + destruct IH as [pre [B [E F]]]. exists (String c pre). simpl. rewrite Sp, B.
      repeat split; [f_equal; exact E | exact F].
    + exists EmptyString. repeat split. simpl. intros a [= <-]. exact Sp.
Qed.

Lemma trimEnd_split (s : string) :
  exists post, blank post = true /\ s = (config.trimEnd s ++ post)%string
               /\ (forall a, last_char (config.trimEnd s) = Some a -> config.isSpace a = false)
               /\ first_char (config.trimEnd s)
                  = (if String.eqb (config.trimEnd s) "" then None else first_char s).
Proof.
  induction s as [|c r IH]; simpl.
  - exists EmptyString. repeat split. discriminate.
  - destruct IH as [post [B [E [L F]]]].
    destruct (config.trimEnd r) as [|c' r'] eqn:T.
    + destruct (config.isSpace c) eqn:Sp.
      * exists (String c post). simpl. rewrite Sp, B. simpl in E.
        repeat split; [f_equal; exact E | discriminate].
      * exists post. simpl. simpl in E.
        repeat split; [exact B | f_equal; exact E | intros a [= <-]; exact Sp].
    + exists post. simpl. split; [exact B|]. split; [f_equal; exact E|].
      split; [|reflexivity].
      intros a. destruct r' as [|c'' r'']; exact (L a).
Qed.

Lemma trimSpace_fixed (t : string) : trimmed t -> config.trimSpace t = t.
Proof.
  intros [F L]. unfold config.trimSpace.
  assert (S1 : config.trimStart t = t).
  { destruct t as [|c r]; [reflexivity|]. simpl.
    rewrite (F c eq_refl). reflexivity. }
  rewrite S1. clear F S1.
  induction t as [|c r IH]; [reflexivity|]. simpl.
  destruct r as [|c' r'].
  - simpl. rewrite (L c eq_refl). reflexivity.
  - rewrite IH; [reflexivity|]. intros a H. apply L. exact H.
Qed.

Lemma trimSpace_trimmed (s : string) : trimmed (config.trimSpace s).
Proof.
  unfold config.trimSpace, trimmed.
  destruct (trimStart_split s) as [pre [_ [_ F]]].
  destruct (trimEnd_split (config.trimStart s)) as [post [_ [_ [L Fe]]]].
  split; [|exact L].
  intros a H. rewrite Fe in H.
  destruct (String.eqb (config.trimEnd (config.trimStart s)) ""); [discriminate|].
  apply F. exact H.
Qed.

Lemma trimSpace_split (s : string) :
  exists pre post,
    blank pre = true /\ blank post = true
    /\ s = (pre ++ config.trimSpace s ++ post)%string.
Proof.
  unfold config.trimSpace.
  destruct (trimStart_split s) as [pre [B [E _]]].
  destruct (trimEnd_split (config.trimStart s)) as [post [B' [E' _]]].
  exists pre, post. split; [exact B|]. split; [exact B'|].
  rewrite <- E'. exact E.
Qed.

(** X15.  [trimSpace] removes blanks (space, tab, line feed, carriage
    return) at the two ends and nothing else: the string is a run of
    blanks, the result, and a run of blanks, and the result neither
    starts nor ends with a blank.  A string that neither starts nor ends
    with a blank is returned as it is, so trimming twice is trimming
    once. *)
Theorem trimSpace_trims :
  forall s : string,
    (exists pre post,
        blank pre = true /\ blank post = true
        /\ s = (pre ++ config.trimSpace s ++ post)%string)
    /\ trimmed (config.trimSpace s)
    /\ config.trimSpace (config.trimSpace s) = config.trimSpace s.
Proof.
  intros s. split; [apply trimSpace_split|].
  split; [apply trimSpace_trimmed | apply trimSpace_fixed, trimSpace_trimmed].
Qed.

Lemma substring_all (s : string) : String.substring 0 (String.length s) s = s.
Proof. induction s as [|c r IH]; simpl; [reflexivity | rewrite IH; reflexivity]. Qed.

Lemma prefix_empty (s : string) : String.prefix "" s = true.
Proof. destruct s; reflexivity. Qed.

Lemma append_empty_r (s : string) : (s ++ "")%string = s.
Proof. induction s as [|c r IH]; simpl; [reflexivity | rewrite IH; reflexivity]. Qed.

Lemma append_assoc (a b c : string) : ((a ++ b) ++ c = a ++ b ++ c)%string.
Proof. induction a as [|x r IH]; simpl; [reflexivity | rewrite IH; reflexivity]. Qed.

Lemma occurrences_app (c : ascii) (a b : string) :
  occurrences c (a ++ b)%string = (occurrences c a + occurrences c b)%nat.
Proof. induction a as [|x r IH]; simpl; [reflexivity | rewrite IH; lia]. Qed.

(** The loop of [splitString] with a separator of one character. *)
Lemma splitString_loop_one (c : ascii) (fuel : nat) :
  forall (rest cur : string) (acc : list string),
    (String.length rest < fuel)%nat ->
    occurrences c cur = O ->
    exists pieces,
      config.splitString_loop fuel (String c "") rest cur acc = Some (acc ++ pieces)
      /\ joined (String c "") pieces = (cur ++ rest)%string
      /\ Forall (fun x => occurrences c x = O) pieces
      /\ List.length pieces = S (occurrences c rest).
Proof.
  induction fuel as [|fuel IH]; intros rest cur acc Hf Hc; [inversion Hf|].
  destruct rest as [|a r].
  - exists [cur]. simpl. rewrite append_empty_r.
    repeat split. constructor; [exact Hc | constructor].
  - cbn [config.splitString_loop].
    change (Nat.ltb (String.length (String a r)) (String.length (String c "")))
      with false. cbv iota.
    cbn [String.prefix]. rewrite prefix_empty.
    destruct (ascii_dec c a) as [<- | Hne].
    + change (String.length (String c "")) with 1%nat.
      cbn [String.length]. rewrite Nat.sub_succ, Nat.sub_0_r.
      cbn [String.substring]. rewrite substring_all.
      destruct (IH r EmptyString (acc ++ [cur]) ltac:(simpl in Hf; lia) eq_refl)
        as [pieces [E [J [F L]]]].
      exists (cur :: pieces). rewrite E, <- app_assoc. simpl app.
      split; [reflexivity|].
      split.
      { destruct pieces as [|y ys]; [discriminate L|].
        change (joined (String c "") (cur :: y :: ys))
          with (cur ++ String c "" ++ joined (String c "") (y :: ys))%string.
        rewrite J. reflexivity. }
      split; [constructor; [exact Hc | exact F]|].
      simpl. rewrite Ascii.eqb_refl. rewrite L. reflexivity.
    + destruct (IH r (cur ++ String a "")%string acc ltac:(simpl in Hf; lia)) as
        [pieces [E [J [F L]]]].
      { rewrite occurrences_app, Hc. simpl.
        destruct (Ascii.eqb a c) eqn:Q; [|reflexivity].
        apply Ascii.eqb_eq in Q. contradiction Hne. symmetry. exact Q. }
      exists pieces. split; [exact E|].
      split; [rewrite J, append_assoc; reflexivity|].
      split; [exact F|].
      rewrite L. simpl.
      destruct (Ascii.eqb a c) eqn:Q; [|reflexivity].
      apply Ascii.eqb_eq in Q. contradiction Hne. symmetry. exact Q.
Qed.

Lemma splitString_one (c : ascii) (s : string) :
  exists pieces,
    config.splitString s (String c "") = Some pieces
    /\ joined (String c "") pieces = s
    /\ Forall (fun x => occurrences c x = O) pieces
    /\ List.length pieces = (if String.eqb s "" then O else S (occurrences c s)).
Proof.
  unfold config.splitString.
  destruct (String.eqb s "") eqn:E.
  - apply String.eqb_eq in E. subst s. exists []. repeat split. constructor.
  - destruct (splitString_loop_one c (S (String.length s)) s EmptyString []
                ltac:(lia) eq_refl) as [pieces [P [J [F L]]]].
    exists pieces. repeat split; assumption.
Qed.

(** X16.  [splitString] with a separator of one character returns
    (it neither panics nor loops), the pieces put together again with
    the separator between them are the string, no piece holds the
    separator, and a string that is not empty has one piece more than it
    has separators; the empty string has no piece. *)
Theorem splitString_one_character :
  forall (c : ascii) (s : string),
    exists pieces,
      config.splitString s (String c "") = Some pieces
      /\ joined (String c "") pieces = s
      /\ Forall (fun x => occurrences c x = O) pieces
      /\ List.length pieces = (if String.eqb s "" then O else S (occurrences c s)).
Proof.
  intros c s. unfold config.splitString.
  destruct (String.eqb s "") eqn:E.
  - apply String.eqb_eq in E. subst s. exists []. repeat split. constructor.
  - destruct (splitString_loop_one c (S (String.length s)) s EmptyString []
                ltac:(lia) eq_refl) as [pieces [P [J [F L]]]].
    exists pieces. repeat split; assumption.
Qed.

Lemma prefix_split (sep : string) :
  forall rest, String.prefix sep rest = true ->
    rest = (sep ++ String.substring (String.length sep)
                     (String.length rest - String.length sep) rest)%string.
Proof.
  induction sep as [|a sep IH]; intros rest H.
  - simpl. rewrite Nat.sub_0_r, substring_all. reflexivity.
  - destruct rest as [|b r]; [discriminate H|].
    simpl in H. destruct (ascii_dec a b) as [<- | _]; [|discriminate H].
    simpl. f_equal. apply IH. exact H.
Qed.

Lemma splitString_loop_returns (sep : string) (fuel : nat) :
  (2 <= String.length sep)%nat ->
  forall (rest cur : string) (acc : list string) (pieces : list string),
    config.splitString_loop fuel sep rest cur acc = Some pieces ->
    rest = EmptyString \/ exists pre, rest = (pre ++ sep)%string.
Proof.
  intros Hsep. induction fuel as [|fuel IH]; intros rest cur acc pieces H; [discriminate H|].
  destruct rest as [|c r]; [left; reflexivity|]. right.
  cbn [config.splitString_loop] in H.
  destruct (Nat.ltb (String.length (String c r)) (String.length sep)) eqn:Len;
    [discriminate H|].
  apply Nat.ltb_ge in Len.
  destruct (String.prefix sep (String c r)) eqn:P.
  - pose proof (prefix_split _ _ P) as E.
    destruct (IH _ _ _ _ H) as [Z | [pre Z]].
    + exists EmptyString. rewrite E at 1. rewrite Z, append_empty_r. reflexivity.
    + exists (sep ++ pre)%string. rewrite E at 1. rewrite Z, append_assoc. reflexivity.
  - destruct (IH _ _ _ _ H) as [Z | [pre Z]].
    + subst r. simpl in Len. lia.
    + exists (String c pre). simpl. rewrite Z. reflexivity.
Qed.

(** X17.  With a separator of two or more characters [splitString]
    returns only for the empty string and for strings that end with the
    separator: on any other string the slice [s[i:i+len(sep)]] runs past
    the end of the string. *)
Theorem splitString_long_separator :
  forall (s sep : string) (pieces : list string),
    (2 <= String.length sep)%nat ->
    config.splitString s sep = Some pieces ->
    s = EmptyString \/ exists pre, s = (pre ++ sep)%string.
Proof.
  intros s sep pieces Hsep H. unfold config.splitString in H.
  destruct (String.eqb s "") eqn:E; [left; apply String.eqb_eq; exact E|].
  exact (splitString_loop_returns sep _ Hsep _ _ _ _ H).
Qed.

(** A string that ends with the separator is split; one that does
    not is not. *)
Lemma splitString_long_separator_witness :
  config.splitString "a::b::" "::" = Some ["a"%string; "b"%string; EmptyString]
  /\ config.splitString "a::b" "::" = None
  /\ ("a::b::"%string = EmptyString \/ exists pre, "a::b::"%string = (pre ++ "::")%string).
Proof.
  split; [reflexivity|]. split; [reflexivity|].
  exact (splitString_long_separator "a::b::" "::" ["a"%string; "b"%string; EmptyString]
           (le_n 2) eq_refl).
Defined.

Lemma occurrences_trimSpace (c : ascii) (s : string) :
  occurrences c s = O -> occurrences c (config.trimSpace s) = O.
Proof.
  intros H. destruct (trimSpace_split s) as [pre [post [_ [_ E]]]].
  rewrite E in H. rewrite !occurrences_app in H. lia.
Qed.

Lemma getEnvAsSlice_items (s : string) :
  exists items,
    config.splitAndTrim s "," = Some items
    /\ Forall (fun x => x <> EmptyString /\ trimmed x /\ occurrences "," x = O) items.
Proof.
  unfold config.splitAndTrim.
  destruct (splitString_one ","%char s) as [pieces [E [_ [F _]]]].
  rewrite E. eexists. split; [reflexivity|].
  apply Forall_forall. intros x Hx.
  apply filter_In in Hx. destruct Hx as [Hin Hne].
  apply in_map_iff in Hin. destruct Hin as [y [<- Hy]].
  split.
  - unfold config.nonEmpty in Hne. apply negb_true_iff in Hne.
    apply String.eqb_neq. exact Hne.
  - split; [apply trimSpace_trimmed|].
    apply occurrences_trimSpace. rewrite Forall_forall in F. apply F. exact Hy.
Qed.

(** X18.  [getEnvAsSlice] returns for every environment.  The result
    is the default, or a list that is not empty of entries that are not
    empty, neither start nor end with a blank and hold no comma; it is
    the default when the variable is not set. *)
Theorem getEnvAsSlice_entries :
  forall (env : config.Environ) (key : string) (defaultValue : list string),
    exists result,
      config.getEnvAsSlice env key defaultValue = Some result
      /\ (result = defaultValue
          \/ (result <> []
              /\ Forall (fun x => x <> EmptyString /\ trimmed x /\ occurrences "," x = O)
                        result))
      /\ (env key = EmptyString -> result = defaultValue).
Proof.
  intros env key def. unfold config.getEnvAsSlice. cbv zeta.
  destruct (String.eqb (env key) "") eqn:E.
  - exists def. split; [reflexivity|]. split; [left; reflexivity | reflexivity].
  - apply String.eqb_neq in E.
    destruct (getEnvAsSlice_items (env key)) as [items [S F]]. rewrite S.
    destruct (filter config.nonEmpty items) as [|x r] eqn:R; simpl.
    + exists def. split; [reflexivity|]. split; [left; reflexivity | reflexivity].
    + exists (x :: r). split; [reflexivity|].
      split; [|intros Z; contradiction (E Z)].
      right. split; [discriminate|].
      rewrite <- R. apply Forall_forall. intros y Hy.
      apply filter_In in Hy. rewrite Forall_forall in F. apply F. apply Hy.
Qed.

Ltac by_emptiness x :=
  let E := fresh "E" in
  destruct (String.eqb x "") eqn:E;
  [apply String.eqb_eq in E; subst x | ]; cbn [negb]; cbv iota; rewrite ?E.

(** X19.  What [main] does with the chain logs, by the environment
    variables alone.  The process stops at [Validate] when
    ETHEREUM_RPC or MARKETPLACE_ADDRESS is not set, and in production
    when JWT_SECRET is not set or is the default; DB_HOST and DB_NAME
    have defaults that are not empty, so their two checks never fail.
    Otherwise the event listener runs when ENVIRONMENT is not set, is
    development or is staging, and in every other environment,
    production among them, no chain log reaches the store. *)
Theorem main_events_by_environment :
  forall (env : config.Environ) (stream : list (Time * ContractEvent)) (db : DB),
    main_events env stream db
    = if String.eqb (env "ETHEREUM_RPC") "" || String.eqb (env "MARKETPLACE_ADDRESS") ""
         || (String.eqb (env "ENVIRONMENT") "production"
             && (String.eqb (env "JWT_SECRET") ""
                 || String.eqb (env "JWT_SECRET") "your-secret-key-change-in-production"))
      then None
      else if String.eqb (env "ENVIRONMENT") ""
              || String.eqb (env "ENVIRONMENT") "development"
              || String.eqb (env "ENVIRONMENT") "staging"
           then Some (startEventListener stream db)
           else Some db.
Proof.
  intros env stream db. unfold main_events, config.Load.
  destruct (getEnvAsSlice_items (env "ALLOWED_ORIGINS")) as [items [S _]].
  assert (L : exists o, config.getEnvAsSlice env "ALLOWED_ORIGINS" ["*"%string] = Some o).
  { unfold config.getEnvAsSlice. cbv zeta.
    destruct (String.eqb (env "ALLOWED_ORIGINS") ""); [eexists; reflexivity|].
    rewrite S. destruct (Nat.eqb _ 0); eexists; reflexivity. }
  destruct L as [o L]. rewrite L. clear L S items.
  unfold config.Validate, config.IsProduction, config.IsDevelopment, config.IsStaging,
    config.getEnv.
  cbn [config.DBHost config.DBName config.EthereumRPC config.MarketplaceAddress
       config.JWTSecret config.Environment].
  generalize (env "DB_HOST"%string) (env "DB_NAME"%string) (env "ETHEREUM_RPC"%string)
    (env "MARKETPLACE_ADDRESS"%string) (env "JWT_SECRET"%string) (env "ENVIRONMENT"%string).
  intros h n r m j e.
  by_emptiness h; by_emptiness n; by_emptiness r; by_emptiness m; by_emptiness j;
  by_emptiness e;
    repeat match goal with
           | |- context [String.eqb ?a ?b] => is_var a; destruct (String.eqb a b)
           end; reflexivity.
Qed.

(** *** The NFT table *)

Lemma map_fixed {A : Type} (f : A -> A) (l : list A) :
  (forall x, In x l -> f x = x) -> map f l = l.
Proof.
  induction l as [|a l IH]; intros H; [reflexivity|]. simpl.
  rewrite (H a (or_introl eq_refl)), IH; [reflexivity|].
  intros x Hx. apply H. right. exact Hx.
Qed.

Lemma IncrementLikeCount_in_range (id : N) (tbl : NFTTable) :
  Forall (fun n => (NFT.LikeCount n < maxInt64)%Z) tbl ->
  NFTRepository.bigint_in_range tbl (NFTRepository.has_id id)
    (fun n => (NFT.LikeCount n + 1)%Z) = true.
Proof.
  intros H. unfold NFTRepository.bigint_in_range. apply forallb_forall. intros n Hn.
  rewrite Forall_forall in H. specialize (H n Hn).
  apply orb_true_iff. right. apply Z.leb_le. lia.
Qed.

(** X20.  Likes on the nfts table, for like counts from 0 and below
    2^63 - 1.  A like succeeds and adds 1 to the count of the row with
    the id; an unlike succeeds and takes 1 from that count if it is
    above 0, so no count falls below 0; a like followed by an unlike
    leaves every count as it was.  Neither checks that the NFT exists:
    for an id without a row both succeed and change nothing. *)
Theorem LikeNFT_UnlikeNFT_counts :
  forall (id : N) (tbl : NFTTable),
    Forall (fun n => (0 <= NFT.LikeCount n < maxInt64)%Z) tbl ->
    let liked := NFTService.LikeNFT id tbl in
    let unliked := NFTService.UnlikeNFT id tbl in
    fst liked = None /\ fst unliked = None
    /\ map NFT.ID (snd liked) = map NFT.ID tbl
    /\ map NFT.ID (snd unliked) = map NFT.ID tbl
    /\ map NFT.LikeCount (snd liked)
       = map (fun n => if NFT.ID n =? id then (NFT.LikeCount n + 1)%Z else NFT.LikeCount n) tbl
    /\ map NFT.LikeCount (snd unliked)
       = map (fun n => if NFT.ID n =? id then Z.max 0 (NFT.LikeCount n - 1)
                       else NFT.LikeCount n) tbl
    /\ Forall (fun n => (0 <= NFT.LikeCount n)%Z) (snd unliked)
    /\ map NFT.LikeCount (snd (NFTService.UnlikeNFT id (snd liked))) = map NFT.LikeCount tbl
    /\ (existsb (NFTRepository.has_id id) tbl = false ->
        liked = (None, tbl) /\ unliked = (None, tbl)).
Proof.
  intros id tbl H liked unliked. subst liked unliked.
  unfold NFTService.LikeNFT, NFTService.UnlikeNFT, NFTRepository.IncrementLikeCount,
    NFTRepository.DecrementLikeCount.
  rewrite IncrementLikeCount_in_range
    by (eapply Forall_impl; [|exact H]; simpl; intros; lia).
  cbn [fst snd]. unfold NFTRepository.has_id.
  split; [reflexivity|]. split; [reflexivity|].
  split; [rewrite map_map; apply map_ext; intros n; destruct (NFT.ID n =? id); reflexivity|].
  split; [rewrite map_map; apply map_ext; intros n;
          destruct ((NFT.ID n =? id) && (0 <? NFT.LikeCount n)%Z); reflexivity|].
  split; [rewrite map_map; apply map_ext; intros n; destruct (NFT.ID n =? id); reflexivity|].
  split.
  { rewrite map_map. apply map_ext_in. intros n Hn.
    rewrite Forall_forall in H. specialize (H n Hn).
    destruct (NFT.ID n =? id); simpl; [|reflexivity].
    destruct (0 <? NFT.LikeCount n)%Z eqn:P; simpl; [lia|].
    apply Z.ltb_ge in P. lia. }
  split.
  { apply Forall_forall. intros m Hm. apply in_map_iff in Hm. destruct Hm as [n [<- Hn]].
    rewrite Forall_forall in H. specialize (H n Hn).
    destruct (NFT.ID n =? id); simpl; [|lia].
    destruct (0 <? NFT.LikeCount n)%Z eqn:P; simpl; [|lia].
    apply Z.ltb_lt in P. lia. }
  split.
  { rewrite !map_map. apply map_ext_in. intros n Hn.
    rewrite Forall_forall in H. specialize (H n Hn).
    destruct (NFT.ID n =? id) eqn:E; simpl; rewrite E; simpl; [|reflexivity].
    assert (P : (0 <? NFT.LikeCount n + 1)%Z = true) by (apply Z.ltb_lt; lia).
    rewrite P. simpl. lia. }
  intros Hno.
  assert (Hid : forall n, In n tbl -> (NFT.ID n =? id) = false).
  { intros n Hn. destruct (NFT.ID n =? id) eqn:E; [|reflexivity].
    assert (X : existsb (fun n => NFT.ID n =? id) tbl = true)
      by (apply existsb_exists; exists n; split; assumption).
    unfold NFTRepository.has_id in Hno. rewrite Hno in X. discriminate X. }
  split; f_equal; apply map_fixed; intros n Hn; rewrite (Hid n Hn); reflexivity.
Qed.

(** Token 2 of the sample has no like: unliking it leaves the count
    at 0. *)
Lemma LikeNFT_UnlikeNFT_counts_witness :
  Forall (fun n => (0 <= NFT.LikeCount n < maxInt64)%Z) Sample.tokens
  /\ map NFT.LikeCount (snd (NFTService.UnlikeNFT 2 Sample.tokens)) = [2%Z; 0%Z; 0%Z].
Proof.
  assert (H : Forall (fun n => (0 <= NFT.LikeCount n < maxInt64)%Z) Sample.tokens).
  { repeat constructor; simpl; unfold maxInt64; lia. }
  split; [exact H|].
  destruct (LikeNFT_UnlikeNFT_counts 2 Sample.tokens H) as [_ [_ [_ [_ [_ [E _]]]]]].
  rewrite E. reflexivity.
Defined.

(** X21.  [Delete] on the nfts table is a soft delete that always
    reports success: no row is removed or re-keyed, the rows with the id
    get status burned and every other row stays as it is, so [GetByID]
    still finds the NFT afterwards; the counts by owner and by contract
    no longer include it. *)
Theorem NFT_Delete_is_soft :
  forall (now : Time) (id : N) (tbl : NFTTable),
    let r := NFTRepository.Delete now id tbl in
    fst r = None
    /\ map NFT.ID (snd r) = map NFT.ID tbl
    /\ Forall2 (fun n n' => if NFT.ID n =? id
                            then n' = NFTRepository.with_status now n "burned"
                            else n' = n) tbl (snd r)
    /\ (forall n, NFTRepository.GetByID id tbl = Ok n ->
                  NFTRepository.GetByID id (snd r)
                  = Ok (NFTRepository.with_status now n "burned"))
    /\ (forall owner,
          NFTRepository.CountByOwner owner (snd r)
          = Z.of_nat (List.length
                        (filter (fun n => String.eqb (NFT.Owner n) owner
                                          && NFTRepository.is_active n
                                          && negb (NFT.ID n =? id)) tbl)))
    /\ (forall contract,
          NFTRepository.CountByContract contract (snd r)
          = Z.of_nat (List.length
                        (filter (fun n => String.eqb (NFT.ContractAddress n) contract
                                          && NFTRepository.is_active n
                                          && negb (NFT.ID n =? id)) tbl))).
Proof.
  intros now id tbl r. subst r. unfold NFTRepository.Delete. cbn [fst snd].
  unfold NFTRepository.has_id.
  split; [reflexivity|].
  split; [rewrite map_map; apply map_ext; intros n; destruct (NFT.ID n =? id); reflexivity|].
  split.
  { induction tbl as [|a l IH]; simpl; constructor; [|exact IH].
    destruct (NFT.ID a =? id); reflexivity. }
  split.
  { unfold NFTRepository.GetByID, NFTRepository.has_id.
    induction tbl as [|a l IH]; simpl; [discriminate|].
    intros n. destruct (NFT.ID a =? id) eqn:E; simpl; rewrite E.
    - intros [= <-]. reflexivity.
    - apply IH. }
  split.
  - intros owner. unfold NFTRepository.CountByOwner. f_equal.
    induction tbl as [|a l IH]; simpl; [reflexivity|].
    destruct (NFT.ID a =? id) eqn:E; simpl.
    + unfold NFTRepository.is_active at 1. simpl.
      rewrite !andb_false_r. exact IH.
    + rewrite andb_true_r.
      destruct (String.eqb (NFT.Owner a) owner && NFTRepository.is_active a); simpl;
        rewrite IH; reflexivity.
  - intros contract. unfold NFTRepository.CountByContract. f_equal.
    induction tbl as [|a l IH]; simpl; [reflexivity|].
    destruct (NFT.ID a =? id) eqn:E; simpl.
    + unfold NFTRepository.is_active at 1. simpl.
      rewrite !andb_false_r. exact IH.
    + rewrite andb_true_r.
      destruct (String.eqb (NFT.ContractAddress a) contract && NFTRepository.is_active a);
        simpl; rewrite IH; reflexivity.
Qed.



(** X23.  A page of [GetUserListings] for a page size of 1 or more:
    it has no more entries than the page size, each entry is a listing of
    the store whose seller is the address asked for, character for
    character, whatever its status, the entries come newest first, and
    the total is the number of listings with that seller.  With a first
    page that holds the total, every listing of the seller is on it. *)
Theorem GetUserListings_page :
  forall (address : string) (page pageSize : Z) (db : DB),
    (1 <= pageSize)%Z ->
    let r := ListingService.GetUserListings address page pageSize db in
    (Z.of_nat (List.length (fst r)) <= pageSize)%Z
    /\ Forall (fun resp =>
                 ListingResponse.Seller resp = address
                 /\ exists l, In l (listings db) /\ ListingService.toResponse l = resp)
              (fst r)
    /\ StronglySorted (fun a b => (ListingResponse.ListedAt b <= ListingResponse.ListedAt a)%Z)
                      (fst r)
    /\ snd r = Z.of_nat (List.length (ListingRepository.GetBySeller address db))
    /\ (forall l, In l (listings db) -> Listing.Seller l = address ->
                  page = 1%Z -> (snd r <= pageSize)%Z ->
                  In (ListingService.toResponse l) (fst r)).
Proof.
  intros address page pageSize db Hps r. subst r.
  unfold ListingService.GetUserListings, ListingRepository.GetBySellerPaginated,
    ListingRepository.GetBySeller.
  cbv zeta. simpl fst. simpl snd.
  set (own := filter (ListingRepository.has_seller address) (listings db)).
  split; [rewrite length_map; apply page_length; lia|].
  split.
  { apply Forall_forall. intros resp Hr. apply in_map_iff in Hr.
    destruct Hr as [l [<- Hl]]. apply page_in in Hl. apply order_desc_in in Hl.
    subst own. apply filter_In in Hl. destruct Hl as [Hin Hs].
    apply String.eqb_eq in Hs. split; [exact Hs|]. exists l. split; [exact Hin | reflexivity]. }
  split.
  { apply sorted_map. simpl. apply page_sorted. apply order_desc_sorted. }
  split; [rewrite order_desc_length; reflexivity|].
  intros l Hin Hs Hp Ht. subst page. apply in_map.
  simpl. unfold Offset. simpl. unfold Limit.
  assert (Hl : In l own).
  { subst own. apply filter_In. split; [exact Hin|].
    unfold ListingRepository.has_seller. rewrite Hs. apply String.eqb_refl. }
  destruct (0 <=? pageSize)%Z eqn:E; [|apply order_desc_in; exact Hl].
  rewrite firstn_all2; [apply order_desc_in; exact Hl|].
  rewrite order_desc_length. lia.
Qed.

(** Bob's page of the sample market holds his cancelled listing as
    well. *)
Lemma GetUserListings_page_witness :
  (Z.of_nat (List.length
               (fst (ListingService.GetUserListings
                       "0xdbF03B407c01E7cD3CBea99509d93f8DDDC8C6FB" 1 20 Sample.market)))
   <= 20)%Z.
Proof.
  exact (proj1 (GetUserListings_page "0xdbF03B407c01E7cD3CBea99509d93f8DDDC8C6FB" 1 20
                  Sample.market ltac:(lia))).
Defined.

